(** * obs-vkcapture: the Vulkan capture layer and the capture broker

    A shallow embedding of [src/vklayer.c] (the Vulkan interposition layer)
    and of the broker's server loop ([server_thread_run] and its helpers),
    with the properties of the natural-language specification stated over
    it.

    Conventions.
    - Handles, file descriptors, flags and C integers are [Z]; array
      indices and counts that drive loops are [nat].
    - Calls that leave the process (Vulkan entry points of the next layer,
      [close], [sendmsg], [recvmsg], ...) append an event to a trace; what
      they return is read from an environment record, so that every
      theorem quantifies over all possible answers of the outside world.
    - A function whose C original has undefined behaviour on some input
      (a NULL dereference, a write past an array, signed overflow) returns
      [None] there. *)

From stdpp Require Import base list numbers.
From Stdlib Require Import ZArith Lia List.
From Stdlib Require Sorted String.
Import ListNotations.

Local Open Scope Z_scope.

(** ** Control flow shared by both halves *)

(** A statement either falls through to the next one or leaves the
    enclosing function ([return;]) or loop ([break;]). *)
Inductive flow (S : Type) : Type :=
| Normal (s : S)
| Returned (s : S).
Arguments Normal {S} s.
Arguments Returned {S} s.

Definition stmt (S : Type) : Type := S -> flow S.

Definition seq_stmt {S : Type} (c1 c2 : stmt S) : stmt S :=
  fun s => match c1 s with
           | Normal s' => c2 s'
           | Returned s' => Returned s'
           end.

Definition c_return {S : Type} : stmt S := fun s => Returned s.
Definition c_do {S : Type} (f : S -> S) : stmt S := fun s => Normal (f s).
Definition c_if {S : Type} (b : S -> bool) (c : stmt S) : stmt S :=
  fun s => if b s then c s else Normal s.

Definition run_body {S : Type} (c : stmt S) (s : S) : S :=
  match c s with
  | Normal s' => s'
  | Returned s' => s'
  end.

Notation "c1 ;;; c2" := (seq_stmt c1 c2) (at level 100, right associativity).

(** ** The capture broker (server side) *)

Module Broker.

(** Constants and field offsets that come from [capture.h], which is not
    among the sources: they are parameters of the model. *)
Record proto : Type := {
  CAPTURE_CLIENT_DATA_TYPE : Z;
  CAPTURE_CLIENT_DATA_SIZE : nat;
  CAPTURE_TEXTURE_DATA_TYPE : Z;
  CAPTURE_TEXTURE_DATA_SIZE : nat;
  (** byte offset of the [uint8_t nfd] member of [capture_texture_data] *)
  tdata_nfd_offset : nat
}.

(** Linux values. [ECONNRESET] and [ECONNABORTED] only decide whether an
    error is logged and do not appear below. *)
Definition EAGAIN : Z := 11.
Definition EWOULDBLOCK : Z := 11.
Definition SOL_SOCKET : Z := 1.
Definition SCM_RIGHTS : Z := 1.
Definition POLLIN : Z := 1.

Record pollfd : Type := {
  fd : Z;
  events : Z;
  revents : Z
}.

Record vkcapture_client_t : Type := {
  id : Z;
  sockfd : Z;
  buf_id : Z;
  buf_fds : list Z;        (* int buf_fds[4] *)
  cdata : list Z;          (* struct capture_client_data, as bytes *)
  tdata : list Z           (* struct capture_texture_data, as bytes *)
}.

(** The [server] singleton together with the locals of
    [server_thread_run] that outlive one loop iteration, and the list of
    descriptors handed to [close], oldest first. *)
Record server_t : Type := {
  fds : list pollfd;
  clients : list vkcapture_client_t;
  bufid : Z;
  clientid : Z;
  closed : list Z
}.

Definition set_fds (f : list pollfd) (s : server_t) : server_t :=
  {| fds := f; clients := clients s; bufid := bufid s;
     clientid := clientid s; closed := closed s |}.
Definition set_clients (c : list vkcapture_client_t) (s : server_t) : server_t :=
  {| fds := fds s; clients := c; bufid := bufid s;
     clientid := clientid s; closed := closed s |}.
Definition set_bufid (b : Z) (s : server_t) : server_t :=
  {| fds := fds s; clients := clients s; bufid := b;
     clientid := clientid s; closed := closed s |}.
Definition set_clientid (b : Z) (s : server_t) : server_t :=
  {| fds := fds s; clients := clients s; bufid := bufid s;
     clientid := b; closed := closed s |}.
Definition do_close (l : list Z) (s : server_t) : server_t :=
  {| fds := fds s; clients := clients s; bufid := bufid s;
     clientid := clientid s; closed := closed s ++ l |}.

Definition set_buf_fds (l : list Z) (c : vkcapture_client_t) : vkcapture_client_t :=
  {| id := id c; sockfd := sockfd c; buf_id := buf_id c; buf_fds := l;
     cdata := cdata c; tdata := tdata c |}.
Definition set_buf_id (b : Z) (c : vkcapture_client_t) : vkcapture_client_t :=
  {| id := id c; sockfd := sockfd c; buf_id := b; buf_fds := buf_fds c;
     cdata := cdata c; tdata := tdata c |}.
Definition set_cdata (l : list Z) (c : vkcapture_client_t) : vkcapture_client_t :=
  {| id := id c; sockfd := sockfd c; buf_id := buf_id c; buf_fds := buf_fds c;
     cdata := l; tdata := tdata c |}.
Definition set_tdata (l : list Z) (c : vkcapture_client_t) : vkcapture_client_t :=
  {| id := id c; sockfd := sockfd c; buf_id := buf_id c; buf_fds := buf_fds c;
     cdata := cdata c; tdata := l |}.

(** [server_add_fd]: [da_push_back(server.fds, &p)]; [p.revents] is not
    initialised, the entry gets whatever the stack held, [rev]. *)
Definition server_add_fd (f ev rev : Z) (s : server_t) : server_t :=
  set_fds (fds s ++ [ {| fd := f; events := ev; revents := rev |} ]) s.

(** [server_remove_fd]: erase the first entry whose [fd] matches. *)
Fixpoint remove_first_fd (f : Z) (l : list pollfd) : list pollfd :=
  match l with
  | [] => []
  | p :: l' => if fd p =? f then l' else p :: remove_first_fd f l'
  end.

Definition server_remove_fd (f : Z) (s : server_t) : server_t :=
  set_fds (remove_first_fd f (fds s)) s.

Fixpoint has_event (f : Z) (l : list pollfd) : bool :=
  match l with
  | [] => false
  | p :: l' => if (fd p =? f) && negb (revents p =? 0) then true
               else has_event f l'
  end.

Definition server_has_event_on_fd (f : Z) (s : server_t) : bool :=
  has_event f (fds s).

(** The descriptors of a [buf_fds] array that the
    [if (buf_fds[i] >= 0) close(buf_fds[i])] loop closes, in order. *)
Definition held_fds (l : list Z) : list Z :=
  List.filter (fun x => 0 <=? x) (take 4 l).

(** [server_cleanup_client(client)], with [client == server.clients.array + i]. *)
Definition server_cleanup_client (i : nat) (s : server_t) : server_t :=
  match clients s !! i with
  | None => s
  | Some c =>
      let s1 := do_close [sockfd c] s in
      let s2 := server_remove_fd (sockfd c) s1 in
      let s3 := do_close (held_fds (buf_fds c)) s2 in
      (* buf_fds[i] = -1 is written to the record that is erased next *)
      set_clients (delete i (clients s3)) s3
  end.

(** What one [recvmsg] call delivers. *)
Record cmsghdr : Type := {
  cmsg_level : Z;
  cmsg_type : Z;
  cmsg_data : list Z     (* the ints after the header; cmsg_len = header + 4 * length *)
}.

Inductive recv_result : Type :=
| RecvErr (errno : Z)                                    (* n == -1 *)
| RecvData (payload : list Z) (cmsg : option cmsghdr).   (* n == length payload *)

Inductive loop_ctl : Type := Continue | Break.

(** The stack buffer after [recvmsg] wrote [payload] at its start: bytes
    beyond the payload keep what the buffer held before. *)
Definition recv_into (P : proto) (buf payload : list Z) : list Z :=
  take (CAPTURE_TEXTURE_DATA_SIZE P) (payload ++ drop (length payload) buf).

Definition pad4 (l : list Z) : list Z := take 4 (l ++ replicate 4 (-1)).

Definition INT_MAX : Z := 2147483647.

Section ReceiveLoop.
Variable P : proto.

(** [io.iov_len]: set once to [CAPTURE_TEXTURE_DATA_SIZE] and never
    written again; [recvmsg] does not change it. *)
Definition iov_len : nat := CAPTURE_TEXTURE_DATA_SIZE P.

Definition buf0 (buf : list Z) : Z := nth 0 buf 0.

Definition tdata_nfd (c : vkcapture_client_t) : Z :=
  nth (tdata_nfd_offset P) (tdata c) 0.

(** The [CAPTURE_TEXTURE_DATA_TYPE] branch, after the [memcpy] into
    [client->tdata]. *)
Definition handle_texture (i : nat) (c : vkcapture_client_t)
    (cmsg : option cmsghdr) (s : server_t) : option (loop_ctl * server_t) :=
  match cmsg with
  | None => Some (Break, server_cleanup_client i s)
  | Some h =>
      if negb (cmsg_level h =? SOL_SOCKET) || negb (cmsg_type h =? SCM_RIGHTS)
      then Some (Break, server_cleanup_client i s)
      else
        let nfd := length (cmsg_data h) in
        if (4 <? nfd)%nat then None          (* buf_fds[i] written past the array *)
        else
          let new_fds := pad4 (cmsg_data h) in
          if negb (iov_len =? CAPTURE_TEXTURE_DATA_SIZE P)%nat
             || negb (tdata_nfd c =? Z.of_nat nfd)
          then Some (Break, server_cleanup_client i (do_close (cmsg_data h) s))
          else
            if bufid s =? INT_MAX then None  (* ++bufid overflows *)
            else
              let s1 := do_close (held_fds (buf_fds c)) s in
              let b := bufid s1 + 1 in
              let c' := set_buf_id b (set_buf_fds new_fds c) in
              Some (Continue,
                    set_bufid b (set_clients (<[i := c']> (clients s1)) s1))
  end.

(** One turn of the [while (true)] loop around [recvmsg]. *)
Definition recv_step (i : nat) (buf : list Z) (r : recv_result)
    (s : server_t) : option (loop_ctl * list Z * server_t) :=
  match r with
  | RecvErr e =>
      if (e =? EAGAIN) || (e =? EWOULDBLOCK) then Some (Break, buf, s)
      else Some (Break, buf, server_cleanup_client i s)
  | RecvData payload cmsg =>
      if (length payload =? 0)%nat
      then Some (Break, buf, server_cleanup_client i s)
      else
        let buf' := recv_into P buf payload in
        match clients s !! i with
        | None => None
        | Some c =>
            if buf0 buf' =? CAPTURE_CLIENT_DATA_TYPE P then
              if negb (iov_len =? CAPTURE_CLIENT_DATA_SIZE P)%nat
              then Some (Break, buf', server_cleanup_client i s)
              else
                let c' := set_cdata (take (CAPTURE_CLIENT_DATA_SIZE P) buf') c in
                Some (Break, buf', set_clients (<[i := c']> (clients s)) s)
            else if buf0 buf' =? CAPTURE_TEXTURE_DATA_TYPE P then
              let c' := set_tdata buf' c in
              let s' := set_clients (<[i := c']> (clients s)) s in
              match handle_texture i c' cmsg s' with
              | None => None
              | Some (ctl, s'') => Some (ctl, buf', s'')
              end
            else Some (Continue, buf', s)
        end
  end.

(** The whole [while (true)] loop for client [i]: [rs] lists what the
    successive [recvmsg] calls return; once it is used up the socket has
    nothing left and [recvmsg] fails with [EAGAIN]. *)
Fixpoint recv_loop (i : nat) (buf : list Z) (rs : list recv_result)
    (s : server_t) : option server_t :=
  match rs with
  | [] => Some s
  | r :: rs' =>
      match recv_step i buf r s with
      | None => None
      | Some (Break, _, s') => Some s'
      | Some (Continue, buf', s') => recv_loop i buf' rs' s'
      end
  end.

(** [for (i = 0; i < server.clients.num; i++)]: [inbox] gives, per socket,
    what its [recvmsg] calls return, [stack i] what the uninitialised
    [buf] holds when the body is entered for index [i]. The loop runs at
    most once per client present at its start. *)
Fixpoint clients_loop (fuel i : nat) (stack : nat -> list Z)
    (inbox : Z -> list recv_result) (s : server_t) : option server_t :=
  match fuel with
  | O => Some s
  | Datatypes.S fuel' =>
      match clients s !! i with
      | None => Some s
      | Some c =>
          if server_has_event_on_fd (sockfd c) s then
            match recv_loop i (stack i) (inbox (sockfd c)) s with
            | None => None
            | Some s' => clients_loop fuel' (Datatypes.S i) stack inbox s'
            end
          else clients_loop fuel' (Datatypes.S i) stack inbox s
      end
  end.

(** The [accept4] block: [clientfd] is what [accept4] returned. *)
Definition accept_client (clientfd rev : Z) (s : server_t) : option server_t :=
  if 0 <=? clientfd then
    if clientid s =? INT_MAX then None
    else
      let cid := clientid s + 1 in
      let c := {| id := cid; sockfd := clientfd; buf_id := 0;
                  buf_fds := replicate 4 (-1); cdata := []; tdata := [] |} in
      Some (server_add_fd clientfd POLLIN rev
              (set_clients (clients s ++ [c]) (set_clientid cid s)))
  else Some s.

(** [poll] overwrites every [revents]. *)
Definition poll_ready (ready : Z -> Z) (s : server_t) : server_t :=
  set_fds (List.map (fun p => {| fd := fd p; events := events p;
                                 revents := ready (fd p) |}) (fds s)) s.

(** One iteration of [while (!server.quit)], for a [poll] that reported
    at least one ready descriptor. *)
Definition server_iteration (listenfd : Z) (ready : Z -> Z) (clientfd rev : Z)
    (stack : nat -> list Z) (inbox : Z -> list recv_result) (s : server_t)
    : option server_t :=
  let s1 := poll_ready ready s in
  match (if server_has_event_on_fd listenfd s1
         then accept_client clientfd rev s1 else Some s1) with
  | None => None
  | Some s2 => clients_loop (length (clients s2)) 0 stack inbox s2
  end.

End ReceiveLoop.

(** State after [da_init] and [server_add_fd(sockfd, POLLIN)]. *)
Definition server_start (listenfd rev : Z) : server_t :=
  server_add_fd listenfd POLLIN rev
    {| fds := []; clients := []; bufid := 0; clientid := 0; closed := [] |}.

End Broker.

(** ** The Vulkan layer (producer side), [src/vklayer.c] *)

Module Layer.

Definition VK_SUCCESS : Z := 0.
Definition VK_NULL_HANDLE : Z := 0.
Definition VK_MEMORY_PROPERTY_DEVICE_LOCAL_BIT : Z := 1.
Definition VK_IMAGE_USAGE_TRANSFER_SRC_BIT : Z := 1.
Definition VK_IMAGE_LAYOUT_GENERAL : Z := 1.
Definition VK_IMAGE_LAYOUT_TRANSFER_SRC_OPTIMAL : Z := 6.
Definition VK_IMAGE_LAYOUT_TRANSFER_DST_OPTIMAL : Z := 7.
Definition VK_IMAGE_LAYOUT_PRESENT_SRC_KHR : Z := 1000001002.
Definition VK_QUEUE_FAMILY_IGNORED : Z := 4294967295.
Definition VK_QUEUE_FAMILY_EXTERNAL : Z := 4294967294.
Definition VK_PIPELINE_STAGE_TOP_OF_PIPE_BIT : Z := 1.
Definition VK_PIPELINE_STAGE_TRANSFER_BIT : Z := 4096.
Definition VK_PIPELINE_STAGE_BOTTOM_OF_PIPE_BIT : Z := 8192.
Definition EAGAIN : Z := 11.
Definition EWOULDBLOCK : Z := 11.

(** *** Hook data *)

Record vk_frame_data : Type := {
  cmd_pool : Z;
  cmd_buffer : Z;
  fence : Z;
  cmd_buffer_busy : bool
}.

(** [frames] is the array of [frame_count] slots: the two C members are
    always written together ([add_queue_data],
    [vk_shtex_create_frame_objects], [vk_shtex_destroy_frame_objects]), so
    [frame_count] is the length of the list. *)
Record vk_queue_data : Type := {
  fam_idx : Z;
  supports_transfer : bool;
  frames : list vk_frame_data;
  frame_index : nat
}.

Definition frame_count (q : vk_queue_data) : nat := length (frames q).

Record vk_swap_data : Type := {
  swap_node : Z;                 (* the address of the structure and of its list node *)
  image_extent : Z * Z;          (* width, height *)
  format : Z;
  export_image : Z;
  export_mem : Z;
  export_layout : Z * Z;         (* rowPitch, offset *)
  swap_images : list Z;
  image_count : nat;
  dmabuf_fd : Z;
  captured : bool
}.

(** A [vk_obj_list] is a list of nodes, newest first, each with its key
    [obj]. [cur_swap], the only pointer to a node that outlives a call,
    holds the address of the swapchain data it points to ([swap_node]);
    [None] is the NULL pointer. *)
Record vk_data : Type := {
  device : Z;
  valid : bool;
  phy_device : Z;
  swaps : list (Z * vk_swap_data);
  cur_swap : option Z;
  queues : list (Z * vk_queue_data)
}.

Record capture_data_t : Type := {
  connfd : Z;
  capturing : bool
}.

(** *** What the layer does to the outside world *)

Inductive freed : Type :=
| FrFrames (queue : Z)
| FrQueue (queue : Z)
| FrSwapImages (sc : Z)
| FrSwap (sc : Z)
| FrDevice (key : Z).

Record image_barrier : Type := {
  mb_image : Z;
  oldLayout : Z;
  newLayout : Z;
  srcQueueFamilyIndex : Z;
  dstQueueFamilyIndex : Z
}.

Inductive event : Type :=
| EvWaitForFences (f : Z)
| EvResetFences (f : Z)
| EvCreateFence
| EvDestroyFence (f : Z)
| EvCreateCommandPool (fam : Z)
| EvAllocateCommandBuffers (pool : Z)
| EvDestroyCommandPool (pool : Z)
| EvResetCommandPool (pool : Z)
| EvBeginCommandBuffer (cb : Z)
| EvCmdPipelineBarrier (cb src_stage dst_stage : Z) (mb : list image_barrier)
| EvCmdCopyImage (cb src dst w h : Z)
| EvEndCommandBuffer (cb : Z)
| EvQueueSubmit (q cb f : Z)
| EvCreateImage (fmt w h : Z)
| EvDestroyImage (img : Z)
| EvGetImageSubresourceLayout (img : Z)
| EvGetImageMemoryRequirements2 (img : Z)
| EvGetPhysicalDeviceMemoryProperties (phy : Z)
| EvAllocateMemory (size idx : Z)
| EvFreeMemory (mem : Z)
| EvBindImageMemory2 (img mem : Z)
| EvGetMemoryFdKHR (mem : Z)
| EvConnect (sock : Z)
| EvRecv (sock : Z)
| EvClose (f : Z)
| EvSendmsg (sock : Z) (bytes : list Z) (scm_rights : list Z)
| EvPerror
| EvVkFree (what : freed)
| EvNextCreateSwapchainKHR (usage : Z)
| EvGetSwapchainImagesKHR (sc : Z)
| EvNextDestroySwapchainKHR (sc : Z)
| EvNextDestroyDevice (dev : Z)
| EvNextQueuePresentKHR (q : Z).

Definition trace : Type := list event.

(** What the outside world answers during one layer operation. A Vulkan
    call that returns a handle through a pointer gives the result code and
    the value stored; [None] means that the callee left the variable
    alone. *)
Record env : Type := {
  e_socket : Z;                       (* socket() *)
  e_connect : Z;                      (* connect() *)
  e_recv : Z * Z;                     (* recv(): n, errno *)
  e_sendmsg : Z;                      (* sendmsg() *)
  e_pad : list Z;                     (* padding bytes of msg_texture_data *)
  e_CreateImage : Z * Z;
  e_layout : Z * Z;                   (* GetImageSubresourceLayout: rowPitch, offset *)
  e_memreq : Z * Z;                   (* memoryRequirements: size, memoryTypeBits *)
  e_memtypes : list Z;                (* propertyFlags of memoryTypes[0..memoryTypeCount) *)
  e_AllocateMemory : Z * option Z;
  e_BindImageMemory2 : Z;
  e_GetMemoryFdKHR : Z * option Z;
  e_alloc_frames : bool;              (* vk_alloc of a frame array returned non-NULL *)
  e_frame : nat -> vk_frame_data;     (* what frame slot i holds after its three creation calls *)
  e_QueueSubmit : Z;
  e_QueuePresentKHR : Z;
  e_CreateSwapchainKHR : Z -> Z * Z;  (* by imageUsage: result, swapchain *)
  e_GetSwapchainImagesKHR : Z * nat;  (* first call: result, count *)
  e_alloc_swap_data : bool;           (* vk_alloc returned non-NULL *)
  e_swap_node : Z;                    (* ... and the address of that block *)
  e_swap_images : nat * list Z;       (* second GetSwapchainImagesKHR call: count, images *)
  e_garbage_layout : Z * Z            (* export_layout of fresh swap data *)
}.

(** State seen by the functions that work on one device: the device's
    hook data, the process-wide [capture_data], the static [limiter] of
    [capture_update_socket] and the trace. *)
Record st : Type := {
  dev : vk_data;
  cap : capture_data_t;
  limiter : Z;
  tr : trace
}.

Definition set_dev (d : vk_data) (s : st) : st :=
  {| dev := d; cap := cap s; limiter := limiter s; tr := tr s |}.
Definition set_cap (c : capture_data_t) (s : st) : st :=
  {| dev := dev s; cap := c; limiter := limiter s; tr := tr s |}.
Definition set_limiter (l : Z) (s : st) : st :=
  {| dev := dev s; cap := cap s; limiter := l; tr := tr s |}.
Definition set_tr (t : trace) (s : st) : st :=
  {| dev := dev s; cap := cap s; limiter := limiter s; tr := t |}.
Definition emit (l : list event) (s : st) : st := set_tr (tr s ++ l) s.

Definition set_connfd (f : Z) (c : capture_data_t) : capture_data_t :=
  {| connfd := f; capturing := capturing c |}.
Definition set_capturing (b : bool) (c : capture_data_t) : capture_data_t :=
  {| connfd := connfd c; capturing := b |}.

Definition set_valid (b : bool) (d : vk_data) : vk_data :=
  {| device := device d; valid := b; phy_device := phy_device d;
     swaps := swaps d; cur_swap := cur_swap d; queues := queues d |}.
Definition set_swaps (l : list (Z * vk_swap_data)) (d : vk_data) : vk_data :=
  {| device := device d; valid := valid d; phy_device := phy_device d;
     swaps := l; cur_swap := cur_swap d; queues := queues d |}.
Definition set_cur_swap (c : option Z) (d : vk_data) : vk_data :=
  {| device := device d; valid := valid d; phy_device := phy_device d;
     swaps := swaps d; cur_swap := c; queues := queues d |}.
Definition set_queues (l : list (Z * vk_queue_data)) (d : vk_data) : vk_data :=
  {| device := device d; valid := valid d; phy_device := phy_device d;
     swaps := swaps d; cur_swap := cur_swap d; queues := l |}.

Definition set_export_image (x : Z) (s : vk_swap_data) : vk_swap_data :=
  {| swap_node := swap_node s; image_extent := image_extent s; format := format s; export_image := x;
     export_mem := export_mem s; export_layout := export_layout s;
     swap_images := swap_images s; image_count := image_count s;
     dmabuf_fd := dmabuf_fd s; captured := captured s |}.
Definition set_export_mem (x : Z) (s : vk_swap_data) : vk_swap_data :=
  {| swap_node := swap_node s; image_extent := image_extent s; format := format s;
     export_image := export_image s; export_mem := x;
     export_layout := export_layout s; swap_images := swap_images s;
     image_count := image_count s; dmabuf_fd := dmabuf_fd s;
     captured := captured s |}.
Definition set_export_layout (x : Z * Z) (s : vk_swap_data) : vk_swap_data :=
  {| swap_node := swap_node s; image_extent := image_extent s; format := format s;
     export_image := export_image s; export_mem := export_mem s;
     export_layout := x; swap_images := swap_images s;
     image_count := image_count s; dmabuf_fd := dmabuf_fd s;
     captured := captured s |}.
Definition set_dmabuf_fd (x : Z) (s : vk_swap_data) : vk_swap_data :=
  {| swap_node := swap_node s; image_extent := image_extent s; format := format s;
     export_image := export_image s; export_mem := export_mem s;
     export_layout := export_layout s; swap_images := swap_images s;
     image_count := image_count s; dmabuf_fd := x; captured := captured s |}.
Definition set_captured (x : bool) (s : vk_swap_data) : vk_swap_data :=
  {| swap_node := swap_node s; image_extent := image_extent s; format := format s;
     export_image := export_image s; export_mem := export_mem s;
     export_layout := export_layout s; swap_images := swap_images s;
     image_count := image_count s; dmabuf_fd := dmabuf_fd s; captured := x |}.

Definition set_frames (l : list vk_frame_data) (q : vk_queue_data) : vk_queue_data :=
  {| fam_idx := fam_idx q; supports_transfer := supports_transfer q;
     frames := l; frame_index := frame_index q |}.
Definition set_frame_index (i : nat) (q : vk_queue_data) : vk_queue_data :=
  {| fam_idx := fam_idx q; supports_transfer := supports_transfer q;
     frames := frames q; frame_index := i |}.
Definition set_busy (b : bool) (f : vk_frame_data) : vk_frame_data :=
  {| cmd_pool := cmd_pool f; cmd_buffer := cmd_buffer f; fence := fence f;
     cmd_buffer_busy := b |}.
Definition set_fence (x : Z) (f : vk_frame_data) : vk_frame_data :=
  {| cmd_pool := cmd_pool f; cmd_buffer := cmd_buffer f; fence := x;
     cmd_buffer_busy := cmd_buffer_busy f |}.
Definition set_cmd_pool (x : Z) (f : vk_frame_data) : vk_frame_data :=
  {| cmd_pool := x; cmd_buffer := cmd_buffer f; fence := fence f;
     cmd_buffer_busy := cmd_buffer_busy f |}.

(** *** Object lists *)

Section ObjList.
Context {A : Type}.

(** [add_obj_data]: the new node becomes the root. *)
Definition add_obj_data (l : list (Z * A)) (obj : Z) (data : A) : list (Z * A) :=
  (obj, data) :: l.

Fixpoint get_obj_data (l : list (Z * A)) (obj : Z) : option A :=
  match l with
  | [] => None
  | (k, a) :: l' => if k =? obj then Some a else get_obj_data l' obj
  end.

Fixpoint remove_obj_data (l : list (Z * A)) (obj : Z) : list (Z * A) :=
  match l with
  | [] => []
  | (k, a) :: l' => if k =? obj then l' else (k, a) :: remove_obj_data l' obj
  end.

(** A write through the pointer that [get_obj_data] returned. *)
Fixpoint put_obj_data (l : list (Z * A)) (obj : Z) (data : A) : list (Z * A) :=
  match l with
  | [] => []
  | (k, a) :: l' =>
      if k =? obj then (k, data) :: l' else (k, a) :: put_obj_data l' obj data
  end.

(** A walk ([obj_walk_begin] .. [obj_walk_next] .. [obj_walk_end]) whose
    body updates the visited node and the trace. *)
Fixpoint obj_walk (body : Z -> A -> trace -> A * trace) (l : list (Z * A))
    (t : trace) : list (Z * A) * trace :=
  match l with
  | [] => ([], t)
  | (k, a) :: l' =>
      let '(a', t1) := body k a t in
      let '(l'', t2) := obj_walk body l' t1 in
      ((k, a') :: l'', t2)
  end.
End ObjList.

Definition get_swap_data (d : vk_data) (sc : Z) : option vk_swap_data :=
  get_obj_data (swaps d) sc.
Definition get_queue_data (d : vk_data) (queue : Z) : option vk_queue_data :=
  get_obj_data (queues d) queue.
Definition put_swap (sc : Z) (s : vk_swap_data) (d : vk_data) : vk_data :=
  set_swaps (put_obj_data (swaps d) sc s) d.
Definition put_queue (queue : Z) (q : vk_queue_data) (d : vk_data) : vk_data :=
  set_queues (put_obj_data (queues d) queue q) d.

(** *** The producer socket *)

(** [capture_init] *)
Definition capture_init : capture_data_t := {| connfd := -1; capturing := false |}.

(** [capture_try_connect] *)
Definition capture_try_connect (e : env) (s : st) : bool * st :=
  let sock := e_socket e in
  let s1 := emit [EvConnect sock] s in
  if e_connect e =? -1 then (false, emit [EvClose sock] s1)
  else (true, set_cap (set_connfd sock (cap s1)) s1).

(** [capture_update_socket], as a sequence of statements with its three
    early returns. *)
Definition capture_update_socket (e : env) : st -> st :=
  run_body (
    c_do (fun s => set_limiter (limiter s + 1) s) ;;;
    c_if (fun s => limiter s <? 60) c_return ;;;
    c_do (set_limiter 0) ;;;
    (fun s =>
       if connfd (cap s) <? 0 then
         let '(ok, s1) := capture_try_connect e s in
         if ok then Normal s1 else Returned s1
       else Normal s) ;;;
    c_do (fun s => emit [EvRecv (connfd (cap s))] s) ;;;
    c_if (fun s => (fst (e_recv e) =? -1)
                   && ((snd (e_recv e) =? EAGAIN) || (snd (e_recv e) =? EWOULDBLOCK)))
         c_return ;;;
    c_if (fun s => fst (e_recv e) <=? 0)
         (c_do (fun s => set_cap (set_connfd (-1) (cap s))
                           (emit [EvClose (connfd (cap s))] s)))).

(** The [n] low bytes of [x], least significant first. *)
Definition le_bytes (n : nat) (x : Z) : list Z :=
  List.map (fun k => (x / 256 ^ Z.of_nat k) mod 256) (seq 0 n).

(** The object representation of the local [struct msg_texture_data] that
    [capture_init_shtex] fills in: five [int]s, the padding the ABI puts
    before the [uint64_t] (left as found on the stack), and [modifiers]. *)
Definition msg_texture_data (e : env) (swap : vk_swap_data) : list Z :=
  le_bytes 4 (fst (image_extent swap)) ++      (* td.width *)
  le_bytes 4 (snd (image_extent swap)) ++      (* td.height *)
  le_bytes 4 0 ++                              (* td.fourcc = 0 *)
  le_bytes 4 (fst (export_layout swap)) ++     (* td.stride = rowPitch *)
  le_bytes 4 (snd (export_layout swap)) ++     (* td.offset *)
  e_pad e ++
  le_bytes 8 0.                                (* td.modifiers = 0 *)

(** [capture_init_shtex] *)
Definition capture_init_shtex (e : env) (c : capture_data_t)
    (swap : vk_swap_data) (t : trace) : capture_data_t * vk_swap_data * trace :=
  let t1 := t ++ [EvSendmsg (connfd c) (msg_texture_data e swap) [dmabuf_fd swap]] in
  let sent := e_sendmsg e in
  let t2 := if sent <? 0 then t1 ++ [EvPerror] else t1 in
  (set_capturing true c, set_captured true swap, t2).

Definition capture_should_stop (c : capture_data_t) : bool :=
  capturing c && (connfd c <? 0).
Definition capture_should_init (c : capture_data_t) : bool :=
  negb (capturing c) && (0 <=? connfd c).
Definition capture_ready (c : capture_data_t) : bool := capturing c.

(** *** Fences and teardown *)

(** [vk_shtex_clear_fence] *)
Definition vk_shtex_clear_fence (f : vk_frame_data) (t : trace)
    : vk_frame_data * trace :=
  if cmd_buffer_busy f
  then (set_busy false f, t ++ [EvWaitForFences (fence f); EvResetFences (fence f)])
  else (f, t).

(** A loop over the slots of a frame array whose body updates the slot
    and the trace. *)
Fixpoint frames_loop (body : vk_frame_data -> trace -> vk_frame_data * trace)
    (l : list vk_frame_data) (t : trace) : list vk_frame_data * trace :=
  match l with
  | [] => ([], t)
  | f :: l' =>
      let '(f', t1) := body f t in
      let '(l'', t2) := frames_loop body l' t1 in
      (f' :: l'', t2)
  end.

(** [vk_shtex_wait_until_pool_idle]: a [return;] followed by the loop over
    the frame slots. *)
Definition vk_shtex_wait_until_pool_idle : vk_queue_data * trace -> vk_queue_data * trace :=
  run_body (
    c_return ;;;
    c_do (fun '(q, t) =>
            let '(fs, t') :=
              frames_loop (fun f t0 =>
                             if negb (cmd_pool f =? VK_NULL_HANDLE)
                             then vk_shtex_clear_fence f t0 else (f, t0))
                          (frames q) t in
            (set_frames fs q, t'))).

(** [vk_shtex_wait_until_idle] *)
Definition vk_shtex_wait_until_idle (s : st) : st :=
  let '(qs, t) :=
    obj_walk (fun _ q t => vk_shtex_wait_until_pool_idle (q, t))
             (queues (dev s)) (tr s) in
  set_tr t (set_dev (set_queues qs (dev s)) s).

(** The body of the swapchain walk of [vk_shtex_free]. *)
Definition free_swap (swap : vk_swap_data) (t : trace) : vk_swap_data * trace :=
  let t1 := if negb (export_image swap =? VK_NULL_HANDLE)
            then t ++ [EvDestroyImage (export_image swap)] else t in
  let '(swap1, t2) :=
    if 0 <=? dmabuf_fd swap
    then (set_dmabuf_fd (-1) swap, t1 ++ [EvClose (dmabuf_fd swap)])
    else (swap, t1) in
  let t3 := if negb (export_mem swap1 =? VK_NULL_HANDLE)
            then t2 ++ [EvFreeMemory (export_mem swap1)] else t2 in
  (set_captured false
     (set_export_image VK_NULL_HANDLE (set_export_mem VK_NULL_HANDLE swap1)), t3).

(** [vk_shtex_free] *)
Definition vk_shtex_free (s : st) : st :=
  let s1 := vk_shtex_wait_until_idle s in
  let '(sw, t) := obj_walk (fun _ swap t => free_swap swap t) (swaps (dev s1)) (tr s1) in
  set_cap (set_capturing false (cap s1))
    (set_tr t (set_dev (set_cur_swap None (set_swaps sw (dev s1))) s1)).

(** *** Export image setup *)

Definition uint32 (x : Z) : Z := x mod 2 ^ 32.

(** The test of the memory-type loop, for index [i]: [1 << i] is an [int]
    that the [&] converts to [uint32_t]. *)
Definition mem_type_ok (bits : Z) (types : list Z) (i : nat) : bool :=
  negb (Z.land bits (uint32 (Z.shiftl 1 (Z.of_nat i))) =? 0)
  && (Z.land (nth i types 0) VK_MEMORY_PROPERTY_DEVICE_LOCAL_BIT
      =? VK_MEMORY_PROPERTY_DEVICE_LOCAL_BIT).

(** [for (; mem_type_idx < pdmp.memoryTypeCount; mem_type_idx++)] with its
    [break]: [n] iterations are left, the value of [mem_type_idx] after the
    loop is returned. *)
Fixpoint mem_type_scan (bits : Z) (types : list Z) (n idx : nat) : nat :=
  match n with
  | O => idx
  | Datatypes.S n' =>
      if mem_type_ok bits types idx then idx
      else mem_type_scan bits types n' (Datatypes.S idx)
  end.

Definition store (o : option Z) (old : Z) : Z :=
  match o with Some v => v | None => old end.

(** [vk_shtex_init_vulkan_tex] *)
Definition vk_shtex_init_vulkan_tex (e : env) (d : vk_data)
    (swap : vk_swap_data) (t : trace) : bool * vk_swap_data * trace :=
  let t := t ++ [EvCreateImage (format swap) (fst (image_extent swap))
                               (snd (image_extent swap))] in
  if negb (fst (e_CreateImage e) =? VK_SUCCESS)
  then (false, set_export_image VK_NULL_HANDLE swap, t)
  else
    let swap := set_export_image (snd (e_CreateImage e)) swap in
    let t := t ++ [EvGetImageSubresourceLayout (export_image swap)] in
    let swap := set_export_layout (e_layout e) swap in
    let t := t ++ [EvGetImageMemoryRequirements2 (export_image swap);
                   EvGetPhysicalDeviceMemoryProperties (phy_device d)] in
    let memoryTypeCount := length (e_memtypes e) in
    let mem_type_idx :=
      mem_type_scan (snd (e_memreq e)) (e_memtypes e) memoryTypeCount 0 in
    if (mem_type_idx =? memoryTypeCount)%nat
    then (false, set_export_image VK_NULL_HANDLE swap,
          t ++ [EvDestroyImage (export_image swap)])
    else
      let t := t ++ [EvAllocateMemory (fst (e_memreq e)) (Z.of_nat mem_type_idx)] in
      let swap := set_export_mem (store (snd (e_AllocateMemory e)) (export_mem swap)) swap in
      if negb (fst (e_AllocateMemory e) =? VK_SUCCESS)
      then (false, swap, t ++ [EvDestroyImage (export_image swap)])
      else
        let t := t ++ [EvBindImageMemory2 (export_image swap) (export_mem swap)] in
        if negb (e_BindImageMemory2 e =? VK_SUCCESS)
        then (false, set_export_image VK_NULL_HANDLE swap,
              t ++ [EvDestroyImage (export_image swap)])
        else
          let t := t ++ [EvGetMemoryFdKHR (export_mem swap)] in
          let swap := set_dmabuf_fd (store (snd (e_GetMemoryFdKHR e)) (dmabuf_fd swap)) swap in
          if negb (fst (e_GetMemoryFdKHR e) =? VK_SUCCESS)
          then (false, set_export_image VK_NULL_HANDLE swap,
                t ++ [EvDestroyImage (export_image swap)])
          else (true, swap, t).

(** [vk_shtex_init(data, swap)], with [swap] the node of swapchain [sc]. *)
Definition vk_shtex_init (e : env) (sc : Z) (swap : vk_swap_data) (s : st)
    : bool * st :=
  let '(ok, swap1, t1) := vk_shtex_init_vulkan_tex e (dev s) swap (tr s) in
  if negb ok then (false, set_tr t1 (set_dev (put_swap sc swap1 (dev s)) s))
  else
    let d1 := set_cur_swap (Some (swap_node swap)) (dev s) in
    let '(c2, swap2, t2) := capture_init_shtex e (cap s) swap1 t1 in
    let s2 := set_cap c2 (set_tr t2 (set_dev (put_swap sc swap2 d1) s)) in
    if negb (captured swap2) then (false, s2) else (true, s2).

(** *** Frame ring *)

(** [vk_shtex_create_frame_objects]: the array is allocated and zeroed,
    then every slot gets a command pool, a command buffer and a fence. The
    C code looks neither at the result of [vk_alloc] nor at the results of
    the three creation calls: the [memset] goes through the pointer
    [vk_alloc] returned, and [GET_LDT(frame_data->cmd_buffer)] through the
    command buffer, which is still NULL when [AllocateCommandBuffers]
    failed. The handles the calls store come from the environment. *)
Definition vk_shtex_create_frame_objects (e : env) (image_count : nat)
    (q : vk_queue_data) (t : trace) : option (vk_queue_data * trace) :=
  if negb (e_alloc_frames e) then None               (* memset through NULL *)
  else
    let slot i := set_busy false (e_frame e i) in
    if existsb (fun i => cmd_buffer (slot i) =? VK_NULL_HANDLE) (seq 0 image_count)
    then None                                        (* GET_LDT through NULL *)
    else
      Some (set_frame_index 0 (set_frames (List.map slot (seq 0 image_count)) q),
            t ++ List.concat
                   (List.map (fun i => [EvCreateCommandPool (fam_idx q);
                                        EvAllocateCommandBuffers (cmd_pool (slot i));
                                        EvCreateFence])
                             (seq 0 image_count))).

(** [vk_shtex_destroy_fence] followed by the rest of the loop body of
    [vk_shtex_destroy_frame_objects]. *)
Definition destroy_frame (f : vk_frame_data) (t : trace) : vk_frame_data * trace :=
  let '(f1, t1) :=
    if cmd_buffer_busy f
    then (set_busy false f, t ++ [EvWaitForFences (fence f)])
    else (f, t) in
  let t2 := t1 ++ [EvDestroyFence (fence f1)] in
  let f2 := set_fence VK_NULL_HANDLE f1 in
  (set_cmd_pool VK_NULL_HANDLE f2, t2 ++ [EvDestroyCommandPool (cmd_pool f2)]).

(** [vk_shtex_destroy_frame_objects], for the queue with key [queue]. *)
Definition vk_shtex_destroy_frame_objects (queue : Z) (q : vk_queue_data)
    (t : trace) : vk_queue_data * trace :=
  let '(_, t1) := frames_loop destroy_frame (frames q) t in
  (set_frames [] q, t1 ++ [EvVkFree (FrFrames queue)]).

(** [vk_shtex_capture(data, funcs, swap, 0, queue, info)], where
    [image_index] is [info->pImageIndices[0]]. *)
Definition vk_shtex_capture (e : env) (sc : Z) (swap : vk_swap_data)
    (queue : Z) (image_index : nat) (s : st) : option st :=
  match swap_images swap !! image_index, get_queue_data (dev s) queue with
  | Some cur_backbuffer, Some q0 =>
      let ring :=
        if (frame_count q0 <? image_count swap)%nat then
          let '(qd, td) :=
            if (0 <? frame_count q0)%nat
            then vk_shtex_destroy_frame_objects queue q0 (tr s)
            else (q0, tr s) in
          vk_shtex_create_frame_objects e (image_count swap) qd td
        else Some (q0, tr s) in
      match ring with
      | None => None
      | Some (q1, t1) =>
      match frames q1 !! frame_index q1 with
      | None => None
      | Some fd0 =>
          let fi := frame_index q1 in
          let q2 := set_frame_index (Nat.modulo (fi + 1) (frame_count q1)) q1 in
          let '(fd1, t2) := vk_shtex_clear_fence fd0 t1 in
          let cb := cmd_buffer fd1 in
          let fam := fam_idx q2 in
          let src_mb a b :=
            {| mb_image := cur_backbuffer; oldLayout := a; newLayout := b;
               srcQueueFamilyIndex := VK_QUEUE_FAMILY_IGNORED;
               dstQueueFamilyIndex := VK_QUEUE_FAMILY_IGNORED |} in
          let dst_mb a b x y :=
            {| mb_image := export_image swap; oldLayout := a; newLayout := b;
               srcQueueFamilyIndex := x; dstQueueFamilyIndex := y |} in
          let t3 := t2 ++
            [ EvResetCommandPool (cmd_pool fd1);
              EvBeginCommandBuffer cb;
              EvCmdPipelineBarrier cb VK_PIPELINE_STAGE_BOTTOM_OF_PIPE_BIT
                VK_PIPELINE_STAGE_TRANSFER_BIT
                [ src_mb VK_IMAGE_LAYOUT_PRESENT_SRC_KHR
                         VK_IMAGE_LAYOUT_TRANSFER_SRC_OPTIMAL;
                  dst_mb VK_IMAGE_LAYOUT_GENERAL
                         VK_IMAGE_LAYOUT_TRANSFER_DST_OPTIMAL
                         VK_QUEUE_FAMILY_EXTERNAL fam ];
              EvCmdCopyImage cb cur_backbuffer (export_image swap)
                (fst (image_extent swap)) (snd (image_extent swap));
              EvCmdPipelineBarrier cb VK_PIPELINE_STAGE_TRANSFER_BIT
                (Z.lor VK_PIPELINE_STAGE_TOP_OF_PIPE_BIT
                       VK_PIPELINE_STAGE_BOTTOM_OF_PIPE_BIT)
                [ src_mb VK_IMAGE_LAYOUT_TRANSFER_SRC_OPTIMAL
                         VK_IMAGE_LAYOUT_PRESENT_SRC_KHR;
                  dst_mb VK_IMAGE_LAYOUT_TRANSFER_DST_OPTIMAL
                         VK_IMAGE_LAYOUT_GENERAL
                         fam VK_QUEUE_FAMILY_EXTERNAL ];
              EvEndCommandBuffer cb;
              EvQueueSubmit queue cb (fence fd1) ] in
          let fd2 := if e_QueueSubmit e =? VK_SUCCESS then set_busy true fd1 else fd1 in
          let q3 := set_frames (<[fi := fd2]> (frames q2)) q2 in
          Some (set_tr t3 (set_dev (put_queue queue q3 (dev s)) s))
      end
      end
  | _, _ => None
  end.

Definition valid_rect (swap : vk_swap_data) : bool :=
  negb (fst (image_extent swap) =? 0) && negb (snd (image_extent swap) =? 0).

(** The pointer [get_swap_data] returns: the address of the first node
    with the key, or NULL. *)
Definition swap_ptr (d : vk_data) (sc : Z) : option Z :=
  match get_swap_data d sc with
  | Some swap => Some (swap_node swap)
  | None => None
  end.

Definition option_Z_eqb (a b : option Z) : bool :=
  match a, b with
  | Some x, Some y => x =? y
  | None, None => true
  | _, _ => false
  end.

(** The [if (capture_should_init())] statement of [vk_capture]. *)
Definition vk_capture_init (e : env) (sc : Z) (s : st) : option st :=
  if capture_should_init (cap s) then
    match get_swap_data (dev s) sc with
    | None => None                               (* valid_rect(NULL) *)
    | Some swap =>
        if valid_rect swap then
          let '(ok, s1) := vk_shtex_init e sc swap s in
          if ok then Some s1
          else let s2 := vk_shtex_free s1 in
               Some (set_dev (set_valid false (dev s2)) s2)
        else Some s
    end
  else Some s.

(** [vk_capture(data, queue, info)], with [sc = info->pSwapchains[0]]. *)
Definition vk_capture (e : env) (queue sc : Z) (image_index : nat) (s : st)
    : option st :=
  let swap := swap_ptr (dev s) sc in
  let s1 := capture_update_socket e s in
  let s2 := if capture_should_stop (cap s1) then vk_shtex_free s1 else s1 in
  match vk_capture_init e sc s2 with
  | None => None
  | Some s3 =>
      if capture_ready (cap s3) then
        if negb (option_Z_eqb swap (cur_swap (dev s3)))
        then Some (vk_shtex_free s3)             (* and return *)
        else
          match get_swap_data (dev s3) sc with
          | None => None                         (* swap == cur_swap == NULL *)
          | Some sw => vk_shtex_capture e sc sw queue image_index s3
          end
      else Some s3
  end.

(** *** Entry points *)

(** The process: the [devices] list keyed by the loader dispatch pointer,
    [capture_data], the static [limiter] and the trace. *)
Record world : Type := {
  devices : list (Z * vk_data);
  w_cap : capture_data_t;
  w_limiter : Z;
  w_tr : trace
}.

(** A dispatchable handle: its value and the dispatch pointer stored at
    its start ([GET_LDT]). *)
Record handle : Type := {
  h_val : Z;
  h_ldt : Z
}.

Definition enter (d : vk_data) (w : world) : st :=
  {| dev := d; cap := w_cap w; limiter := w_limiter w; tr := w_tr w |}.

(** Back from a device: its hook data is written in place. *)
Definition leave (key : Z) (s : st) (w : world) : world :=
  {| devices := put_obj_data (devices w) key (dev s);
     w_cap := cap s; w_limiter := limiter s; w_tr := tr s |}.

Definition w_emit (l : list event) (w : world) : world :=
  {| devices := devices w; w_cap := w_cap w; w_limiter := w_limiter w;
     w_tr := w_tr w ++ l |}.
Definition set_devices (l : list (Z * vk_data)) (w : world) : world :=
  {| devices := l; w_cap := w_cap w; w_limiter := w_limiter w; w_tr := w_tr w |}.

(** [OBS_QueuePresentKHR] *)
Definition OBS_QueuePresentKHR (e : env) (queue : handle) (sc : Z)
    (image_index : nat) (w : world) : option (Z * world) :=
  match get_obj_data (devices w) (h_ldt queue) with
  | None => None
  | Some data =>
      let after :=
        if valid data then
          match get_queue_data data (h_val queue) with
          | None => None                          (* queue_data->supports_transfer *)
          | Some queue_data =>
              if supports_transfer queue_data then
                match vk_capture e (h_val queue) sc image_index (enter data w) with
                | None => None
                | Some s => Some (leave (h_ldt queue) s w)
                end
              else Some w
          end
        else Some w in
      match after with
      | None => None
      | Some w' =>
          Some (e_QueuePresentKHR e, w_emit [EvNextQueuePresentKHR (h_val queue)] w')
      end
  end.

(** The queue walk of [OBS_DestroyDevice]. *)
Definition destroy_all_frame_objects (s : st) : st :=
  let '(qs, t) := obj_walk vk_shtex_destroy_frame_objects (queues (dev s)) (tr s) in
  set_tr t (set_dev (set_queues qs (dev s)) s).

(** [remove_free_queue_all]: remove and free the root until the list is
    empty. *)
Definition remove_free_queue_all (s : st) : st :=
  emit (List.map (fun kq => EvVkFree (FrQueue (fst kq))) (queues (dev s)))
       (set_dev (set_queues [] (dev s)) s).

(** [OBS_DestroyDevice] *)
Definition OBS_DestroyDevice (dv : handle) (w : world) : option world :=
  match get_obj_data (devices w) (h_ldt dv) with
  | None => None                                  (* data->valid on NULL *)
  | Some data =>
      let w1 := set_devices (remove_obj_data (devices w) (h_ldt dv)) w in
      let s := enter data w1 in
      let s1 := if valid data
                then remove_free_queue_all (destroy_all_frame_objects s)
                else s in
      let s2 := emit [EvVkFree (FrDevice (h_ldt dv)); EvNextDestroyDevice (h_val dv)] s1 in
      Some {| devices := devices w1; w_cap := cap s2;
              w_limiter := limiter s2; w_tr := tr s2 |}
  end.

Record VkSwapchainCreateInfoKHR : Type := {
  imageUsage : Z;
  imageExtent : Z * Z;
  imageFormat : Z
}.

(** [OBS_CreateSwapchainKHR]: the result and the new state. *)
Definition OBS_CreateSwapchainKHR (e : env) (dv : handle)
    (cinfo : VkSwapchainCreateInfoKHR) (w : world) : option (Z * world) :=
  match get_obj_data (devices w) (h_ldt dv) with
  | None => None
  | Some data =>
      if negb (valid data) then
        Some (fst (e_CreateSwapchainKHR e (imageUsage cinfo)),
              w_emit [EvNextCreateSwapchainKHR (imageUsage cinfo)] w)
      else
        let usage := Z.lor (imageUsage cinfo) VK_IMAGE_USAGE_TRANSFER_SRC_BIT in
        let w1 := w_emit [EvNextCreateSwapchainKHR usage] w in
        let res := fst (e_CreateSwapchainKHR e usage) in
        if negb (res =? VK_SUCCESS) then
          (* try again with original imageUsage flags *)
          Some (fst (e_CreateSwapchainKHR e (imageUsage cinfo)),
                w_emit [EvNextCreateSwapchainKHR (imageUsage cinfo)] w1)
        else
          let sc := snd (e_CreateSwapchainKHR e usage) in
          let w2 := w_emit [EvGetSwapchainImagesKHR sc] w1 in
          let '(res2, count) := e_GetSwapchainImagesKHR e in
          let w3 :=
            if (res2 =? VK_SUCCESS) && (0 <? count)%nat then
              if e_alloc_swap_data e then
                let swap_data :=
                  {| swap_node := e_swap_node e;
                     image_extent := imageExtent cinfo;
                     format := imageFormat cinfo;
                     export_image := VK_NULL_HANDLE;
                     export_mem := VK_NULL_HANDLE;
                     export_layout := e_garbage_layout e;
                     swap_images := snd (e_swap_images e);
                     image_count := fst (e_swap_images e);
                     dmabuf_fd := -1;
                     captured := false |} in
                let data' := set_swaps (add_obj_data (swaps data) sc swap_data) data in
                w_emit [EvGetSwapchainImagesKHR sc]
                  (set_devices (put_obj_data (devices w2) (h_ldt dv) data') w2)
              else w2
            else w2 in
          Some (VK_SUCCESS, w3)
  end.

(** [OBS_DestroySwapchainKHR] *)
Definition OBS_DestroySwapchainKHR (dv : handle) (sc : Z) (w : world)
    : option world :=
  match get_obj_data (devices w) (h_ldt dv) with
  | None => None
  | Some data =>
      let w1 :=
        if negb (sc =? VK_NULL_HANDLE) && valid data then
          match get_swap_data data sc with
          | Some swap =>
              let s := enter data w in
              let s1 := if option_Z_eqb (cur_swap data) (Some (swap_node swap))
                        then vk_shtex_free s else s in
              let s2 := emit [EvVkFree (FrSwapImages sc)] s1 in
              let s3 := emit [EvVkFree (FrSwap sc)]
                          (set_dev (set_swaps (remove_obj_data (swaps (dev s2)) sc)
                                              (dev s2)) s2) in
              leave (h_ldt dv) s3 w
          | None => w
          end
        else w in
      Some (w_emit [EvNextDestroySwapchainKHR sc] w1)
  end.

End Layer.

(** * Sample data and the properties to be proved *)

(** ** For the broker *)

Module BrokerSpec.
Import Broker.

(** *** Sample protocol constants, messages and states *)

(** Modelled from the spec: the constants of [capture.h], which is not
    among the sources. The spec gives the discriminants (ClientInfo 1,
    TextureInfo 2) and TextureInfo as a fixed layout without padding:
    discriminant, width, height and format (u32 each), flip, nfd (one byte
    each, so nfd is byte 14), four u32 strides, four u32 offsets, the u64
    modifier and the u32 window id, 59 bytes in all. It gives no size for
    ClientInfo; the same size is used here and nothing below depends on
    it. *)
Definition spec_proto : proto :=
  {| CAPTURE_CLIENT_DATA_TYPE := 1;
     CAPTURE_CLIENT_DATA_SIZE := 59;
     CAPTURE_TEXTURE_DATA_TYPE := 2;
     CAPTURE_TEXTURE_DATA_SIZE := 59;
     tdata_nfd_offset := 14 |}.

(** A TextureInfo payload in that layout with the given [nfd], all other
    fields zero. *)
Definition texture_msg (nfd : Z) : list Z :=
  2 :: replicate 13 0 ++ nfd :: replicate 44 0.

(** A broker with the listener on descriptor 3 and one client, accepted on
    descriptor 5, that has sent nothing yet. *)
Definition one_client : server_t :=
  {| fds := [ {| fd := 3; events := POLLIN; revents := 0 |};
              {| fd := 5; events := POLLIN; revents := 1 |} ];
     clients := [ {| id := 1; sockfd := 5; buf_id := 0;
                     buf_fds := replicate 4 (-1); cdata := []; tdata := [] |} ];
     bufid := 0; clientid := 1; closed := [] |}.

Definition rights (l : list Z) : option cmsghdr :=
  Some {| cmsg_level := SOL_SOCKET; cmsg_type := SCM_RIGHTS; cmsg_data := l |}.

(** *** Invariants and the reading of C3 *)

(** The counter [bufid] is never negative and no client carries a
    [buf_id] above it. *)
Definition bufid_inv (s : server_t) : Prop :=
  0 <= bufid s /\ Forall (fun c => buf_id c <= bufid s) (clients s).

(** The poll set names no descriptor twice. *)
Definition poll_nodup (s : server_t) : Prop :=
  NoDup (List.map fd (fds s)).

(** The reading of "the client is cleaned up exactly as when recvmsg
    returns 0": the receive loop, given result [r], ends in the state in
    which it ends when [recvmsg] returns 0 instead. *)
Definition cleaned_up_like_eof (P : proto) (i : nat) (buf : list Z)
    (r : recv_result) (s : server_t) : Prop :=
  recv_loop P i buf [r] s = recv_loop P i buf [RecvData [] None] s.

(** A full-size message whose first byte is 7. *)
Definition unknown_msg : list Z := 7 :: replicate 58 0.

End BrokerSpec.

(** ** For the layer *)

Module LayerSpec.
Import Layer.

(** *** A sample environment and device *)

(** An environment in which every call succeeds: image 50, memory 60,
    DMA-BUF descriptor 7, rowPitch 7680; memory types 0 (host visible) and
    1 (device local), both allowed by the image. *)
Definition env_ok : env :=
  {| e_socket := 4; e_connect := 0; e_recv := (-1, EAGAIN); e_sendmsg := 32;
     e_pad := [0; 0; 0; 0];
     e_CreateImage := (VK_SUCCESS, 50);
     e_layout := (7680, 0);
     e_memreq := (8294400, 3);
     e_memtypes := [6; 1];
     e_AllocateMemory := (VK_SUCCESS, Some 60);
     e_BindImageMemory2 := VK_SUCCESS;
     e_GetMemoryFdKHR := (VK_SUCCESS, Some 7);
     e_alloc_frames := true;
     e_frame := fun i => {| cmd_pool := 300 + Z.of_nat i;
                            cmd_buffer := 400 + Z.of_nat i;
                            fence := 500 + Z.of_nat i;
                            cmd_buffer_busy := false |};
     e_QueueSubmit := VK_SUCCESS;
     e_QueuePresentKHR := VK_SUCCESS;
     e_CreateSwapchainKHR := fun _ => (VK_SUCCESS, 1000);
     e_GetSwapchainImagesKHR := (VK_SUCCESS, 3%nat);
     e_alloc_swap_data := true;
     e_swap_node := 9100;
     e_swap_images := (3%nat, [101; 102; 103]);
     e_garbage_layout := (0, 0) |}.

Definition with_sendmsg (r : Z) (e : env) : env :=
  {| e_socket := e_socket e; e_connect := e_connect e; e_recv := e_recv e;
     e_sendmsg := r; e_pad := e_pad e; e_CreateImage := e_CreateImage e;
     e_layout := e_layout e; e_memreq := e_memreq e; e_memtypes := e_memtypes e;
     e_AllocateMemory := e_AllocateMemory e;
     e_BindImageMemory2 := e_BindImageMemory2 e;
     e_GetMemoryFdKHR := e_GetMemoryFdKHR e;
     e_alloc_frames := e_alloc_frames e; e_frame := e_frame e;
     e_QueueSubmit := e_QueueSubmit e; e_QueuePresentKHR := e_QueuePresentKHR e;
     e_CreateSwapchainKHR := e_CreateSwapchainKHR e;
     e_GetSwapchainImagesKHR := e_GetSwapchainImagesKHR e;
     e_alloc_swap_data := e_alloc_swap_data e; e_swap_node := e_swap_node e;
     e_swap_images := e_swap_images e;
     e_garbage_layout := e_garbage_layout e |}.

Definition with_memtypes (bits : Z) (types : list Z) (e : env) : env :=
  {| e_socket := e_socket e; e_connect := e_connect e; e_recv := e_recv e;
     e_sendmsg := e_sendmsg e; e_pad := e_pad e; e_CreateImage := e_CreateImage e;
     e_layout := e_layout e; e_memreq := (fst (e_memreq e), bits);
     e_memtypes := types;
     e_AllocateMemory := e_AllocateMemory e;
     e_BindImageMemory2 := e_BindImageMemory2 e;
     e_GetMemoryFdKHR := e_GetMemoryFdKHR e;
     e_alloc_frames := e_alloc_frames e; e_frame := e_frame e;
     e_QueueSubmit := e_QueueSubmit e; e_QueuePresentKHR := e_QueuePresentKHR e;
     e_CreateSwapchainKHR := e_CreateSwapchainKHR e;
     e_GetSwapchainImagesKHR := e_GetSwapchainImagesKHR e;
     e_alloc_swap_data := e_alloc_swap_data e; e_swap_node := e_swap_node e;
     e_swap_images := e_swap_images e;
     e_garbage_layout := e_garbage_layout e |}.

(** A 1920x1080 B8G8R8A8_UNORM swapchain of three images, as
    [OBS_CreateSwapchainKHR] leaves it. *)
Definition swap_1080p : vk_swap_data :=
  {| swap_node := 9000; image_extent := (1920, 1080); format := 44;
     export_image := VK_NULL_HANDLE; export_mem := VK_NULL_HANDLE;
     export_layout := (0, 0); swap_images := [101; 102; 103];
     image_count := 3; dmabuf_fd := -1; captured := false |}.

Definition fresh_queue : vk_queue_data :=
  {| fam_idx := 0; supports_transfer := true; frames := []; frame_index := 0 |}.

(** A valid device with swapchain 1000 and queue 11, not capturing. *)
Definition device_1 : vk_data :=
  {| device := 1; valid := true; phy_device := 2;
     swaps := [(1000, swap_1080p)]; cur_swap := None;
     queues := [(11, fresh_queue)] |}.

(** The producer is connected on descriptor 4 and idle. *)
Definition connected : capture_data_t := {| connfd := 4; capturing := false |}.

Definition st_1 : st :=
  {| dev := device_1; cap := connected; limiter := 0; tr := [] |}.

(** *** Classes of events *)

Definition is_fence_wait_or_reset (ev : event) : bool :=
  match ev with
  | EvWaitForFences _ | EvResetFences _ => true
  | _ => false
  end.

Definition is_teardown (ev : event) : bool :=
  match ev with
  | EvDestroyImage _ | EvFreeMemory _ | EvClose _ => true
  | _ => false
  end.

(** *** The texture message (C2) *)

Definition DRM_FORMAT_MOD_INVALID : Z := 72057594037927935.   (* 0x00ffffffffffffff *)

(** Modelled from the spec: the TextureInfo wire message of [capture.h],
    which is not among the sources. Fixed little-endian layout without
    padding: the discriminant 2, width, height and format (u32), flip and
    nfd (one byte each), four u32 strides, four u32 offsets, the u64
    modifier and, when present, the u32 window id. *)
Record TextureInfo : Type := {
  ti_width : Z;
  ti_height : Z;
  ti_format : Z;
  ti_flip : bool;
  ti_nfd : Z;
  ti_strides : list Z;
  ti_offsets : list Z;
  ti_modifier : Z;
  ti_winid : option Z
}.

Definition encode_TextureInfo (ti : TextureInfo) : list Z :=
  [2] ++ le_bytes 4 (ti_width ti) ++ le_bytes 4 (ti_height ti)
  ++ le_bytes 4 (ti_format ti)
  ++ [Z.b2z (ti_flip ti)] ++ [ti_nfd ti]
  ++ List.concat (List.map (le_bytes 4) (ti_strides ti))
  ++ List.concat (List.map (le_bytes 4) (ti_offsets ti))
  ++ le_bytes 8 (ti_modifier ti)
  ++ match ti_winid ti with Some w => le_bytes 4 w | None => [] end.

(** A message conforms when it is the encoding of a TextureInfo with
    nfd in 1..4 and four strides and offsets. *)
Definition conforms_TextureInfo (bytes : list Z) : Prop :=
  exists ti, bytes = encode_TextureInfo ti
             /\ 1 <= ti_nfd ti <= 4
             /\ length (ti_strides ti) = 4%nat /\ length (ti_offsets ti) = 4%nat.

(** The value of a little-endian byte string. *)
Definition le_value (l : list Z) : Z :=
  fold_right (fun b acc => b + 256 * acc) 0 l.

(** The swapchain of the sample device with its export image in place. *)
Definition swap_exported : vk_swap_data :=
  {| swap_node := 9000; image_extent := (1920, 1080); format := 44;
     export_image := 50; export_mem := 60;
     export_layout := (7680, 0); swap_images := [101; 102; 103];
     image_count := 3; dmabuf_fd := 7; captured := false |}.

Definition sent_messages (t : trace) : list (list Z * list Z) :=
  flat_map (fun ev => match ev with
                      | EvSendmsg _ bytes scm => [(bytes, scm)]
                      | _ => []
                      end) t.

(** *** Memory types (C8) *)

(** Bit [i] of the image's [memoryTypeBits] is set. *)
Definition type_allowed (bits : Z) (i : nat) : Prop :=
  Z.testbit bits (Z.of_nat i) = true.

(** The property flags include DEVICE_LOCAL (bit 0). *)
Definition device_local (flags : Z) : Prop := Z.testbit flags 0 = true.

Definition eligible (bits : Z) (types : list Z) (i : nat) : Prop :=
  (i < length types)%nat /\ type_allowed bits i /\ device_local (nth i types 0).

Definition lowest_eligible (bits : Z) (types : list Z) (i : nat) : Prop :=
  eligible bits types i /\ forall j, eligible bits types j -> (i <= j)%nat.

Definition allocations (t : trace) : list (Z * Z) :=
  flat_map (fun ev => match ev with
                      | EvAllocateMemory size idx => [(size, idx)]
                      | _ => []
                      end) t.

(** *** Swapchain creation (C10) *)

Definition with_swapchain_answers (q : Z * nat) (a : bool) (e : env) : env :=
  {| e_socket := e_socket e; e_connect := e_connect e; e_recv := e_recv e;
     e_sendmsg := e_sendmsg e; e_pad := e_pad e; e_CreateImage := e_CreateImage e;
     e_layout := e_layout e; e_memreq := e_memreq e; e_memtypes := e_memtypes e;
     e_AllocateMemory := e_AllocateMemory e;
     e_BindImageMemory2 := e_BindImageMemory2 e;
     e_GetMemoryFdKHR := e_GetMemoryFdKHR e;
     e_alloc_frames := e_alloc_frames e; e_frame := e_frame e;
     e_QueueSubmit := e_QueueSubmit e; e_QueuePresentKHR := e_QueuePresentKHR e;
     e_CreateSwapchainKHR := e_CreateSwapchainKHR e;
     e_GetSwapchainImagesKHR := q;
     e_alloc_swap_data := a; e_swap_node := e_swap_node e;
     e_swap_images := e_swap_images e;
     e_garbage_layout := e_garbage_layout e |}.

(** The process with the sample device registered under dispatch pointer
    100. *)
Definition world_1 : world :=
  {| devices := [(100, device_1)]; w_cap := connected; w_limiter := 0; w_tr := [] |}.
Definition dev_handle_1 : handle := {| h_val := 1; h_ldt := 100 |}.
Definition queue_handle_1 : handle := {| h_val := 11; h_ldt := 100 |}.

Definition cinfo_720p : VkSwapchainCreateInfoKHR :=
  {| imageUsage := 16; imageExtent := (1280, 720); imageFormat := 44 |}.

(** *** DestroyDevice (C4) *)

Definition is_fence_reset (ev : event) : bool :=
  match ev with
  | EvResetFences _ => true
  | _ => false
  end.

(** The events of one turn of the loop of
    [vk_shtex_destroy_frame_objects]. *)
Definition destroy_frame_events (f : vk_frame_data) : list event :=
  (if cmd_buffer_busy f then [EvWaitForFences (fence f)] else [])
  ++ [EvDestroyFence (fence f); EvDestroyCommandPool (cmd_pool f)].

Definition destroy_queue_events (kq : Z * vk_queue_data) : list event :=
  flat_map destroy_frame_events (frames (snd kq)) ++ [EvVkFree (FrFrames (fst kq))].

(** Everything [OBS_DestroyDevice] does for a valid device, in order. *)
Definition destroy_device_events (dv : handle) (data : vk_data) : list event :=
  (if valid data
   then flat_map destroy_queue_events (queues data)
        ++ List.map (fun kq => EvVkFree (FrQueue (fst kq))) (queues data)
   else [])
  ++ [EvVkFree (FrDevice (h_ldt dv)); EvNextDestroyDevice (h_val dv)].

(** The sample device after its first present: export image 50, memory
    60 and descriptor 7 are live, swapchain 1000 is current, and the first
    of three frame slots is busy. *)
Definition swap_captured : vk_swap_data :=
  {| swap_node := 9000; image_extent := (1920, 1080); format := 44;
     export_image := 50; export_mem := 60;
     export_layout := (7680, 0); swap_images := [101; 102; 103];
     image_count := 3; dmabuf_fd := 7; captured := true |}.

Definition queue_running : vk_queue_data :=
  {| fam_idx := 0; supports_transfer := true;
     frames := [ {| cmd_pool := 300; cmd_buffer := 400; fence := 500;
                    cmd_buffer_busy := true |};
                 {| cmd_pool := 301; cmd_buffer := 401; fence := 501;
                    cmd_buffer_busy := false |};
                 {| cmd_pool := 302; cmd_buffer := 402; fence := 502;
                    cmd_buffer_busy := false |} ];
     frame_index := 1 |}.

Definition device_capturing : vk_data :=
  {| device := 1; valid := true; phy_device := 2;
     swaps := [(1000, swap_captured)]; cur_swap := Some 9000;
     queues := [(11, queue_running)] |}.

Definition world_capturing : world :=
  {| devices := [(100, device_capturing)];
     w_cap := {| connfd := 4; capturing := true |};
     w_limiter := 1; w_tr := [] |}.

(** The frame slots are drained: each busy fence is waited on and
    reset. *)
Definition drains_frames (data : vk_data) (evs : list event) : Prop :=
  forall q qd f, In (q, qd) (queues data) -> In f (frames qd) ->
    cmd_buffer_busy f = true ->
    In (EvWaitForFences (fence f)) evs /\ In (EvResetFences (fence f)) evs.

(** Every export image, export memory and exported descriptor of the
    device's swapchains is released. *)
Definition releases_exports (data : vk_data) (evs : list event) : Prop :=
  forall sc swap, In (sc, swap) (swaps data) ->
    (export_image swap <> VK_NULL_HANDLE -> In (EvDestroyImage (export_image swap)) evs)
    /\ (export_mem swap <> VK_NULL_HANDLE -> In (EvFreeMemory (export_mem swap)) evs)
    /\ (0 <= dmabuf_fd swap -> In (EvClose (dmabuf_fd swap)) evs).

(** C4 as stated, for the call that takes [w] to [w']. *)
Definition destroy_device_claim (dv : handle) (w w' : world) : Prop :=
  exists data evs,
    get_obj_data (devices w) (h_ldt dv) = Some data
    /\ w_tr w' = w_tr w ++ evs
    /\ drains_frames data evs
    /\ releases_exports data evs
    /\ get_obj_data (devices w') (h_ldt dv) = None
    /\ In (EvVkFree (FrDevice (h_ldt dv))) evs
    /\ In (EvNextDestroyDevice (h_val dv)) evs.

(** The free of a swapchain entry or of its image array. *)
Definition is_swap_free (ev : event) : bool :=
  match ev with
  | EvVkFree (FrSwap _) | EvVkFree (FrSwapImages _) => true
  | _ => false
  end.

(** What a destroyed device leaves alone: the event releases no export
    image, memory or descriptor, resets no fence and frees no swapchain
    entry or image array. *)
Definition keeps_exports_and_resets (ev : event) : bool :=
  negb (is_teardown ev) && negb (is_fence_reset ev) && negb (is_swap_free ev).

(** *** The current swapchain (C6) *)

(** The export image of a swapchain is live. *)
Definition export_live (swap : vk_swap_data) : Prop :=
  export_image swap <> VK_NULL_HANDLE /\ 0 <= dmabuf_fd swap.

(** The swapchain [cur_swap] points to: the one tracked by the device whose
    data lies at that address. *)
Definition points_to (d : vk_data) (a : Z) (swap : vk_swap_data) : Prop :=
  exists sc, In (sc, swap) (swaps d) /\ swap_node swap = a.

(** Invariant 4 of the spec for one device, its two directions apart:
    a non-nil [cur_swap] means that the process is capturing and that the
    swapchain it points to is tracked with a live export image; and while
    the process is capturing, [cur_swap] is non-nil. *)
Definition cur_swap_inv (c : capture_data_t) (d : vk_data) : Prop :=
  (forall a, cur_swap d = Some a ->
     capturing c = true /\ exists swap, points_to d a swap /\ export_live swap)
  /\ (capturing c = true -> cur_swap d <> None).

(** ... and for every device the layer tracks. *)
Definition world_inv (w : world) : Prop :=
  forall key d, In (key, d) (devices w) -> cur_swap_inv (w_cap w) d.

(** The operations of the layer that touch swapchains, and a run of
    them. *)
Inductive layer_op : Type :=
| OpPresent (e : env) (queue : handle) (sc : Z) (image_index : nat)
| OpCreateSwapchain (e : env) (dv : handle) (cinfo : VkSwapchainCreateInfoKHR)
| OpDestroySwapchain (dv : handle) (sc : Z).

Definition run_op (o : layer_op) (w : world) : option world :=
  match o with
  | OpPresent e queue sc i => option_map snd (OBS_QueuePresentKHR e queue sc i w)
  | OpCreateSwapchain e dv cinfo => option_map snd (OBS_CreateSwapchainKHR e dv cinfo w)
  | OpDestroySwapchain dv sc => OBS_DestroySwapchainKHR dv sc w
  end.

Fixpoint run_ops (os : list layer_op) (w : world) : option world :=
  match os with
  | [] => Some w
  | o :: os' =>
      match run_op o w with
      | None => None
      | Some w1 => run_ops os' w1
      end
  end.

(** What Vulkan promises about the answers the invariant depends on: a
    successful CreateImage stores a non-null handle, a successful
    GetMemoryFdKHR a descriptor. *)
Definition env_sane (e : env) : Prop :=
  (fst (e_CreateImage e) = VK_SUCCESS -> snd (e_CreateImage e) <> VK_NULL_HANDLE)
  /\ (fst (e_GetMemoryFdKHR e) = VK_SUCCESS ->
      exists f, snd (e_GetMemoryFdKHR e) = Some f /\ 0 <= f).

(** ... at every present of a run; the other two operations make no call
    whose answer the invariant depends on. *)
Definition op_sane (o : layer_op) : Prop :=
  match o with
  | OpPresent e _ _ _ => env_sane e
  | OpCreateSwapchain _ _ _ | OpDestroySwapchain _ _ => True
  end.

Definition ops_sane (os : list layer_op) : Prop := Forall op_sane os.

Definition single_device (w : world) : Prop :=
  exists key d, devices w = [(key, d)].

(** A second device with its own swapchain 2000, whose data lies at
    another address, and queue 21. *)
Definition swap_2 : vk_swap_data :=
  {| swap_node := 9200; image_extent := (1920, 1080); format := 44;
     export_image := VK_NULL_HANDLE; export_mem := VK_NULL_HANDLE;
     export_layout := (0, 0); swap_images := [101; 102; 103];
     image_count := 3; dmabuf_fd := -1; captured := false |}.

Definition device_2 : vk_data :=
  {| device := 3; valid := true; phy_device := 2;
     swaps := [(2000, swap_2)]; cur_swap := None;
     queues := [(21, fresh_queue)] |}.

(** Two devices with a swapchain each, no broker reached yet
    ([capture_init]) and 59 presents gone by: the next present tries to
    connect. *)
Definition world_2 : world :=
  {| devices := [(200, device_2); (100, device_1)];
     w_cap := capture_init; w_limiter := 59; w_tr := [] |}.

Definition queue_handle_2 : handle := {| h_val := 21; h_ldt := 200 |}.

End LayerSpec.

(** * The rest of the broker: shutdown and the source adapter *)

Module Source.
Import Broker.

(** ** Shutdown *)

(** [while (server.clients.num) server_cleanup_client(server.clients.array)]:
    every turn erases the first client, so the loop body runs at most once
    per client; [fuel] bounds the turns. *)
Fixpoint cleanup_all (fuel : nat) (s : server_t) : server_t :=
  match fuel with
  | O => s
  | Datatypes.S fuel' =>
      match clients s with
      | [] => s
      | _ :: _ => cleanup_all fuel' (server_cleanup_client 0 s)
      end
  end.

(** The end of [server_thread_run], after the quit flag was seen: clean up
    every client, close the listener, free both arrays. *)
Definition server_shutdown (listenfd : Z) (s : server_t) : server_t :=
  let s1 := cleanup_all (length (clients s)) s in
  set_fds [] (do_close [listenfd] s1).

(** ** The source *)

(** The members of [struct capture_texture_data] the source reads. Their
    layout comes from [capture.h], which is not among the sources: the
    accessors are parameters ([nfd] is read at the offset the server loop
    uses). *)
Record tdata_view : Type := {
  v_width : list Z -> Z;
  v_height : list Z -> Z;
  v_format : list Z -> Z;
  v_strides : list Z -> nat -> Z;
  v_offsets : list Z -> nat -> Z;
  v_modifier : list Z -> Z
}.

Definition DRM_FORMAT_MOD_INVALID : Z := 72057594037927935.

(** [vkcapture_source_t], without the X11 cursor members. A NULL texture
    is 0. *)
Record vkcapture_source_t : Type := {
  texture : Z;
  src_buf_id : Z;
  client_id : Z;
  src_tdata : list Z
}.

(** What a tick does outside the source and the server. *)
Inductive gs_event : Type :=
| GsTextureDestroy (tex : Z)
| GsCreateFromDmabuf (width height format nfd : Z) (fds strides offsets : list Z)
    (modifiers : option (list Z))
| WriteKick (sock : Z) (byte : Z).

(** [for (i = 0; i < server.clients.num; i++) if (c->id == ctx->client_id)]:
    the first client with the id. *)
Fixpoint find_client (cid : Z) (l : list vkcapture_client_t)
    : option vkcapture_client_t :=
  match l with
  | [] => None
  | c :: l' => if id c =? cid then Some c else find_client cid l'
  end.

Section Tick.
Variable P : proto.
Variable V : tdata_view.

Definition src_nfd (tdata : list Z) : Z := nth (tdata_nfd_offset P) tdata 0.

(** The [else if (ctx->buf_id != client->buf_id)] branch: [created] is
    what [gs_texture_create_from_dmabuf] returns (0 on failure). The local
    arrays have four slots; a larger [nfd] writes past them. *)
Definition import_texture (created : Z) (client : vkcapture_client_t)
    (ctx : vkcapture_source_t) (t : list gs_event)
    : option (vkcapture_source_t * list gs_event) :=
  let t1 := if negb (texture ctx =? 0) then t ++ [GsTextureDestroy (texture ctx)] else t in
  let td := tdata client in
  let nfd := src_nfd td in
  if 4 <? nfd then None
  else
    let n := Z.to_nat nfd in
    let strides := List.map (v_strides V td) (seq 0 n) in
    let offsets := List.map (v_offsets V td) (seq 0 n) in
    let modifiers := replicate n (v_modifier V td) in
    let ev := GsCreateFromDmabuf (v_width V td) (v_height V td) (v_format V td) nfd
                (buf_fds client) strides offsets
                (if negb (v_modifier V td =? DRM_FORMAT_MOD_INVALID)
                 then Some modifiers else None) in
    Some ({| texture := created; src_buf_id := buf_id client;
             client_id := client_id ctx; src_tdata := td |},
          t1 ++ [ev]).

(** The [if (ctx->client_id)] statement of [vkcapture_source_video_tick]. *)
Definition tick_follow (created : Z) (s : server_t) (ctx : vkcapture_source_t)
    (t : list gs_event) : option (vkcapture_source_t * list gs_event) :=
  if negb (client_id ctx =? 0) then
    match find_client (client_id ctx) (clients s) with
    | None =>
        Some ({| texture := 0; src_buf_id := 0; client_id := 0;
                 src_tdata := replicate (CAPTURE_TEXTURE_DATA_SIZE P) 0 |},
              if negb (texture ctx =? 0) then t ++ [GsTextureDestroy (texture ctx)] else t)
    | Some client =>
        if negb (src_buf_id ctx =? buf_id client)
        then import_texture created client ctx t
        else Some (ctx, t)
    end
  else Some (ctx, t).

(** The [if (!ctx->client_id && server.clients.num)] statement: the first
    client is selected and sent the byte ['1']; the result of [write] is
    only logged. *)
Definition tick_select (s : server_t) (ctx : vkcapture_source_t)
    (t : list gs_event) : vkcapture_source_t * list gs_event :=
  if client_id ctx =? 0 then
    match clients s with
    | [] => (ctx, t)
    | client :: _ =>
        ({| texture := texture ctx; src_buf_id := src_buf_id ctx;
            client_id := id client; src_tdata := src_tdata ctx |},
         t ++ [WriteKick (sockfd client) 49])
    end
  else (ctx, t).

(** [vkcapture_source_video_tick], the part under the server mutex. *)
Definition vkcapture_source_video_tick (created : Z) (s : server_t)
    (ctx : vkcapture_source_t) (t : list gs_event)
    : option (vkcapture_source_t * list gs_event) :=
  match tick_follow created s ctx t with
  | None => None
  | Some (ctx1, t1) => Some (tick_select s ctx1 t1)
  end.

End Tick.

(** [vkcapture_source_create]: the zeroed source ([bzalloc]). *)
Definition source_create (P : proto) : vkcapture_source_t :=
  {| texture := 0; src_buf_id := 0; client_id := 0;
     src_tdata := replicate (CAPTURE_TEXTURE_DATA_SIZE P) 0 |}.

End Source.

(** ** The layer's loader interface ([vklayer.c], "setup hooks") *)

Module Loader.
Import Layer.
Import String.StringSyntax.
Local Delimit Scope string_scope with string.
Local Open Scope string_scope.

Definition VK_ERROR_OUT_OF_HOST_MEMORY : Z := -1.
Definition VK_ERROR_INITIALIZATION_FAILED : Z := -3.
Definition VK_API_VERSION_1_2 : Z := 4202496.
Definition VK_STRUCTURE_TYPE_APPLICATION_INFO : Z := 0.
Definition VK_STRUCTURE_TYPE_LOADER_INSTANCE_CREATE_INFO : Z := 47.
Definition VK_STRUCTURE_TYPE_LOADER_DEVICE_CREATE_INFO : Z := 48.
Definition VK_LAYER_LINK_INFO : Z := 0.
Definition VK_QUEUE_GRAPHICS_BIT : Z := 1.
Definition VK_QUEUE_COMPUTE_BIT : Z := 2.
Definition VK_QUEUE_TRANSFER_BIT : Z := 4.
Definition LAYER_NEGOTIATE_INTERFACE_STRUCT : Z := 1.
Definition CURRENT_LOADER_LAYER_INTERFACE_VERSION : Z := 2.
Definition VK_KHR_EXTERNAL_MEMORY_FD_EXTENSION_NAME : String.string :=
  "VK_KHR_external_memory_fd"%string.

(** The entry points of the layer. *)
Inductive hook : Type :=
| GetInstanceProcAddr
| CreateInstance
| DestroyInstance
| GetDeviceProcAddr
| CreateDevice
| DestroyDevice
| CreateSwapchainKHR
| DestroySwapchainKHR
| QueuePresentKHR.

(** A [PFN_vkVoidFunction]: one of the layer's [OBS_] functions, or a
    pointer that came from the next layer ([0] is NULL). *)
Inductive PFN_vkVoidFunction : Type :=
| OBS (h : hook)
| Ptr (p : Z).

(** *** Hook data of instances and devices *)

Record vk_inst_funcs : Type := {
  f_GetInstanceProcAddr : Z;
  f_DestroyInstance : Z;
  f_GetPhysicalDeviceQueueFamilyProperties : Z;
  f_GetPhysicalDeviceMemoryProperties : Z
}.

Record vk_inst_data : Type := {
  instance : Z;
  inst_valid : bool;
  inst_funcs : vk_inst_funcs
}.

(** The hook data of a device together with its [funcs] table:
    [d_funcs name] is the member that [GETADDR] filled from
    [gdpa(device, name)]. *)
Record vk_device : Type := {
  d_data : vk_data;
  d_funcs : String.string -> Z
}.

Inductive loader_freed : Type :=
| FrInstData
| FrDeviceData.

Record VkApplicationInfo : Type := {
  ai_sType : Z;
  ai_pNext : Z;
  pApplicationName : Z;
  applicationVersion : Z;
  pEngineName : Z;
  engineVersion : Z;
  apiVersion : Z
}.

(** One link of the list the loader hands to a layer, and one structure
    of a [pNext] chain read as a [VkLayerInstanceCreateInfo] or
    [VkLayerDeviceCreateInfo]: [pLayerInfo] is the list [u.pLayerInfo]
    points to. *)
Record VkLayerLink : Type := {
  pfnNextGetInstanceProcAddr : Z;
  pfnNextGetDeviceProcAddr : Z
}.

Record chain_entry : Type := {
  sType : Z;
  function : Z;
  pLayerInfo : list VkLayerLink
}.

Definition set_pLayerInfo (l : list VkLayerLink) (c : chain_entry) : chain_entry :=
  {| sType := sType c; function := function c; pLayerInfo := l |}.

(** The members of the create infos that the layer reads or writes; the
    others are handed on as they are. *)
Record VkInstanceCreateInfo : Type := {
  i_pNext : list chain_entry;
  pApplicationInfo : option VkApplicationInfo
}.

Record VkDeviceQueueCreateInfo : Type := {
  queueFamilyIndex : nat;
  queueCount : nat
}.

Record VkDeviceCreateInfo : Type := {
  d_pNext : list chain_entry;
  enabledExtensionNames : list String.string;
  queueCreateInfos : list VkDeviceQueueCreateInfo
}.

Inductive loader_event : Type :=
| LvNextCreateInstance (info : VkInstanceCreateInfo)
| LvNextDestroyInstance (inst : Z)
| LvNextCreateDevice (phy : Z) (info : VkDeviceCreateInfo)
| LvGetDeviceQueue (fam idx : nat)
| LvVkFree (what : loader_freed).

(** The static data of the layer. *)
Record process : Type := {
  vulkan_seen : bool;
  instances : list (Z * vk_inst_data);
  p_devices : list (Z * vk_device);
  capture_data : capture_data_t;
  p_tr : list loader_event
}.

Definition set_instances (l : list (Z * vk_inst_data)) (p : process) : process :=
  {| vulkan_seen := vulkan_seen p; instances := l; p_devices := p_devices p;
     capture_data := capture_data p; p_tr := p_tr p |}.
Definition set_p_devices (l : list (Z * vk_device)) (p : process) : process :=
  {| vulkan_seen := vulkan_seen p; instances := instances p; p_devices := l;
     capture_data := capture_data p; p_tr := p_tr p |}.
Definition p_emit (l : list loader_event) (p : process) : process :=
  {| vulkan_seen := vulkan_seen p; instances := instances p;
     p_devices := p_devices p; capture_data := capture_data p;
     p_tr := p_tr p ++ l |}.

(** *** [OBS_Negotiate] *)

Record VkNegotiateLayerInterface : Type := {
  nli_sType : Z;
  nli_pNext : Z;
  loaderLayerInterfaceVersion : Z;
  pfnGetInstanceProcAddr : PFN_vkVoidFunction;
  pfnGetDeviceProcAddr : PFN_vkVoidFunction;
  pfnGetPhysicalDeviceProcAddr : PFN_vkVoidFunction
}.

Definition set_version (v : Z) (nli : VkNegotiateLayerInterface)
    : VkNegotiateLayerInterface :=
  {| nli_sType := nli_sType nli; nli_pNext := nli_pNext nli;
     loaderLayerInterfaceVersion := v;
     pfnGetInstanceProcAddr := pfnGetInstanceProcAddr nli;
     pfnGetDeviceProcAddr := pfnGetDeviceProcAddr nli;
     pfnGetPhysicalDeviceProcAddr := pfnGetPhysicalDeviceProcAddr nli |}.

Definition OBS_Negotiate (nli : VkNegotiateLayerInterface) (p : process)
    : Z * VkNegotiateLayerInterface * process :=
  let nli1 :=
    if 2 <=? loaderLayerInterfaceVersion nli then
      {| nli_sType := LAYER_NEGOTIATE_INTERFACE_STRUCT;
         nli_pNext := 0;
         loaderLayerInterfaceVersion := loaderLayerInterfaceVersion nli;
         pfnGetInstanceProcAddr := OBS GetInstanceProcAddr;
         pfnGetDeviceProcAddr := OBS GetDeviceProcAddr;
         pfnGetPhysicalDeviceProcAddr := Ptr 0 |}
    else nli in
  let cur_ver := CURRENT_LOADER_LAYER_INTERFACE_VERSION in
  let nli2 :=
    if cur_ver <? loaderLayerInterfaceVersion nli1
    then set_version cur_ver nli1 else nli1 in
  let p1 :=
    if negb (vulkan_seen p) then
      {| vulkan_seen := true; instances := []; p_devices := [];
         capture_data := capture_init; p_tr := p_tr p |}
    else p in
  (VK_SUCCESS, nli2, p1).

(** *** [OBS_GetDeviceProcAddr] and [OBS_GetInstanceProcAddr] *)

(** [next] is what the next layer's function answers for [pName]. A
    device or instance the layer does not know gives a NULL hook-data
    pointer, whose [funcs] cannot be read. *)
Definition OBS_GetDeviceProcAddr (next : String.string -> Z) (device : handle)
    (pName : String.string) (p : process) : option PFN_vkVoidFunction :=
  let data := get_obj_data (p_devices p) (h_ldt device) in
  if String.eqb pName "vkGetDeviceProcAddr" then Some (OBS GetDeviceProcAddr)
  else if String.eqb pName "vkDestroyDevice" then Some (OBS DestroyDevice)
  else
    match data with
    | None => None
    | Some d =>
        let if_supported h :=
          if d_funcs d pName =? 0 then Ptr 0 else OBS h in
        if String.eqb pName "vkCreateSwapchainKHR"
        then Some (if_supported CreateSwapchainKHR)
        else if String.eqb pName "vkDestroySwapchainKHR"
        then Some (if_supported DestroySwapchainKHR)
        else if String.eqb pName "vkQueuePresentKHR"
        then Some (if_supported QueuePresentKHR)
        else if d_funcs d "vkGetDeviceProcAddr" =? 0 then Some (Ptr 0)
        else Some (Ptr (next pName))
    end.

(** [instance] is [None] for a NULL handle. *)
Definition OBS_GetInstanceProcAddr (next : String.string -> Z)
    (instance : option handle) (pName : String.string) (p : process)
    : option PFN_vkVoidFunction :=
  if String.eqb pName "vkGetInstanceProcAddr" then Some (OBS GetInstanceProcAddr)
  else if String.eqb pName "vkCreateInstance" then Some (OBS CreateInstance)
  else if String.eqb pName "vkDestroyInstance" then Some (OBS DestroyInstance)
  else if String.eqb pName "vkGetDeviceProcAddr" then Some (OBS GetDeviceProcAddr)
  else if String.eqb pName "vkCreateDevice" then Some (OBS CreateDevice)
  else if String.eqb pName "vkDestroyDevice" then Some (OBS DestroyDevice)
  else
    match instance with
    | None => Some (Ptr 0)
    | Some inst =>
        match get_obj_data (instances p) (h_ldt inst) with
        | None => None
        | Some idata =>
            if f_GetInstanceProcAddr (inst_funcs idata) =? 0 then Some (Ptr 0)
            else Some (Ptr (next pName))
        end
    end.

(** *** The link info of a [pNext] chain *)

Definition is_inst_link_info (lici : chain_entry) : bool :=
  (sType lici =? VK_STRUCTURE_TYPE_LOADER_INSTANCE_CREATE_INFO)
  && (function lici =? VK_LAYER_LINK_INFO).

Definition is_device_link_info (lici : chain_entry) : bool :=
  (sType lici =? VK_STRUCTURE_TYPE_LOADER_DEVICE_CREATE_INFO)
  && (function lici =? VK_LAYER_LINK_INFO).

(** [while (lici && !is_link_info(lici)) lici = lici->pNext;]: the
    position of the structure the loop stops at, counted from [i]. *)
Fixpoint find_link_info (is_link_info : chain_entry -> bool)
    (chain : list chain_entry) (i : nat) : option nat :=
  match chain with
  | [] => None
  | lici :: chain' =>
      if is_link_info lici then Some i
      else find_link_info is_link_info chain' (Datatypes.S i)
  end.

(** Reading [lici->u.pLayerInfo] and moving the chain on; no result when
    [u.pLayerInfo] is NULL. *)
Definition take_link (chain : list chain_entry) (i : nat)
    : option (VkLayerLink * list chain_entry) :=
  match chain !! i with
  | None => None
  | Some lici =>
      match pLayerInfo lici with
      | [] => None
      | link :: rest => Some (link, <[i := set_pLayerInfo rest lici]> chain)
      end
  end.

(** *** [OBS_CreateInstance] and [OBS_DestroyInstance] *)

(** The answers of the next layer: [vk_alloc], its [vkCreateInstance]
    (result and the handle stored in [*p_inst]) and [gpa(inst, name)]. *)
Record inst_env : Type := {
  ie_alloc_inst_data : bool;
  ie_CreateInstance : VkInstanceCreateInfo -> Z * handle;
  ie_gpa : String.string -> Z
}.

Definition set_apiVersion (v : Z) (a : VkApplicationInfo) : VkApplicationInfo :=
  {| ai_sType := ai_sType a; ai_pNext := ai_pNext a;
     pApplicationName := pApplicationName a;
     applicationVersion := applicationVersion a;
     pEngineName := pEngineName a; engineVersion := engineVersion a;
     apiVersion := v |}.

(** The local [ai] of [OBS_CreateInstance]. *)
Definition hacked_application_info (a : option VkApplicationInfo) : VkApplicationInfo :=
  match a with
  | Some ai =>
      if apiVersion ai <? VK_API_VERSION_1_2
      then set_apiVersion VK_API_VERSION_1_2 ai else ai
  | None =>
      {| ai_sType := VK_STRUCTURE_TYPE_APPLICATION_INFO; ai_pNext := 0;
         pApplicationName := 0; applicationVersion := 0; pEngineName := 0;
         engineVersion := 0; apiVersion := VK_API_VERSION_1_2 |}
  end.

(** From [init_inst_data] to the end of [OBS_CreateInstance]. *)
Definition track_instance (e : inst_env) (inst : handle) (valid : bool)
    (p : process) : process :=
  let ifuncs :=
    {| f_GetInstanceProcAddr := ie_gpa e "vkGetInstanceProcAddr";
       f_DestroyInstance := ie_gpa e "vkDestroyInstance";
       f_GetPhysicalDeviceQueueFamilyProperties :=
         ie_gpa e "vkGetPhysicalDeviceQueueFamilyProperties";
       f_GetPhysicalDeviceMemoryProperties :=
         ie_gpa e "vkGetPhysicalDeviceMemoryProperties" |} in
  let funcs_found :=
    negb (f_GetInstanceProcAddr ifuncs =? 0)
    && negb (f_DestroyInstance ifuncs =? 0)
    && negb (f_GetPhysicalDeviceQueueFamilyProperties ifuncs =? 0)
    && negb (f_GetPhysicalDeviceMemoryProperties ifuncs =? 0) in
  let idata :=
    {| instance := h_val inst; inst_valid := valid && funcs_found;
       inst_funcs := ifuncs |} in
  set_instances (add_obj_data (instances p) (h_ldt inst) idata) p.

(** [OBS_CreateInstance]: the result, the caller's create info as the
    call leaves it, and the new state. *)
Definition OBS_CreateInstance (e : inst_env) (cinfo : VkInstanceCreateInfo)
    (p : process) : option (Z * VkInstanceCreateInfo * process) :=
  match find_link_info is_inst_link_info (i_pNext cinfo) 0 with
  | None => Some (VK_ERROR_INITIALIZATION_FAILED, cinfo, p)
  | Some i =>
      match take_link (i_pNext cinfo) i with
      | None => None
      | Some (_, chain) =>
          let cinfo' :=
            {| i_pNext := chain; pApplicationInfo := pApplicationInfo cinfo |} in
          let info :=
            {| i_pNext := chain;
               pApplicationInfo :=
                 Some (hacked_application_info (pApplicationInfo cinfo)) |} in
          if negb (ie_alloc_inst_data e)
          then Some (VK_ERROR_OUT_OF_HOST_MEMORY, cinfo', p)
          else
            let p1 := p_emit [LvNextCreateInstance info] p in
            let '(res, inst) := ie_CreateInstance e info in
            let valid := res =? VK_SUCCESS in
            if negb valid then
              (* try again with original arguments *)
              let p2 := p_emit [LvNextCreateInstance cinfo'] p1 in
              let '(res2, inst2) := ie_CreateInstance e cinfo' in
              if negb (res2 =? VK_SUCCESS)
              then Some (res2, cinfo', p_emit [LvVkFree FrInstData] p2)
              else Some (res2, cinfo', track_instance e inst2 valid p2)
            else Some (res, cinfo', track_instance e inst valid p1)
      end
  end.

(** [OBS_DestroyInstance] *)
Definition OBS_DestroyInstance (inst : handle) (p : process) : option process :=
  match get_obj_data (instances p) (h_ldt inst) with
  | None => None                         (* ifuncs->DestroyInstance on NULL *)
  | Some idata =>
      if f_DestroyInstance (inst_funcs idata) =? 0 then None
      else
        Some (p_emit [LvVkFree FrInstData; LvNextDestroyInstance (h_val inst)]
                (set_instances (remove_obj_data (instances p) (h_ldt inst)) p))
  end.

(** *** [OBS_CreateDevice] *)

(** The answers of the next layer and of the allocator: the block
    [alloc_device_data] returns and what it holds, [vkCreateDevice],
    [gdpa(device, name)], the queue flags of the queue families,
    [GetDeviceQueue], and whether [vk_alloc] gives queue nodes. The two
    [malloc] calls are taken to succeed. *)
Record dev_env : Type := {
  de_alloc_device_data : option vk_data;
  de_CreateDevice : VkDeviceCreateInfo -> Z * handle;
  de_gdpa : String.string -> Z;
  de_queue_family_properties : list Z;
  de_GetDeviceQueue : nat -> nat -> Z;
  de_alloc_queue_data : bool
}.

Definition set_device (x : Z) (d : vk_data) : vk_data :=
  {| device := x; valid := valid d; phy_device := phy_device d;
     swaps := swaps d; cur_swap := cur_swap d; queues := queues d |}.
Definition set_phy_device (x : Z) (d : vk_data) : vk_data :=
  {| device := device d; valid := valid d; phy_device := x;
     swaps := swaps d; cur_swap := cur_swap d; queues := queues d |}.

(** The names [OBS_CreateDevice] looks up with [GETADDR]. *)
Definition device_funcs : list String.string :=
  [ "vkGetDeviceProcAddr"; "vkDestroyDevice"; "vkCreateSwapchainKHR";
    "vkDestroySwapchainKHR"; "vkQueuePresentKHR"; "vkAllocateMemory";
    "vkFreeMemory"; "vkBindImageMemory2"; "vkGetSwapchainImagesKHR";
    "vkCreateImage"; "vkDestroyImage"; "vkGetImageMemoryRequirements2";
    "vkResetCommandPool"; "vkBeginCommandBuffer"; "vkEndCommandBuffer";
    "vkCmdCopyImage"; "vkCmdPipelineBarrier"; "vkGetDeviceQueue";
    "vkQueueSubmit"; "vkCreateCommandPool"; "vkDestroyCommandPool";
    "vkAllocateCommandBuffers"; "vkCreateFence"; "vkDestroyFence";
    "vkWaitForFences"; "vkResetFences"; "vkGetImageSubresourceLayout";
    "vkGetMemoryFdKHR" ]%string.

(** The extension block at the start of [OBS_CreateDevice]; it writes to
    the caller's create info. *)
Definition inject_extension (info : VkDeviceCreateInfo) : VkDeviceCreateInfo :=
  let add_ext :=
    negb (existsb (fun name => String.eqb name VK_KHR_EXTERNAL_MEMORY_FD_EXTENSION_NAME)
                  (enabledExtensionNames info)) in
  if add_ext then
    {| d_pNext := d_pNext info;
       enabledExtensionNames :=
         enabledExtensionNames info ++ [VK_KHR_EXTERNAL_MEMORY_FD_EXTENSION_NAME];
       queueCreateInfos := queueCreateInfos info |}
  else info.

(** [add_queue_data] *)
Definition add_queue_data (qs : list (Z * vk_queue_data)) (queue : Z)
    (fam : Z) (transfer : bool) : list (Z * vk_queue_data) :=
  add_obj_data qs queue
    {| fam_idx := fam; supports_transfer := transfer; frames := [];
       frame_index := 0 |}.

(** The inner loop over the queues of one [VkDeviceQueueCreateInfo]:
    [n] iterations are left, [queue_index] is the next index. *)
Fixpoint queue_loop (e : dev_env) (family_index : nat) (n queue_index : nat)
    (acc : list (Z * vk_queue_data) * list loader_event)
    : option (list (Z * vk_queue_data) * list loader_event) :=
  match n with
  | O => Some acc
  | Datatypes.S n' =>
      match de_queue_family_properties e !! family_index with
      | None => None                     (* read past the array *)
      | Some queueFlags =>
          if negb (de_alloc_queue_data e) then None
          else
            let queue := de_GetDeviceQueue e family_index queue_index in
            let supports_transfer :=
              negb (Z.land queueFlags
                      (Z.lor (Z.lor VK_QUEUE_GRAPHICS_BIT VK_QUEUE_COMPUTE_BIT)
                             VK_QUEUE_TRANSFER_BIT) =? 0) in
            queue_loop e family_index n' (Datatypes.S queue_index)
              (add_queue_data (fst acc) queue (Z.of_nat family_index)
                              supports_transfer,
               snd acc ++ [LvGetDeviceQueue family_index queue_index])
      end
  end.

(** The outer loop over [pQueueCreateInfos]. *)
Fixpoint info_loop (e : dev_env) (infos : list VkDeviceQueueCreateInfo)
    (acc : list (Z * vk_queue_data) * list loader_event)
    : option (list (Z * vk_queue_data) * list loader_event) :=
  match infos with
  | [] => Some acc
  | queue_info :: infos' =>
      match queue_loop e (queueFamilyIndex queue_info) (queueCount queue_info) 0 acc with
      | None => None
      | Some acc' => info_loop e infos' acc'
      end
  end.

(** [OBS_CreateDevice]: the result, the caller's create info as the call
    leaves it, and the new state. *)
Definition OBS_CreateDevice (e : dev_env) (phy_device : handle)
    (info : VkDeviceCreateInfo) (p : process)
    : option (Z * VkDeviceCreateInfo * process) :=
  let idata := get_obj_data (instances p) (h_ldt phy_device) in
  let info := inject_extension info in
  match find_link_info is_device_link_info (d_pNext info) 0 with
  | None => Some (VK_ERROR_INITIALIZATION_FAILED, info, p)
  | Some i =>
      match take_link (d_pNext info) i with
      | None => None
      | Some (_, chain) =>
          let info :=
            {| d_pNext := chain;
               enabledExtensionNames := enabledExtensionNames info;
               queueCreateInfos := queueCreateInfos info |} in
          match de_alloc_device_data e with
          | None => Some (VK_ERROR_OUT_OF_HOST_MEMORY, info, p)
          | Some block =>
              let data := set_queues [] block in
              match idata with
              | None => None             (* idata->instance on NULL *)
              | Some idata =>
                  let p1 := p_emit [LvNextCreateDevice (h_val phy_device) info] p in
                  let '(ret, device) := de_CreateDevice e info in
                  if negb (ret =? VK_SUCCESS)
                  then Some (ret, info, p_emit [LvVkFree FrDeviceData] p1)
                  else
                    let data :=
                      set_phy_device (h_val phy_device)
                        (set_valid false (set_device (h_val device) data)) in
                    let tracked (d : vk_data) : process :=
                      set_p_devices
                        (add_obj_data (p_devices p1) (h_ldt device)
                           {| d_data := d; d_funcs := de_gdpa e |}) p1 in
                    let funcs_found :=
                      forallb (fun name => negb (de_gdpa e name =? 0)) device_funcs in
                    if negb funcs_found then Some (ret, info, tracked data)
                    else if negb (inst_valid idata) then Some (ret, info, tracked data)
                    else
                      match info_loop e (queueCreateInfos info) (queues data, []) with
                      | None => None
                      | Some (qs, evs) =>
                          let data :=
                            set_valid true
                              (set_cur_swap None (set_swaps [] (set_queues qs data))) in
                          Some (ret, info, p_emit evs (tracked data))
                      end
              end
          end
      end
  end.

(** The process as the per-device entry points see it. *)
Definition world_of (p : process) (lim : Z) (t : trace) : world :=
  {| devices := List.map (fun kd => (fst kd, d_data (snd kd))) (p_devices p);
     w_cap := capture_data p; w_limiter := lim; w_tr := t |}.

End Loader.

(** * Definitions for further properties *)

(** ** For the broker and the source *)

Module BrokerExtraSpec.
Import Broker BrokerSpec Source.

(** Every descriptor held in some client's [buf_fds]. *)
Definition all_held (s : server_t) : list Z :=
  flat_map (fun c => held_fds (buf_fds c)) (clients s).

(** Client ids are positive, bounded by the counter they were drawn from
    and strictly increasing along the array. *)
Definition ids_inv (s : server_t) : Prop :=
  0 <= clientid s
  /\ Forall (fun x => 0 < x <= clientid s) (List.map id (clients s))
  /\ Sorted.StronglySorted Z.lt (List.map id (clients s)).

(** The descriptors [server_cleanup_client] closes for a client, in
    order. *)
Definition client_fds (c : vkcapture_client_t) : list Z :=
  sockfd c :: held_fds (buf_fds c).

Definition is_kick (ev : gs_event) : bool :=
  match ev with WriteKick _ _ => true | _ => false end.

(** *** Sample states *)

(** [one_client] after its client sent a TextureInfo with descriptor 9. *)
Definition texture_installed : server_t :=
  set_bufid 1
    (set_clients [ {| id := 1; sockfd := 5; buf_id := 1;
                      buf_fds := [9; -1; -1; -1]; cdata := [];
                      tdata := texture_msg 1 |} ] one_client).

(** A full-size ClientInfo payload. *)
Definition client_msg : list Z := 1 :: replicate 58 0.

(** A broker with two clients; both sockets are readable. *)
Definition two_clients : server_t :=
  {| fds := [ {| fd := 3; events := POLLIN; revents := 0 |};
              {| fd := 5; events := POLLIN; revents := 1 |};
              {| fd := 6; events := POLLIN; revents := 1 |} ];
     clients := [ {| id := 1; sockfd := 5; buf_id := 0;
                     buf_fds := replicate 4 (-1); cdata := []; tdata := [] |};
                  {| id := 2; sockfd := 6; buf_id := 0;
                     buf_fds := replicate 4 (-1); cdata := []; tdata := [] |} ];
     bufid := 0; clientid := 2; closed := [] |}.

(** Accessors that read single bytes of the layout of [spec_proto]. *)
Definition byte_view : tdata_view :=
  {| v_width := fun td => nth 1 td 0;
     v_height := fun td => nth 5 td 0;
     v_format := fun td => nth 9 td 0;
     v_strides := fun td i => nth (15 + 4 * i) td 0;
     v_offsets := fun td i => nth (31 + 4 * i) td 0;
     v_modifier := fun td => nth 47 td 0 |}.

(** A source that follows client [cid] and has imported buffer [bid]. *)
Definition following (cid bid : Z) : vkcapture_source_t :=
  {| texture := 0; src_buf_id := bid; client_id := cid;
     src_tdata := replicate 59 0 |}.

End BrokerExtraSpec.

(** ** For the layer *)

Module LayerExtraSpec.
Import Layer LayerSpec.

(** What the swapchain walk of [vk_shtex_free] releases for one
    swapchain, in order. *)
Definition release_events (swap : vk_swap_data) : list event :=
  (if export_image swap =? VK_NULL_HANDLE then [] else [EvDestroyImage (export_image swap)])
  ++ (if 0 <=? dmabuf_fd swap then [EvClose (dmabuf_fd swap)] else [])
  ++ (if export_mem swap =? VK_NULL_HANDLE then [] else [EvFreeMemory (export_mem swap)]).

(** A swapchain without export state. *)
Definition export_cleared (swap : vk_swap_data) : Prop :=
  export_image swap = VK_NULL_HANDLE /\ export_mem swap = VK_NULL_HANDLE
  /\ dmabuf_fd swap < 0 /\ captured swap = false.

(** Successive calls of [capture_update_socket], one environment each. *)
Definition update_socket_calls (es : list env) (s : st) : st :=
  fold_left (fun s e => capture_update_socket e s) es s.

(** The swapchain as the walk of [vk_shtex_free] leaves it. *)
Definition clear_export (swap : vk_swap_data) : vk_swap_data :=
  set_captured false
    (set_export_image VK_NULL_HANDLE
       (set_export_mem VK_NULL_HANDLE
          (if 0 <=? dmabuf_fd swap then set_dmabuf_fd (-1) swap else swap))).

Definition is_sendmsg (ev : event) : bool :=
  match ev with EvSendmsg _ _ _ => true | _ => false end.

Definition is_queue_submit (ev : event) : bool :=
  match ev with EvQueueSubmit _ _ _ => true | _ => false end.

(** A frame ring of [n] slots can be built: [vk_alloc] returned a frame
    array and [AllocateCommandBuffers] stored a command buffer in every
    slot. *)
Definition frames_created (e : env) (n : nat) : bool :=
  e_alloc_frames e
  && forallb (fun i => negb (cmd_buffer (e_frame e i) =? VK_NULL_HANDLE)) (seq 0 n).

(** *** Sample environments and states *)

(** [e] with other answers of [recv] and [vkAllocateMemory]. *)
Definition with_recv_alloc (r : Z * Z) (a : Z * option Z) (e : env) : env :=
  {| e_socket := e_socket e; e_connect := e_connect e; e_recv := r;
     e_sendmsg := e_sendmsg e; e_pad := e_pad e; e_CreateImage := e_CreateImage e;
     e_layout := e_layout e; e_memreq := e_memreq e; e_memtypes := e_memtypes e;
     e_AllocateMemory := a;
     e_BindImageMemory2 := e_BindImageMemory2 e;
     e_GetMemoryFdKHR := e_GetMemoryFdKHR e;
     e_alloc_frames := e_alloc_frames e; e_frame := e_frame e;
     e_QueueSubmit := e_QueueSubmit e; e_QueuePresentKHR := e_QueuePresentKHR e;
     e_CreateSwapchainKHR := e_CreateSwapchainKHR e;
     e_GetSwapchainImagesKHR := e_GetSwapchainImagesKHR e;
     e_alloc_swap_data := e_alloc_swap_data e; e_swap_node := e_swap_node e;
     e_swap_images := e_swap_images e;
     e_garbage_layout := e_garbage_layout e |}.

(** The broker has closed the socket: [recv] returns 0. *)
Definition env_eof : env := with_recv_alloc (0, 0) (e_AllocateMemory env_ok) env_ok.

(** [vkAllocateMemory] fails and stores nothing. *)
Definition env_no_memory : env := with_recv_alloc (e_recv env_ok) (-2, None) env_ok.

(** The sample device at the 60th present since the last probe. *)
Definition st_probe : st :=
  {| dev := device_1; cap := connected; limiter := 59; tr := [] |}.

(** The sample device while it exports, at the 60th present. *)
Definition st_capturing : st :=
  {| dev := device_capturing; cap := {| connfd := 4; capturing := true |};
     limiter := 59; tr := [] |}.

(** The sample device with its window minimised: a swapchain of extent
    0 x 0. *)
Definition st_minimised : st :=
  {| dev := {| device := 1; valid := true; phy_device := 2;
               swaps := [(1000, {| swap_node := 9000;
                                   image_extent := (0, 0); format := 44;
                                   export_image := VK_NULL_HANDLE;
                                   export_mem := VK_NULL_HANDLE;
                                   export_layout := (0, 0);
                                   swap_images := [101; 102; 103];
                                   image_count := 3; dmabuf_fd := -1;
                                   captured := false |})];
               cur_swap := None; queues := [(11, fresh_queue)] |};
     cap := connected; limiter := 0; tr := [] |}.

(** The sample process after a failed export setup. *)
Definition world_invalid : world :=
  {| devices := [(100, set_valid false device_1)]; w_cap := connected;
     w_limiter := 0; w_tr := [] |}.

End LayerExtraSpec.

(** ** For the loader interface *)

Module LoaderSpec.
Import Layer LayerSpec Loader.
Import String.StringSyntax.
Local Open Scope string_scope.

Definition intercepted_device_names : list String.string :=
  ["vkGetDeviceProcAddr"; "vkDestroyDevice"; "vkCreateSwapchainKHR";
   "vkDestroySwapchainKHR"; "vkQueuePresentKHR"].

Definition intercepted_instance_names : list String.string :=
  ["vkGetInstanceProcAddr"; "vkCreateInstance"; "vkDestroyInstance";
   "vkGetDeviceProcAddr"; "vkCreateDevice"; "vkDestroyDevice"].

Definition hook_name (h : hook) : String.string :=
  match h with
  | GetInstanceProcAddr => "vkGetInstanceProcAddr"
  | CreateInstance => "vkCreateInstance"
  | DestroyInstance => "vkDestroyInstance"
  | GetDeviceProcAddr => "vkGetDeviceProcAddr"
  | CreateDevice => "vkCreateDevice"
  | DestroyDevice => "vkDestroyDevice"
  | CreateSwapchainKHR => "vkCreateSwapchainKHR"
  | DestroySwapchainKHR => "vkDestroySwapchainKHR"
  | QueuePresentKHR => "vkQueuePresentKHR"
  end.




(** *** Sample loader data *)

Definition link_a : VkLayerLink :=
  {| pfnNextGetInstanceProcAddr := 7001; pfnNextGetDeviceProcAddr := 7002 |}.
Definition link_b : VkLayerLink :=
  {| pfnNextGetInstanceProcAddr := 7003; pfnNextGetDeviceProcAddr := 7004 |}.

(** A chain with a debug messenger structure before the loader's link
    info, which lists two layers. *)
Definition instance_chain : list chain_entry :=
  [ {| sType := 1000128004; function := 0; pLayerInfo := [] |};
    {| sType := VK_STRUCTURE_TYPE_LOADER_INSTANCE_CREATE_INFO;
       function := VK_LAYER_LINK_INFO; pLayerInfo := [link_a; link_b] |} ].

(** An application that asks for Vulkan 1.0. *)
Definition instance_cinfo : VkInstanceCreateInfo :=
  {| i_pNext := instance_chain;
     pApplicationInfo :=
       Some {| ai_sType := 0; ai_pNext := 0; pApplicationName := 0;
               applicationVersion := 1; pEngineName := 0; engineVersion := 1;
               apiVersion := 4194304 |} |}.

Definition instance_9 : handle := {| h_val := 9; h_ldt := 90 |}.
Definition phy_device_2 : handle := {| h_val := 2; h_ldt := 90 |}.

Definition inst_env_ok : inst_env :=
  {| ie_alloc_inst_data := true;
     ie_CreateInstance := fun _ => (VK_SUCCESS, instance_9);
     ie_gpa := fun _ => 7100 |}.

(** The static data before the loader has called the layer. *)
Definition process_start : process :=
  {| vulkan_seen := false; instances := []; p_devices := [];
     capture_data := {| connfd := 0; capturing := false |}; p_tr := [] |}.

(** ... and with instance 9 tracked and valid. *)
Definition process_instance : process :=
  {| vulkan_seen := true;
     instances :=
       [(90, {| instance := 9; inst_valid := true;
                inst_funcs :=
                  {| f_GetInstanceProcAddr := 7100; f_DestroyInstance := 7100;
                     f_GetPhysicalDeviceQueueFamilyProperties := 7100;
                     f_GetPhysicalDeviceMemoryProperties := 7100 |} |})];
     p_devices := []; capture_data := capture_init; p_tr := [] |}.

Definition negotiate_v5 : VkNegotiateLayerInterface :=
  {| nli_sType := 0; nli_pNext := 0; loaderLayerInterfaceVersion := 5;
     pfnGetInstanceProcAddr := Ptr 0; pfnGetDeviceProcAddr := Ptr 0;
     pfnGetPhysicalDeviceProcAddr := Ptr 0 |}.

(** A device with the swapchain extension, two queues of family 0 and one
    of family 1. *)
Definition device_cinfo : VkDeviceCreateInfo :=
  {| d_pNext := [ {| sType := VK_STRUCTURE_TYPE_LOADER_DEVICE_CREATE_INFO;
                     function := VK_LAYER_LINK_INFO; pLayerInfo := [link_a] |} ];
     enabledExtensionNames := ["VK_KHR_swapchain"];
     queueCreateInfos := [ {| queueFamilyIndex := 0; queueCount := 2 |};
                           {| queueFamilyIndex := 1; queueCount := 1 |} ] |}.

(** Family 0 does graphics, compute and transfer; family 1 only sparse
    binding. The allocated block holds what an earlier device left. *)
Definition dev_env_ok : dev_env :=
  {| de_alloc_device_data := Some device_2;
     de_CreateDevice := fun _ => (VK_SUCCESS, dev_handle_1);
     de_gdpa := fun _ => 7200;
     de_queue_family_properties := [7; 8];
     de_GetDeviceQueue := fun fam idx => 11 + 10 * Z.of_nat fam + Z.of_nat idx;
     de_alloc_queue_data := true |}.

(** The next layer lacks [vkGetMemoryFdKHR]. *)
Definition dev_env_no_fd : dev_env :=
  {| de_alloc_device_data := Some device_2;
     de_CreateDevice := fun _ => (VK_SUCCESS, dev_handle_1);
     de_gdpa := fun name => if String.eqb name "vkGetMemoryFdKHR" then 0 else 7200;
     de_queue_family_properties := [7; 8];
     de_GetDeviceQueue := fun fam idx => 11 + 10 * Z.of_nat fam + Z.of_nat idx;
     de_alloc_queue_data := true |}.

End LoaderSpec.

(** * Properties of the broker *)

Module BrokerProofs.
Import Broker.
Import BrokerSpec.

(** ** Helper lemmas *)

Lemma delete_insert_same {A : Type} (l : list A) (i : nat) (x : A) :
  delete i (<[i := x]> l) = delete i l.
Proof.
  revert i; induction l as [|a l IH]; intros [|i]; simpl; try reflexivity.
  f_equal. apply IH.
Qed.

Lemma buf0_recv_into (P : proto) (buf payload : list Z) :
  payload <> [] -> (0 < CAPTURE_TEXTURE_DATA_SIZE P)%nat ->
  buf0 (recv_into P buf payload) = nth 0 payload 0.
Proof.
  intros Hp Hs. unfold buf0, recv_into.
  destruct payload as [|b payload]; [congruence|].
  destruct (CAPTURE_TEXTURE_DATA_SIZE P); [lia|]. reflexivity.
Qed.

Lemma remove_first_fd_not_in (f : Z) (l : list pollfd) :
  NoDup (List.map fd l) -> ~ In f (List.map fd (remove_first_fd f l)).
Proof.
  induction l as [|p l IH]; simpl; intros Hnd; [tauto|].
  inversion Hnd as [|x l0 Hp Hl]; subst.
  destruct (Z.eqb_spec (fd p) f) as [<-|Hne].
  - exact Hp.
  - simpl. intros [Heq|Hin]; [congruence|]. exact (IH Hl Hin).
Qed.

Lemma cleanup_at (i : nat) (s : server_t) (c : vkcapture_client_t) :
  clients s !! i = Some c ->
  server_cleanup_client i s =
    {| fds := remove_first_fd (sockfd c) (fds s);
       clients := delete i (clients s);
       bufid := bufid s; clientid := clientid s;
       closed := (closed s ++ [sockfd c]) ++ held_fds (buf_fds c) |}.
Proof. intros H. unfold server_cleanup_client. rewrite H. reflexivity. Qed.

Lemma cleanup_bufid_inv (i : nat) (s : server_t) :
  bufid_inv s -> bufid_inv (server_cleanup_client i s).
Proof.
  unfold bufid_inv, server_cleanup_client. intros [H0 H].
  destruct (clients s !! i); [|split; assumption]. simpl.
  split; [exact H0|]. apply Forall_delete. exact H.
Qed.

(** The install branch, written out. *)
Lemma handle_texture_continue (P : proto) (i : nat) (c : vkcapture_client_t)
    (cmsg : option cmsghdr) (s s' : server_t) :
  handle_texture P i c cmsg s = Some (Continue, s') ->
  exists h, cmsg = Some h /\
    s' = set_bufid (bufid s + 1)
           (set_clients
              (<[i := set_buf_id (bufid s + 1) (set_buf_fds (pad4 (cmsg_data h)) c)]>
                 (clients s))
              (do_close (held_fds (buf_fds c)) s)).
Proof.
  unfold handle_texture. destruct cmsg as [h|]; [|discriminate].
  destruct (negb (cmsg_level h =? SOL_SOCKET) || negb (cmsg_type h =? SCM_RIGHTS));
    [discriminate|].
  destruct (4 <? length (cmsg_data h))%nat; [discriminate|].
  destruct (negb (iov_len P =? CAPTURE_TEXTURE_DATA_SIZE P)%nat
            || negb (tdata_nfd P c =? Z.of_nat (length (cmsg_data h))));
    [discriminate|].
  destruct (bufid s =? INT_MAX); [discriminate|].
  intros [= <-]. exists h. split; reflexivity.
Qed.

Lemma handle_texture_break (P : proto) (i : nat) (c : vkcapture_client_t)
    (cmsg : option cmsghdr) (s s' : server_t) :
  handle_texture P i c cmsg s = Some (Break, s') ->
  exists l, s' = server_cleanup_client i (do_close l s).
Proof.
  unfold handle_texture. destruct cmsg as [h|].
  2:{ intros [= <-]. exists []. unfold do_close. rewrite app_nil_r.
      destruct s; reflexivity. }
  destruct (negb (cmsg_level h =? SOL_SOCKET) || negb (cmsg_type h =? SCM_RIGHTS)).
  { intros [= <-]. exists []. unfold do_close. rewrite app_nil_r.
    destruct s; reflexivity. }
  destruct (4 <? length (cmsg_data h))%nat; [discriminate|].
  destruct (negb (iov_len P =? CAPTURE_TEXTURE_DATA_SIZE P)%nat
            || negb (tdata_nfd P c =? Z.of_nat (length (cmsg_data h)))).
  { intros [= <-]. eexists. reflexivity. }
  destruct (bufid s =? INT_MAX); discriminate.
Qed.

Lemma insert_same_buf_id_inv (s : server_t) (i : nat) (c c' : vkcapture_client_t) :
  bufid_inv s -> clients s !! i = Some c -> buf_id c' = buf_id c ->
  bufid_inv (set_clients (<[i := c']> (clients s)) s).
Proof.
  unfold bufid_inv. simpl. intros [H0 H] Hi He. split; [exact H0|].
  apply Forall_insert; [exact H|].
  rewrite He. exact (Forall_lookup_1 _ _ _ _ H Hi).
Qed.

Lemma recv_step_bufid_inv (P : proto) (i : nat) (buf : list Z) (r : recv_result)
    (s : server_t) ctl buf' s' :
  bufid_inv s -> recv_step P i buf r s = Some (ctl, buf', s') -> bufid_inv s'.
Proof.
  intros Hinv. unfold recv_step. destruct r as [e|payload cmsg].
  - destruct ((e =? EAGAIN) || (e =? EWOULDBLOCK)); intros [= <- <- <-];
      [exact Hinv | apply cleanup_bufid_inv; exact Hinv].
  - destruct (length payload =? 0)%nat.
    { intros [= <- <- <-]. apply cleanup_bufid_inv; exact Hinv. }
    destruct (clients s !! i) as [c|] eqn:Hc; [|discriminate].
    destruct (buf0 (recv_into P buf payload) =? CAPTURE_CLIENT_DATA_TYPE P).
    { destruct (negb (iov_len P =? CAPTURE_CLIENT_DATA_SIZE P)%nat);
        intros [= <- <- <-].
      - apply cleanup_bufid_inv; exact Hinv.
      - eapply insert_same_buf_id_inv; eauto. }
    destruct (buf0 (recv_into P buf payload) =? CAPTURE_TEXTURE_DATA_TYPE P).
    2:{ intros [= <- <- <-]. exact Hinv. }
    set (c1 := set_tdata (recv_into P buf payload) c).
    set (s1 := set_clients (<[i := c1]> (clients s)) s).
    assert (Hinv1 : bufid_inv s1) by (eapply insert_same_buf_id_inv; eauto).
    destruct (handle_texture P i c1 cmsg s1) as [[ctl1 s2]|] eqn:Hh; [|discriminate].
    intros [= <- <- <-]. destruct ctl1.
    + apply handle_texture_continue in Hh as (h & _ & ->).
      destruct Hinv1 as [H0 HF]. unfold bufid_inv. simpl in *.
      split; [lia|]. apply Forall_insert.
      * eapply Forall_impl; [|exact HF]. simpl. intros; lia.
      * simpl. lia.
    + apply handle_texture_break in Hh as (l & ->).
      apply cleanup_bufid_inv. exact Hinv1.
Qed.

Lemma recv_loop_bufid_inv (P : proto) (i : nat) (rs : list recv_result) :
  forall buf s s', bufid_inv s -> recv_loop P i buf rs s = Some s' -> bufid_inv s'.
Proof.
  induction rs as [|r rs IH]; simpl; intros buf s s' Hinv.
  - intros [= <-]. exact Hinv.
  - destruct (recv_step P i buf r s) as [[[ctl b] s1]|] eqn:Hs; [|discriminate].
    pose proof (recv_step_bufid_inv _ _ _ _ _ _ _ _ Hinv Hs) as H1.
    destruct ctl; [apply IH; exact H1 | intros [= <-]; exact H1].
Qed.

Lemma clients_loop_bufid_inv (P : proto) (stack : nat -> list Z)
    (inbox : Z -> list recv_result) (fuel : nat) :
  forall i s s', bufid_inv s -> clients_loop P fuel i stack inbox s = Some s' ->
                 bufid_inv s'.
Proof.
  induction fuel as [|fuel IH]; simpl; intros i s s' Hinv.
  - intros [= <-]. exact Hinv.
  - destruct (clients s !! i) as [c|]; [|intros [= <-]; exact Hinv].
    destruct (server_has_event_on_fd (sockfd c) s); [|apply IH; exact Hinv].
    destruct (recv_loop P i (stack i) (inbox (sockfd c)) s) as [s1|] eqn:Hl; [|discriminate].
    apply IH. eapply recv_loop_bufid_inv; eauto.
Qed.

Lemma bufid_inv_start (listenfd rev : Z) : bufid_inv (server_start listenfd rev).
Proof. unfold bufid_inv. simpl. split; [lia|constructor]. Qed.

(** The invariant survives every iteration of the server loop, so it
    holds in every state the broker reaches. *)
Lemma bufid_inv_iteration (P : proto) listenfd ready clientfd rev stack inbox s s' :
  bufid_inv s ->
  server_iteration P listenfd ready clientfd rev stack inbox s = Some s' ->
  bufid_inv s'.
Proof.
  intros Hinv. unfold server_iteration.
  set (s1 := poll_ready ready s).
  assert (H1 : bufid_inv s1) by exact Hinv.
  destruct (server_has_event_on_fd listenfd s1).
  - unfold accept_client. destruct (0 <=? clientfd).
    + destruct (clientid s1 =? INT_MAX); [discriminate|].
      apply clients_loop_bufid_inv. destruct Hinv as [H0 HF].
      unfold bufid_inv. simpl. split; [exact H0|].
      apply Forall_app. split; [exact HF|]. constructor; [simpl; exact H0|constructor].
    + apply clients_loop_bufid_inv. exact H1.
  - apply clients_loop_bufid_inv. exact H1.
Qed.

Lemma buf0_recv_into_any (P : proto) (b1 b2 payload : list Z) :
  payload <> [] ->
  buf0 (recv_into P b1 payload) = buf0 (recv_into P b2 payload).
Proof.
  intros Hp. unfold buf0, recv_into.
  destruct payload as [|b payload]; [congruence|].
  destruct (CAPTURE_TEXTURE_DATA_SIZE P); reflexivity.
Qed.

Lemma length_eqb_nonempty {A : Type} (l : list A) :
  l <> [] -> (length l =? 0)%nat = false.
Proof. destruct l; [congruence|reflexivity]. Qed.

(** A message taken down the install branch leaves the client with a
    larger [buf_id], and the invariant in place. *)
Lemma texture_step_bumps (P : proto) (i : nat) (buf payload : list Z)
    (cmsg : option cmsghdr) (s : server_t) (c : vkcapture_client_t)
    (buf' : list Z) (s' : server_t) :
  bufid_inv s -> clients s !! i = Some c ->
  recv_step P i buf (RecvData payload cmsg) s = Some (Continue, buf', s') ->
  buf0 buf' = CAPTURE_TEXTURE_DATA_TYPE P ->
  payload <> [] /\ buf' = recv_into P buf payload /\
  exists c', clients s' !! i = Some c' /\ buf_id c < buf_id c'.
Proof.
  intros [H0 HF] Hc. unfold recv_step.
  destruct (length payload =? 0)%nat eqn:Hlen; [discriminate|].
  rewrite Hc.
  destruct (buf0 (recv_into P buf payload) =? CAPTURE_CLIENT_DATA_TYPE P) eqn:Hcl.
  { destruct (negb (iov_len P =? CAPTURE_CLIENT_DATA_SIZE P)%nat); discriminate. }
  destruct (buf0 (recv_into P buf payload) =? CAPTURE_TEXTURE_DATA_TYPE P) eqn:Htx.
  2:{ intros [= <- <-] Hb. apply Z.eqb_neq in Htx. contradiction. }
  destruct (handle_texture P i _ cmsg _) as [[ctl s2]|] eqn:Hh; [|discriminate].
  intros [= -> <- <-] _.
  apply handle_texture_continue in Hh as (h & _ & ->).
  split; [intros ->; discriminate|]. split; [reflexivity|].
  eexists. split.
  - simpl. apply list_lookup_insert_eq. rewrite length_insert.
    apply (lookup_lt_Some _ _ _ Hc).
  - simpl. pose proof (Forall_lookup_1 _ _ _ _ HF Hc) as Hle. simpl in Hle. lia.
Qed.

(** ** C3: unknown discriminants and short reads *)

Example unknown_discriminant_run :
  recv_loop spec_proto 0 (replicate 59 0) [RecvData unknown_msg None] one_client
  = Some one_client.
Proof. vm_compute. reflexivity. Qed.

Example eof_run :
  recv_loop spec_proto 0 (replicate 59 0) [RecvData [] None] one_client
  = Some {| fds := [ {| fd := 3; events := POLLIN; revents := 0 |} ];
            clients := []; bufid := 0; clientid := 1; closed := [5] |}.
Proof. vm_compute. reflexivity. Qed.

(** C3, as stated, fails: a message with first byte 7 (neither
    discriminant) leaves the client registered and its socket open and
    polled, whereas [recvmsg] returning 0 removes it. *)
Lemma unknown_discriminant_not_cleaned_up :
  ~ cleaned_up_like_eof spec_proto 0 (replicate 59 0)
      (RecvData unknown_msg None) one_client.
Proof.
  unfold cleaned_up_like_eof. rewrite unknown_discriminant_run, eof_run.
  intros H. discriminate H.
Qed.

(** The length tests of the loop compare [io.iov_len], which [recvmsg]
    never changes, so a short read is not noticed: a one-byte TextureInfo
    that follows a complete one is installed like a complete message. *)
Example short_read_installed :
  recv_loop spec_proto 0 (replicate 59 0)
    [RecvData (texture_msg 1) (rights [9]); RecvData [2] (rights [10])] one_client
  = Some {| fds := fds one_client;
            clients := [ {| id := 1; sockfd := 5; buf_id := 2;
                            buf_fds := [10; -1; -1; -1]; cdata := [];
                            tdata := texture_msg 1 |} ];
            bufid := 2; clientid := 1; closed := [9] |}.
Proof. vm_compute. reflexivity. Qed.

(** C3 (amended): a received message whose first byte is neither the
    ClientInfo nor the TextureInfo discriminant is skipped, leaving the
    client record, the poll set and all descriptors as they were, and the
    loop goes on to the next [recvmsg]; when [recvmsg] returns 0 the loop
    stops and the client is cleaned up: its socket is closed and taken off
    the poll set, the buffer descriptors it holds are closed and its
    record is erased. *)
Theorem unknown_discriminant_skipped (P : proto) (i : nat) (buf payload : list Z)
    (cmsg : option cmsghdr) (s : server_t) (c : vkcapture_client_t) :
  clients s !! i = Some c ->
  payload <> [] ->
  (0 < CAPTURE_TEXTURE_DATA_SIZE P)%nat ->
  nth 0 payload 0 <> CAPTURE_CLIENT_DATA_TYPE P ->
  nth 0 payload 0 <> CAPTURE_TEXTURE_DATA_TYPE P ->
  recv_step P i buf (RecvData payload cmsg) s
    = Some (Continue, recv_into P buf payload, s)
  /\ recv_step P i buf (RecvData [] cmsg) s
    = Some (Break, buf, server_cleanup_client i s)
  /\ fds (server_cleanup_client i s) = remove_first_fd (sockfd c) (fds s)
  /\ clients (server_cleanup_client i s) = delete i (clients s)
  /\ closed (server_cleanup_client i s)
     = closed s ++ sockfd c :: held_fds (buf_fds c).
Proof.
  intros Hc Hp Hs H1 H2. split; [|split].
  - unfold recv_step. rewrite (length_eqb_nonempty _ Hp), Hc.
    rewrite (buf0_recv_into P buf payload Hp Hs).
    apply Z.eqb_neq in H1. apply Z.eqb_neq in H2. rewrite H1, H2. reflexivity.
  - reflexivity.
  - rewrite (cleanup_at i s c Hc). simpl. rewrite <- app_assoc.
    repeat split; reflexivity.
Qed.

Lemma unknown_discriminant_skipped_witness :
  recv_step spec_proto 0 (replicate 59 0) (RecvData unknown_msg None) one_client
    = Some (Continue, recv_into spec_proto (replicate 59 0) unknown_msg, one_client)
  /\ recv_step spec_proto 0 (replicate 59 0) (RecvData [] None) one_client
    = Some (Break, replicate 59 0, server_cleanup_client 0 one_client).
Proof.
  destruct (unknown_discriminant_skipped spec_proto 0 (replicate 59 0) unknown_msg
              None one_client
              {| id := 1; sockfd := 5; buf_id := 0; buf_fds := replicate 4 (-1);
                 cdata := []; tdata := [] |}) as (Ha & Hb & _).
  - reflexivity.
  - discriminate.
  - vm_compute. lia.
  - vm_compute. discriminate.
  - vm_compute. discriminate.
  - split; [exact Ha | exact Hb].
Defined.

(** ** C5: nfd and the number of descriptors delivered disagree *)

(** As long as at most four descriptors are delivered, a TextureInfo
    whose [nfd] byte differs from the number of descriptors in its
    SCM_RIGHTS control message is handled as the spec says: the broker
    closes every descriptor just received, then closes the client's socket
    and the buffer descriptors it held, erases the client record and takes
    the socket off the poll set; the receive loop stops. *)
Lemma nfd_mismatch_cleans_up (P : proto) (i : nat) (buf payload : list Z)
    (h : cmsghdr) (s : server_t) (c : vkcapture_client_t) :
  CAPTURE_CLIENT_DATA_TYPE P <> CAPTURE_TEXTURE_DATA_TYPE P ->
  (0 < CAPTURE_TEXTURE_DATA_SIZE P)%nat ->
  clients s !! i = Some c ->
  payload <> [] ->
  nth 0 payload 0 = CAPTURE_TEXTURE_DATA_TYPE P ->
  cmsg_level h = SOL_SOCKET -> cmsg_type h = SCM_RIGHTS ->
  (length (cmsg_data h) <= 4)%nat ->
  nth (tdata_nfd_offset P) (recv_into P buf payload) 0
    <> Z.of_nat (length (cmsg_data h)) ->
  exists s',
    recv_step P i buf (RecvData payload (Some h)) s
      = Some (Break, recv_into P buf payload, s')
    /\ closed s' = closed s ++ cmsg_data h ++ sockfd c :: held_fds (buf_fds c)
    /\ (forall x, In x (cmsg_data h) -> In x (closed s'))
    /\ clients s' = delete i (clients s)
    /\ fds s' = remove_first_fd (sockfd c) (fds s)
    /\ (poll_nodup s -> ~ In (sockfd c) (List.map fd (fds s'))).
Proof.
  intros Hty Hs Hc Hp Hb Hl Ht Hn Hnfd.
  unfold recv_step. rewrite (length_eqb_nonempty _ Hp), Hc.
  rewrite (buf0_recv_into P buf payload Hp Hs), Hb.
  apply Z.eqb_neq in Hty. rewrite Z.eqb_sym in Hty. rewrite Hty, Z.eqb_refl.
  set (buf' := recv_into P buf payload) in *.
  set (c1 := set_tdata buf' c).
  set (s1 := set_clients (<[i := c1]> (clients s)) s).
  assert (Hc1 : clients s1 !! i = Some c1).
  { simpl. apply list_lookup_insert_eq. apply (lookup_lt_Some _ _ _ Hc). }
  unfold handle_texture. rewrite Hl, Ht, !Z.eqb_refl. simpl negb. simpl orb.
  replace (4 <? length (cmsg_data h))%nat with false
    by (symmetry; apply Nat.ltb_ge; exact Hn).
  unfold iov_len. rewrite Nat.eqb_refl. simpl negb. simpl orb.
  replace (tdata_nfd P c1 =? Z.of_nat (length (cmsg_data h))) with false
    by (symmetry; apply Z.eqb_neq; exact Hnfd).
  simpl negb. cbv iota.
  eexists. split; [reflexivity|].
  rewrite (cleanup_at i (do_close (cmsg_data h) s1) c1 Hc1). simpl.
  assert (Hcl : ((closed s ++ cmsg_data h) ++ [sockfd c]) ++ held_fds (buf_fds c)
                = closed s ++ cmsg_data h ++ sockfd c :: held_fds (buf_fds c)).
  { rewrite <- !app_assoc. reflexivity. }
  rewrite Hcl. split; [reflexivity|]. split; [|split; [|split]].
  - intros x Hx. apply in_or_app. right. apply in_or_app. left. exact Hx.
  - apply delete_insert_same.
  - reflexivity.
  - intros Hnd. apply remove_first_fd_not_in. exact Hnd.
Qed.

(** The scenario of the spec: nfd = 2 claimed, one descriptor (9)
    delivered. *)
Example nfd_mismatch_run :
  exists s',
    recv_step spec_proto 0 (replicate 59 0)
      (RecvData (texture_msg 2) (rights [9])) one_client
      = Some (Break, recv_into spec_proto (replicate 59 0) (texture_msg 2), s')
    /\ closed s' = [9; 5]
    /\ clients s' = []
    /\ fds s' = [ {| fd := 3; events := POLLIN; revents := 0 |} ].
Proof.
  destruct (nfd_mismatch_cleans_up spec_proto 0 (replicate 59 0) (texture_msg 2)
              {| cmsg_level := SOL_SOCKET; cmsg_type := SCM_RIGHTS; cmsg_data := [9] |}
              one_client
              {| id := 1; sockfd := 5; buf_id := 0; buf_fds := replicate 4 (-1);
                 cdata := []; tdata := [] |})
    as (s' & H1 & H2 & _ & H4 & H5 & _).
  - vm_compute. discriminate.
  - vm_compute. lia.
  - reflexivity.
  - discriminate.
  - reflexivity.
  - reflexivity.
  - reflexivity.
  - simpl. lia.
  - vm_compute. discriminate.
  - exists s'. split; [exact H1|]. split; [exact H2|]. split; [exact H4|exact H5].
Qed.

(** C5: the cleanup the claim describes is not reached for every
    TextureInfo whose [nfd] differs from the number of descriptors
    delivered. The loop that copies the descriptors of the control message
    into [int buf_fds[4]] runs before [nfd] is compared and has no bound:
    as soon as the message carries more than four descriptors (the control
    buffer has room for twenty), whatever its [nfd] says, the copy writes
    past the array and the receive step has no defined result; nothing
    was closed and no client cleaned up before that write. *)
Theorem nfd_mismatch_overflows_buf_fds (P : proto) (i : nat) (buf payload : list Z)
    (h : cmsghdr) (s : server_t) (c : vkcapture_client_t) :
  CAPTURE_CLIENT_DATA_TYPE P <> CAPTURE_TEXTURE_DATA_TYPE P ->
  (0 < CAPTURE_TEXTURE_DATA_SIZE P)%nat ->
  clients s !! i = Some c ->
  payload <> [] ->
  nth 0 payload 0 = CAPTURE_TEXTURE_DATA_TYPE P ->
  cmsg_level h = SOL_SOCKET -> cmsg_type h = SCM_RIGHTS ->
  (4 < length (cmsg_data h))%nat ->
  recv_step P i buf (RecvData payload (Some h)) s = None
  /\ forall rest, recv_loop P i buf (RecvData payload (Some h) :: rest) s = None.
Proof.
  intros Hty Hs Hc Hp Hb Hl Ht Hn.
  assert (Hstep : recv_step P i buf (RecvData payload (Some h)) s = None).
  { unfold recv_step. rewrite (length_eqb_nonempty _ Hp), Hc.
    rewrite (buf0_recv_into P buf payload Hp Hs), Hb.
    apply Z.eqb_neq in Hty. rewrite Z.eqb_sym in Hty. rewrite Hty, Z.eqb_refl.
    unfold handle_texture. rewrite Hl, Ht, !Z.eqb_refl. cbn [negb orb].
    replace (4 <? length (cmsg_data h))%nat with true
      by (symmetry; apply Nat.ltb_lt; exact Hn).
    reflexivity. }
  split; [exact Hstep|]. intros rest. cbn [recv_loop]. rewrite Hstep. reflexivity.
Qed.

(** The scenario of the spec with five descriptors instead of one:
    nfd = 2 claimed, descriptors 9 to 13 delivered. *)
Lemma nfd_mismatch_overflows_buf_fds_witness :
  recv_step spec_proto 0 (replicate 59 0)
    (RecvData (texture_msg 2) (rights [9; 10; 11; 12; 13])) one_client = None.
Proof.
  refine (proj1 (nfd_mismatch_overflows_buf_fds spec_proto 0 (replicate 59 0)
                   (texture_msg 2)
                   {| cmsg_level := SOL_SOCKET; cmsg_type := SCM_RIGHTS;
                      cmsg_data := [9; 10; 11; 12; 13] |}
                   one_client
                   {| id := 1; sockfd := 5; buf_id := 0; buf_fds := replicate 4 (-1);
                      cdata := []; tdata := [] |} _ _ _ _ _ _ _ _)).
  - vm_compute. discriminate.
  - vm_compute. lia.
  - reflexivity.
  - discriminate.
  - reflexivity.
  - reflexivity.
  - reflexivity.
  - simpl. lia.
Defined.

(** ** C7: buf_id grows with every TextureInfo installed *)

(** C7: in every state the broker reaches (where [bufid_inv] holds), a
    TextureInfo taken down the install branch leaves the receiving client
    with a strictly larger [buf_id]; and when the same message is installed
    a second time right after, the two [buf_id]s differ. *)
Theorem texture_info_bumps_buf_id (P : proto) (i : nat) (buf payload : list Z)
    (cmsg : option cmsghdr) (s : server_t) (c : vkcapture_client_t)
    (buf' : list Z) (s' : server_t) :
  bufid_inv s -> clients s !! i = Some c ->
  recv_step P i buf (RecvData payload cmsg) s = Some (Continue, buf', s') ->
  buf0 buf' = CAPTURE_TEXTURE_DATA_TYPE P ->
  (exists c', clients s' !! i = Some c' /\ buf_id c < buf_id c')
  /\ (forall buf'' s'',
        recv_step P i buf' (RecvData payload cmsg) s' = Some (Continue, buf'', s'') ->
        exists c1 c2, clients s' !! i = Some c1 /\ clients s'' !! i = Some c2
                      /\ buf_id c1 < buf_id c2 /\ buf_id c1 <> buf_id c2).
Proof.
  intros Hinv Hc Hstep Hb.
  destruct (texture_step_bumps P i buf payload cmsg s c buf' s' Hinv Hc Hstep Hb)
    as (Hp & Hbuf & c1 & Hc1 & Hlt).
  split; [exists c1; split; assumption|].
  intros buf'' s'' Hstep2.
  pose proof (recv_step_bufid_inv _ _ _ _ _ _ _ _ Hinv Hstep) as Hinv1.
  assert (Hb2 : buf0 buf'' = CAPTURE_TEXTURE_DATA_TYPE P).
  { assert (Hbuf2 : buf'' = recv_into P buf' payload).
    { revert Hstep2. unfold recv_step.
      rewrite (length_eqb_nonempty _ Hp), Hc1.
      destruct (_ =? CAPTURE_CLIENT_DATA_TYPE P).
      - destruct (negb _); discriminate.
      - destruct (_ =? CAPTURE_TEXTURE_DATA_TYPE P).
        + destruct (handle_texture _ _ _ _ _) as [[ctl s2]|]; [|discriminate].
          intros [= _ <- _]. reflexivity.
        + intros [= <- _]. reflexivity. }
    rewrite Hbuf2, <- Hb, Hbuf. apply buf0_recv_into_any. exact Hp. }
  destruct (texture_step_bumps P i buf' payload cmsg s' c1 buf'' s'' Hinv1 Hc1 Hstep2 Hb2)
    as (_ & _ & c2 & Hc2 & Hlt2).
  exists c1, c2. repeat split; try assumption. lia.
Qed.

Lemma texture_info_bumps_buf_id_witness :
  exists c', clients (set_bufid 1 (set_clients
               [ {| id := 1; sockfd := 5; buf_id := 1; buf_fds := [9; -1; -1; -1];
                    cdata := []; tdata := texture_msg 1 |} ] one_client)) !! 0%nat
             = Some c' /\ 0 < buf_id c'.
Proof.
  destruct (texture_info_bumps_buf_id spec_proto 0 (replicate 59 0) (texture_msg 1)
              (rights [9]) one_client
              {| id := 1; sockfd := 5; buf_id := 0; buf_fds := replicate 4 (-1);
                 cdata := []; tdata := [] |}
              (texture_msg 1)
              (set_bufid 1 (set_clients
                 [ {| id := 1; sockfd := 5; buf_id := 1; buf_fds := [9; -1; -1; -1];
                      cdata := []; tdata := texture_msg 1 |} ] one_client)))
    as [H _].
  - split; [vm_compute; discriminate|]. repeat constructor. vm_compute. discriminate.
  - reflexivity.
  - vm_compute. reflexivity.
  - reflexivity.
  - exact H.
Defined.

End BrokerProofs.

(** * Properties of the layer *)

Module LayerProofs.
Import Layer.
Import LayerSpec.

(** ** C9: the idle wait is a no-op *)

Lemma obj_walk_id {A : Type} (body : Z -> A -> trace -> A * trace)
    (l : list (Z * A)) (t : trace) :
  (forall k a t0, body k a t0 = (a, t0)) -> obj_walk body l t = (l, t).
Proof.
  intros Hb. induction l as [|[k a] l IH]; simpl; [reflexivity|].
  rewrite Hb, IH. reflexivity.
Qed.

Lemma wait_until_pool_idle_id (q : vk_queue_data) (t : trace) :
  vk_shtex_wait_until_pool_idle (q, t) = (q, t).
Proof. reflexivity. Qed.

Lemma wait_until_idle_id (s : st) : vk_shtex_wait_until_idle s = s.
Proof.
  unfold vk_shtex_wait_until_idle.
  rewrite (obj_walk_id _ (queues (dev s)) (tr s));
    [|intros; apply wait_until_pool_idle_id].
  destruct s as [[] ? ? ?]; reflexivity.
Qed.

Lemma free_swap_trace (swap : vk_swap_data) (t : trace) :
  exists evs, snd (free_swap swap t) = t ++ evs
              /\ forallb (fun ev => negb (is_fence_wait_or_reset ev)) evs = true.
Proof.
  unfold free_swap.
  destruct (negb (export_image swap =? VK_NULL_HANDLE));
    destruct (0 <=? dmabuf_fd swap); simpl;
    destruct (negb (export_mem swap =? VK_NULL_HANDLE)); simpl;
    rewrite <- ?app_assoc; simpl;
    try (eexists; split; [reflexivity|reflexivity]).
  all: exists []; rewrite app_nil_r; split; reflexivity.
Qed.

Lemma free_walk_trace (l : list (Z * vk_swap_data)) :
  forall t, exists evs,
    snd (obj_walk (fun _ swap t0 => free_swap swap t0) l t) = t ++ evs
    /\ forallb (fun ev => negb (is_fence_wait_or_reset ev)) evs = true.
Proof.
  induction l as [|[k a] l IH]; intros t; simpl.
  - exists []. rewrite app_nil_r. split; reflexivity.
  - destruct (free_swap_trace a t) as (e1 & H1 & F1).
    destruct (free_swap a t) as [a' t1] eqn:Hf. simpl in H1. subst t1.
    destruct (IH (t ++ e1)) as (e2 & H2 & F2).
    destruct (obj_walk _ l (t ++ e1)) as [l' t2]. simpl in *. subst t2.
    exists (e1 ++ e2). rewrite app_assoc. split; [reflexivity|].
    rewrite forallb_app, F1, F2. reflexivity.
Qed.

Lemma vk_shtex_free_queues (s : st) : queues (dev (vk_shtex_free s)) = queues (dev s).
Proof.
  unfold vk_shtex_free. rewrite wait_until_idle_id.
  destruct (obj_walk _ (swaps (dev s)) (tr s)). reflexivity.
Qed.

(** C9: [vk_shtex_wait_until_pool_idle] leaves every queue, frame slot and
    the trace as they were, whatever the state; so does
    [vk_shtex_wait_until_idle]; and [vk_shtex_free] issues neither
    WaitForFences nor ResetFences and leaves every frame slot, busy or
    not, untouched. *)
Theorem idle_wait_never_waits (s : st) (q : vk_queue_data) (t : trace) :
  vk_shtex_wait_until_pool_idle (q, t) = (q, t)
  /\ vk_shtex_wait_until_idle s = s
  /\ queues (dev (vk_shtex_free s)) = queues (dev s)
  /\ exists evs, tr (vk_shtex_free s) = tr s ++ evs
                 /\ forallb (fun ev => negb (is_fence_wait_or_reset ev)) evs = true.
Proof.
  split; [apply wait_until_pool_idle_id|].
  split; [apply wait_until_idle_id|].
  split; [apply vk_shtex_free_queues|].
  unfold vk_shtex_free. rewrite wait_until_idle_id.
  destruct (free_walk_trace (swaps (dev s)) (tr s)) as (evs & H & F).
  destruct (obj_walk _ (swaps (dev s)) (tr s)) as [sw t']. simpl in *.
  exists evs. split; assumption.
Qed.

(** ** C1: a failing sendmsg *)

(** Whatever [sendmsg] returns, [capture_init_shtex] marks the swapchain
    captured and the process capturing. *)
Lemma capture_init_shtex_flags (e : env) (c : capture_data_t)
    (swap : vk_swap_data) (t : trace) :
  capturing (fst (fst (capture_init_shtex e c swap t))) = true
  /\ captured (snd (fst (capture_init_shtex e c swap t))) = true.
Proof. split; reflexivity. Qed.

(** C1 at its failing input: export setup succeeds (image 50, memory 60,
    descriptor 7) and [sendmsg] returns -1. The layer reports the error
    with [perror] and carries on: [vk_shtex_init] returns true, the
    swapchain is marked captured, the process capturing, the export state
    stays in place and nothing is torn down. *)
Theorem sendmsg_failure_is_ignored :
  let r := vk_shtex_init (with_sendmsg (-1) env_ok) 1000 swap_1080p st_1 in
  fst r = true
  /\ capturing (cap (snd r)) = true
  /\ cur_swap (dev (snd r)) = Some (swap_node swap_1080p)
  /\ (exists swap, get_swap_data (dev (snd r)) 1000 = Some swap
                   /\ captured swap = true /\ export_image swap = 50
                   /\ export_mem swap = 60 /\ dmabuf_fd swap = 7)
  /\ In EvPerror (tr (snd r))
  /\ forallb (fun ev => negb (is_teardown ev)) (tr (snd r)) = true.
Proof.
  vm_compute. repeat split.
  - eexists. repeat split.
  - do 8 right. left. reflexivity.
Qed.

(** ** C2: the texture message on the wire *)

Lemma le_bytes_S (n : nat) (x : Z) :
  le_bytes (Datatypes.S n) x = x mod 256 :: le_bytes n (x / 256).
Proof.
  unfold le_bytes. simpl. f_equal.
  - rewrite Z.div_1_r. reflexivity.
  - rewrite <- seq_shift, List.map_map. apply List.map_ext. intros k.
    rewrite Nat2Z.inj_succ, Z.pow_succ_r by lia.
    rewrite Z.div_div by lia. reflexivity.
Qed.

Lemma length_le_bytes (n : nat) (x : Z) : length (le_bytes n x) = n.
Proof. unfold le_bytes. rewrite length_map, length_seq. reflexivity. Qed.

Lemma le_value_le_bytes (n : nat) :
  forall x, le_value (le_bytes n x) = x mod 256 ^ Z.of_nat n.
Proof.
  induction n as [|n IH]; intros x.
  - simpl. rewrite Z.mod_1_r. reflexivity.
  - rewrite le_bytes_S. simpl le_value. fold (le_value (le_bytes n (x / 256))).
    rewrite IH, Nat2Z.inj_succ, Z.pow_succ_r by lia.
    rewrite Z.rem_mul_r by lia. reflexivity.
Qed.

(** C2 at its failing input: the message the layer sends at capture start
    for the 1920x1080 swapchain goes out with one descriptor, but it begins
    with the low byte of the width, 128, where a TextureInfo has its
    discriminant 2, and it is not the encoding of any TextureInfo. The
    broker's receive loop, which dispatches on that first byte, does not
    take it for a texture message. *)
Lemma start_message_is_not_TextureInfo :
  exists bytes,
    sent_messages (snd (capture_init_shtex env_ok connected swap_exported []))
      = [(bytes, [7])]
    /\ nth 0 bytes 0 = 128
    /\ ~ conforms_TextureInfo bytes.
Proof.
  eexists. split; [vm_compute; reflexivity|]. split; [reflexivity|].
  intros (ti & Heq & _). unfold encode_TextureInfo in Heq. simpl in Heq.
  discriminate Heq.
Qed.

(** What the layer does send, for every swapchain: its own
    [msg_texture_data] record and nothing else: four little-endian bytes
    each for width, height, fourcc = 0, the row pitch and the offset of the
    export image, the padding of the ABI, and eight bytes of modifiers
    equal to 0 (not DRM_FORMAT_MOD_INVALID); it goes out once, with exactly
    one descriptor, the swapchain's DMA-BUF, as SCM_RIGHTS. Its first byte
    is the low byte of the width: there is no discriminant, flip or nfd. *)
Theorem texture_message_layout (e : env) (c : capture_data_t)
    (swap : vk_swap_data) (t : trace) :
  exists w h f s o m,
    sent_messages (snd (capture_init_shtex e c swap t))
      = sent_messages t
          ++ [(w ++ h ++ f ++ s ++ o ++ e_pad e ++ m, [dmabuf_fd swap])]
    /\ length w = 4%nat /\ le_value w = uint32 (fst (image_extent swap))
    /\ length h = 4%nat /\ le_value h = uint32 (snd (image_extent swap))
    /\ length f = 4%nat /\ le_value f = 0
    /\ length s = 4%nat /\ le_value s = uint32 (fst (export_layout swap))
    /\ length o = 4%nat /\ le_value o = uint32 (snd (export_layout swap))
    /\ length m = 8%nat /\ le_value m = 0 /\ le_value m <> DRM_FORMAT_MOD_INVALID
    /\ nth 0 (w ++ h ++ f ++ s ++ o ++ e_pad e ++ m) 0
       = fst (image_extent swap) mod 256.
Proof.
  exists (le_bytes 4 (fst (image_extent swap))),
         (le_bytes 4 (snd (image_extent swap))),
         (le_bytes 4 0),
         (le_bytes 4 (fst (export_layout swap))),
         (le_bytes 4 (snd (export_layout swap))),
         (le_bytes 8 0).
  split.
  { unfold capture_init_shtex. simpl snd. unfold sent_messages.
    destruct (e_sendmsg e <? 0); rewrite !flat_map_app; simpl;
      rewrite ?app_nil_r; reflexivity. }
  rewrite !length_le_bytes, !le_value_le_bytes. unfold uint32.
  repeat split; try reflexivity.
  - discriminate.
  - rewrite le_bytes_S. reflexivity.
Qed.

(** ** C8: the memory type index *)

Lemma land_pow2 (a n : Z) :
  0 <= n -> Z.land a (2 ^ n) = if Z.testbit a n then 2 ^ n else 0.
Proof.
  intros Hn. apply Z.bits_inj'. intros k Hk.
  rewrite Z.land_spec, Z.pow2_bits_eqb by lia.
  destruct (Z.eqb_spec n k) as [->|Hne].
  - destruct (Z.testbit a k) eqn:Ha; simpl.
    + rewrite Z.pow2_bits_true by lia. reflexivity.
    + rewrite Z.bits_0. reflexivity.
  - rewrite andb_false_r.
    destruct (Z.testbit a n); [|rewrite Z.bits_0; reflexivity].
    rewrite Z.pow2_bits_false by lia. reflexivity.
Qed.

Lemma land_1_testbit (a : Z) : (Z.land a 1 =? 1) = Z.testbit a 0.
Proof.
  change 1 with (2 ^ 0) at 1. rewrite land_pow2 by lia.
  destruct (Z.testbit a 0); reflexivity.
Qed.

(** The test of the loop agrees with the two conditions of the claim. *)
Lemma mem_type_ok_spec (bits : Z) (types : list Z) (i : nat) :
  (i < 32)%nat ->
  mem_type_ok bits types i = true
  <-> type_allowed bits i /\ device_local (nth i types 0).
Proof.
  intros Hi. unfold mem_type_ok, type_allowed, device_local,
    VK_MEMORY_PROPERTY_DEVICE_LOCAL_BIT.
  rewrite land_1_testbit, Z.shiftl_1_l. unfold uint32.
  assert (Hlt : 0 < 2 ^ Z.of_nat i < 2 ^ 32).
  { split; [apply Z.pow_pos_nonneg; lia|apply Z.pow_lt_mono_r; lia]. }
  rewrite Z.mod_small by lia. rewrite land_pow2 by lia.
  destruct (Z.testbit bits (Z.of_nat i)).
  - replace (2 ^ Z.of_nat i =? 0) with false by (symmetry; apply Z.eqb_neq; lia).
    simpl. destruct (Z.testbit (nth i types 0) 0); intuition congruence.
  - simpl. intuition congruence.
Qed.

(** What the loop computes: it stops at the first index that passes the
    test, or runs to the end. *)
Lemma mem_type_scan_spec (bits : Z) (types : list Z) (n : nat) :
  forall idx,
    let r := mem_type_scan bits types n idx in
    (idx <= r <= idx + n)%nat
    /\ (forall j, (idx <= j < r)%nat -> mem_type_ok bits types j = false)
    /\ ((r < idx + n)%nat -> mem_type_ok bits types r = true).
Proof.
  induction n as [|n IH]; intros idx; simpl.
  - split; [lia|]. split; [intros j Hj; lia | intros H; lia].
  - destruct (mem_type_ok bits types idx) eqn:Hok.
    + split; [lia|]. split; [intros j Hj; lia | intros _; exact Hok].
    + destruct (IH (Datatypes.S idx)) as (Hr & Hbelow & Hat).
      split; [lia|]. split.
      * intros j Hj. destruct (Nat.eq_dec j idx) as [->|Hne]; [exact Hok|].
        apply Hbelow. lia.
      * intros Hlt. apply Hat. lia.
Qed.

(** C8: once the export image exists, the layer allocates from the lowest
    index [i] below the memory type count whose bit is set in
    [memoryTypeBits] and whose flags include DEVICE_LOCAL, and from no
    other; when no index qualifies, setup fails without allocating, the
    image just created is destroyed and its handle is cleared. (A physical
    device has at most 32 memory types.) *)
Theorem memory_type_choice (e : env) (d : vk_data) (swap : vk_swap_data)
    (t : trace) (img : Z) (ok : bool) (swap' : vk_swap_data) (t' : trace) :
  e_CreateImage e = (VK_SUCCESS, img) ->
  (length (e_memtypes e) <= 32)%nat ->
  vk_shtex_init_vulkan_tex e d swap t = (ok, swap', t') ->
  let bits := snd (e_memreq e) in
  let types := e_memtypes e in
  exists evs, t' = t ++ evs
  /\ (forall i, lowest_eligible bits types i ->
        allocations evs = [(fst (e_memreq e), Z.of_nat i)])
  /\ ((forall i, ~ eligible bits types i) ->
        ok = false
        /\ export_image swap' = VK_NULL_HANDLE
        /\ allocations evs = []
        /\ last evs EvPerror = EvDestroyImage img).
Proof.
  intros Hci Hlen Hrun bits types.
  unfold vk_shtex_init_vulkan_tex in Hrun. rewrite Hci in Hrun.
  cbn [fst snd] in Hrun. rewrite Z.eqb_refl in Hrun. cbn [negb] in Hrun.
  fold bits in Hrun. fold types in Hrun.
  change (length types <= 32)%nat in Hlen.
  destruct (mem_type_scan_spec bits types (length types) 0) as (Hr & Hbelow & Hat).
  set (idx := mem_type_scan bits types (length types) 0) in *.
  destruct (Nat.eqb_spec idx (length types)) as [Heq|Hne].
  - (* the loop ran to the end *)
    injection Hrun as <- <- <-.
    eexists. split; [rewrite <- !app_assoc; reflexivity|]. split.
    + intros i ((Hi & Ha & Hd) & _). exfalso.
      assert (Hok : mem_type_ok bits types i = true)
        by (apply mem_type_ok_spec; [lia|split; assumption]).
      rewrite Hbelow in Hok by lia. discriminate.
    + intros _. repeat split; reflexivity.
  - (* the loop stopped at idx *)
    assert (Hidx : (idx < length types)%nat) by lia.
    assert (Hok : mem_type_ok bits types idx = true) by (apply Hat; lia).
    apply mem_type_ok_spec in Hok; [|lia]. destruct Hok as [Ha Hd].
    assert (Hlow : forall i, lowest_eligible bits types i -> i = idx).
    { intros i ((Hi & Hai & Hdi) & Hmin).
      assert (Hle : (i <= idx)%nat) by (apply Hmin; repeat split; assumption).
      destruct (Nat.eq_dec i idx) as [|Hn]; [assumption|exfalso].
      assert (Hoki : mem_type_ok bits types i = true)
        by (apply mem_type_ok_spec; [lia|split; assumption]).
      rewrite Hbelow in Hoki by lia. discriminate. }
    assert (Hnone : (forall i, ~ eligible bits types i) -> False).
    { intros Hn. apply (Hn idx). repeat split; assumption. }
    destruct (negb (fst (e_AllocateMemory e) =? VK_SUCCESS));
      [|destruct (negb (e_BindImageMemory2 e =? VK_SUCCESS));
        [|destruct (negb (fst (e_GetMemoryFdKHR e) =? VK_SUCCESS))]];
      injection Hrun as <- <- <-;
      (eexists; split; [rewrite <- !app_assoc; reflexivity|]; split;
       [intros i Hi; rewrite (Hlow i Hi); reflexivity
       |intros Hn; destruct (Hnone Hn)]).
Qed.

(** Memory types 0 and 2 are device local, the image allows types 1 and 2:
    index 2 is chosen. *)
Lemma memory_type_choice_witness :
  exists evs,
    snd (vk_shtex_init_vulkan_tex (with_memtypes 6 [1; 6; 1] env_ok)
           device_1 swap_1080p []) = [] ++ evs
    /\ allocations evs = [(8294400, 2)].
Proof.
  destruct (memory_type_choice (with_memtypes 6 [1; 6; 1] env_ok)
              device_1 swap_1080p [] 50
              (fst (fst (vk_shtex_init_vulkan_tex (with_memtypes 6 [1; 6; 1] env_ok)
                           device_1 swap_1080p [])))
              (snd (fst (vk_shtex_init_vulkan_tex (with_memtypes 6 [1; 6; 1] env_ok)
                           device_1 swap_1080p [])))
              (snd (vk_shtex_init_vulkan_tex (with_memtypes 6 [1; 6; 1] env_ok)
                      device_1 swap_1080p [])))
    as (evs & Ht & Hlow & _).
  - reflexivity.
  - simpl. lia.
  - reflexivity.
  - exists evs. split; [exact Ht|].
    apply (Hlow 2%nat). split.
    + repeat split; simpl; lia || reflexivity.
    + intros j (Hj & Ha & Hd). simpl in Hj.
      destruct j as [|[|j]]; [discriminate Ha|discriminate Hd|lia].
Defined.

(** ** C10: CreateSwapchainKHR hides the layer's own failures *)

(** C10: on a valid device, when the next layer creates the swapchain with
    TRANSFER_SRC added to the usage flags, [OBS_CreateSwapchainKHR] returns
    VK_SUCCESS whatever the image query and the allocation of the swap
    data do; when the query fails or reports no image, or the allocation
    fails, the layer simply records no swap data. *)
Theorem create_swapchain_hides_bookkeeping (e : env) (dv : handle)
    (cinfo : VkSwapchainCreateInfoKHR) (w : world) (data : vk_data) :
  get_obj_data (devices w) (h_ldt dv) = Some data ->
  valid data = true ->
  fst (e_CreateSwapchainKHR e
         (Z.lor (imageUsage cinfo) VK_IMAGE_USAGE_TRANSFER_SRC_BIT)) = VK_SUCCESS ->
  exists w',
    OBS_CreateSwapchainKHR e dv cinfo w = Some (VK_SUCCESS, w')
    /\ (fst (e_GetSwapchainImagesKHR e) <> VK_SUCCESS
        \/ snd (e_GetSwapchainImagesKHR e) = 0%nat
        \/ e_alloc_swap_data e = false ->
        devices w' = devices w).
Proof.
  intros Hd Hv Hres. unfold OBS_CreateSwapchainKHR.
  rewrite Hd, Hv, Hres. cbn [negb]. change (VK_SUCCESS =? VK_SUCCESS) with true.
  cbn [negb].
  destruct (e_GetSwapchainImagesKHR e) as [res2 count]. simpl fst. simpl snd.
  eexists. split; [reflexivity|].
  intros [Hq|[Hc|Ha]].
  - apply Z.eqb_neq in Hq. rewrite Hq. reflexivity.
  - subst count. rewrite andb_false_r. reflexivity.
  - rewrite Ha. destruct ((res2 =? VK_SUCCESS) && (0 <? count)%nat); reflexivity.
Qed.

(** The image query fails with VK_ERROR_OUT_OF_HOST_MEMORY (-1): the
    application still gets VK_SUCCESS and no swap data is recorded. *)
Lemma create_swapchain_hides_bookkeeping_witness :
  exists w',
    OBS_CreateSwapchainKHR (with_swapchain_answers (-1, 0%nat) true env_ok)
      dev_handle_1 cinfo_720p world_1 = Some (VK_SUCCESS, w')
    /\ devices w' = devices world_1.
Proof.
  destruct (create_swapchain_hides_bookkeeping
              (with_swapchain_answers (-1, 0%nat) true env_ok)
              dev_handle_1 cinfo_720p world_1 device_1) as (w' & Hrun & Hsame).
  - reflexivity.
  - reflexivity.
  - reflexivity.
  - exists w'. split; [exact Hrun|]. apply Hsame. left. simpl. discriminate.
Defined.

(** ** C4: DestroyDevice *)

Lemma destroy_frame_trace (f : vk_frame_data) (t : trace) :
  snd (destroy_frame f t) = t ++ destroy_frame_events f.
Proof.
  unfold destroy_frame, destroy_frame_events.
  destruct (cmd_buffer_busy f); simpl; rewrite <- !app_assoc; reflexivity.
Qed.

Lemma frames_loop_destroy_trace (l : list vk_frame_data) :
  forall t, snd (frames_loop destroy_frame l t) = t ++ flat_map destroy_frame_events l.
Proof.
  induction l as [|f l IH]; intros t; simpl.
  - rewrite app_nil_r. reflexivity.
  - pose proof (destroy_frame_trace f t) as Hf.
    destruct (destroy_frame f t) as [f' t1]. simpl in Hf. subst t1.
    pose proof (IH (t ++ destroy_frame_events f)) as Hl.
    destruct (frames_loop destroy_frame l (t ++ destroy_frame_events f)) as [l' t2].
    simpl in *. subst t2. rewrite app_assoc. reflexivity.
Qed.

Lemma destroy_frame_objects_trace (k : Z) (q : vk_queue_data) (t : trace) :
  vk_shtex_destroy_frame_objects k q t
  = (set_frames [] q, t ++ destroy_queue_events (k, q)).
Proof.
  unfold vk_shtex_destroy_frame_objects, destroy_queue_events.
  pose proof (frames_loop_destroy_trace (frames q) t) as Hl.
  destruct (frames_loop destroy_frame (frames q) t) as [l' t1]. simpl in *.
  subst t1. rewrite app_assoc. reflexivity.
Qed.

Lemma destroy_walk_run (l : list (Z * vk_queue_data)) :
  forall t, obj_walk vk_shtex_destroy_frame_objects l t
            = (List.map (fun kq => (fst kq, set_frames [] (snd kq))) l,
               t ++ flat_map destroy_queue_events l).
Proof.
  induction l as [|[k q] l IH]; intros t; simpl.
  - rewrite app_nil_r. reflexivity.
  - rewrite destroy_frame_objects_trace, IH, <- app_assoc. reflexivity.
Qed.

Lemma OBS_DestroyDevice_run (dv : handle) (w : world) (data : vk_data) :
  get_obj_data (devices w) (h_ldt dv) = Some data ->
  OBS_DestroyDevice dv w
  = Some {| devices := remove_obj_data (devices w) (h_ldt dv);
            w_cap := w_cap w; w_limiter := w_limiter w;
            w_tr := w_tr w ++ destroy_device_events dv data |}.
Proof.
  intros Hd. unfold OBS_DestroyDevice, destroy_device_events. rewrite Hd.
  destruct (valid data) eqn:Hv; simpl.
  - unfold destroy_all_frame_objects. simpl. rewrite destroy_walk_run. simpl.
    rewrite List.map_map. simpl. rewrite <- !app_assoc. reflexivity.
  - reflexivity.
Qed.

Example first_present_starts_capture :
  exists t,
    OBS_QueuePresentKHR env_ok queue_handle_1 1000 0 world_1
    = Some (VK_SUCCESS,
            {| devices := devices world_capturing; w_cap := w_cap world_capturing;
               w_limiter := 1; w_tr := t |}).
Proof. eexists. vm_compute. reflexivity. Qed.

Example destroy_capturing_device_run :
  OBS_DestroyDevice dev_handle_1 world_capturing
  = Some {| devices := [];
            w_cap := {| connfd := 4; capturing := true |};
            w_limiter := 1;
            w_tr := [ EvWaitForFences 500; EvDestroyFence 500; EvDestroyCommandPool 300;
                      EvDestroyFence 501; EvDestroyCommandPool 301;
                      EvDestroyFence 502; EvDestroyCommandPool 302;
                      EvVkFree (FrFrames 11); EvVkFree (FrQueue 11);
                      EvVkFree (FrDevice 100); EvNextDestroyDevice 1 ] |}.
Proof. vm_compute. reflexivity. Qed.

(** C4, as stated, fails: destroying the device while swapchain 1000 still
    holds export image 50, memory 60 and descriptor 7 releases none of
    them, and the busy fence 500 is waited on but not reset. *)
Lemma destroy_device_keeps_exports :
  exists w', OBS_DestroyDevice dev_handle_1 world_capturing = Some w'
             /\ ~ destroy_device_claim dev_handle_1 world_capturing w'.
Proof.
  eexists. split; [apply destroy_capturing_device_run|].
  intros (data & evs & Hd & Ht & _ & Hrel & _).
  injection Hd as <-. simpl in Ht. subst evs.
  destruct (Hrel 1000 swap_captured) as (Himg & _); [left; reflexivity|].
  assert (Hin : In (EvDestroyImage 50)
                   [ EvWaitForFences 500; EvDestroyFence 500; EvDestroyCommandPool 300;
                     EvDestroyFence 501; EvDestroyCommandPool 301;
                     EvDestroyFence 502; EvDestroyCommandPool 302;
                     EvVkFree (FrFrames 11); EvVkFree (FrQueue 11);
                     EvVkFree (FrDevice 100); EvNextDestroyDevice 1 ])
    by (apply Himg; discriminate).
  simpl in Hin. intuition discriminate.
Qed.

Lemma forallb_flat_map {A B : Type} (p : B -> bool) (f : A -> list B) (l : list A) :
  (forall a, forallb p (f a) = true) -> forallb p (flat_map f l) = true.
Proof.
  intros Hf. induction l as [|a l IH]; simpl; [reflexivity|].
  rewrite forallb_app, Hf, IH. reflexivity.
Qed.

Lemma destroy_device_events_quiet (dv : handle) (data : vk_data) :
  forallb keeps_exports_and_resets (destroy_device_events dv data) = true.
Proof.
  unfold destroy_device_events. rewrite forallb_app. apply andb_true_intro.
  split; [|reflexivity].
  destruct (valid data); [|reflexivity].
  rewrite forallb_app. apply andb_true_intro. split.
  - apply forallb_flat_map. intros [k q]. unfold destroy_queue_events.
    rewrite forallb_app. apply andb_true_intro. split; [|reflexivity].
    apply forallb_flat_map. intros f. unfold destroy_frame_events.
    destruct (cmd_buffer_busy f); reflexivity.
  - induction (queues data) as [|kq l IH]; [reflexivity|]. simpl. exact IH.
Qed.

(** C4 (amended): DestroyDevice on a tracked device takes the device off
    the registry, frees its entry and forwards the call to the next layer
    as its last act; for a valid device it first waits on the fence of
    every busy frame slot, destroys the fence and the command pool of every
    slot, frees each frame array and removes and frees every queue entry.
    It resets no fence, releases no export image, export memory or DMA-BUF
    descriptor and frees no swapchain entry, and [capture_data] is left as
    it was. The calls are exactly those of [destroy_device_events], in
    that order: for a valid device, queue by queue and in each queue slot
    by slot, the wait on the fence of a busy slot, the destruction of the
    fence and of the command pool, and after the last slot the free of the
    frame array; then the free of every queue entry; and for every device
    the free of the device entry and the DestroyDevice of the next
    layer. *)
Theorem destroy_device_drains_queues_only (dv : handle) (w : world) (data : vk_data) :
  get_obj_data (devices w) (h_ldt dv) = Some data ->
  exists evs,
    evs = destroy_device_events dv data
    /\ OBS_DestroyDevice dv w
    = Some {| devices := remove_obj_data (devices w) (h_ldt dv);
              w_cap := w_cap w; w_limiter := w_limiter w;
              w_tr := w_tr w ++ evs |}
    /\ last evs EvPerror = EvNextDestroyDevice (h_val dv)
    /\ In (EvVkFree (FrDevice (h_ldt dv))) evs
    /\ forallb keeps_exports_and_resets evs = true
    /\ (valid data = true ->
        forall q qd, In (q, qd) (queues data) ->
          In (EvVkFree (FrFrames q)) evs /\ In (EvVkFree (FrQueue q)) evs
          /\ forall f, In f (frames qd) ->
               In (EvDestroyFence (fence f)) evs
               /\ In (EvDestroyCommandPool (cmd_pool f)) evs
               /\ (cmd_buffer_busy f = true -> In (EvWaitForFences (fence f)) evs))
    /\ (valid data = false ->
        evs = [EvVkFree (FrDevice (h_ldt dv)); EvNextDestroyDevice (h_val dv)]).
Proof.
  intros Hd. exists (destroy_device_events dv data).
  split; [reflexivity|].
  split; [apply OBS_DestroyDevice_run; exact Hd|].
  split.
  { unfold destroy_device_events.
    change [EvVkFree (FrDevice (h_ldt dv)); EvNextDestroyDevice (h_val dv)]
      with ([EvVkFree (FrDevice (h_ldt dv))] ++ [EvNextDestroyDevice (h_val dv)]).
    rewrite app_assoc. apply last_last. }
  split; [unfold destroy_device_events; apply in_or_app; right; left; reflexivity|].
  split; [apply destroy_device_events_quiet|].
  split.
  - intros Hv q qd Hq. unfold destroy_device_events. rewrite Hv.
    assert (Hqe : forall ev, In ev (destroy_queue_events (q, qd)) ->
                             In ev ((flat_map destroy_queue_events (queues data)
                                     ++ List.map (fun kq => EvVkFree (FrQueue (fst kq)))
                                          (queues data))
                                    ++ [EvVkFree (FrDevice (h_ldt dv));
                                        EvNextDestroyDevice (h_val dv)])).
    { intros ev Hev. apply in_or_app. left. apply in_or_app. left.
      apply in_flat_map. exists (q, qd). split; assumption. }
    split; [|split].
    + apply Hqe. unfold destroy_queue_events. apply in_or_app. right. left. reflexivity.
    + apply in_or_app. left. apply in_or_app. right.
      apply in_map_iff. exists (q, qd). split; [reflexivity|exact Hq].
    + intros f Hf.
      assert (Hfe : forall ev, In ev (destroy_frame_events f) ->
                               In ev (destroy_queue_events (q, qd))).
      { intros ev Hev. unfold destroy_queue_events. apply in_or_app. left.
        apply in_flat_map. exists f. split; assumption. }
      split; [|split].
      * apply Hqe, Hfe. unfold destroy_frame_events. apply in_or_app. right.
        left. reflexivity.
      * apply Hqe, Hfe. unfold destroy_frame_events. apply in_or_app. right.
        right. left. reflexivity.
      * intros Hb. apply Hqe, Hfe. unfold destroy_frame_events. rewrite Hb.
        left. reflexivity.
  - intros Hv. unfold destroy_device_events. rewrite Hv. reflexivity.
Qed.

Lemma destroy_device_drains_queues_only_witness :
  exists evs,
    OBS_DestroyDevice dev_handle_1 world_capturing
    = Some {| devices := []; w_cap := {| connfd := 4; capturing := true |};
              w_limiter := 1; w_tr := [] ++ evs |}
    /\ evs = [ EvWaitForFences 500; EvDestroyFence 500; EvDestroyCommandPool 300;
               EvDestroyFence 501; EvDestroyCommandPool 301;
               EvDestroyFence 502; EvDestroyCommandPool 302;
               EvVkFree (FrFrames 11); EvVkFree (FrQueue 11);
               EvVkFree (FrDevice 100); EvNextDestroyDevice 1 ]
    /\ forallb keeps_exports_and_resets evs = true.
Proof.
  destruct (destroy_device_drains_queues_only dev_handle_1 world_capturing
              device_capturing) as (evs & Hevs & Hrun & _ & _ & Hq & _).
  - reflexivity.
  - exists evs. split; [exact Hrun|]. split; [exact Hevs|exact Hq].
Defined.

(** ** C6: the current swapchain and the capturing flag *)

(** *** Object list lemmas *)

Section ObjListLemmas.
Context {A : Type}.
Implicit Types (l : list (Z * A)) (k : Z) (a : A).

Lemma get_put_same l k a a' :
  get_obj_data l k = Some a -> get_obj_data (put_obj_data l k a') k = Some a'.
Proof.
  induction l as [|[k0 a0] l IH]; simpl; [discriminate|].
  destruct (Z.eqb_spec k0 k) as [->|Hne]; simpl.
  - rewrite Z.eqb_refl. reflexivity.
  - intros H. apply Z.eqb_neq in Hne. rewrite Hne. apply IH. exact H.
Qed.

Lemma get_remove_other l k k' :
  k <> k' -> get_obj_data (remove_obj_data l k) k' = get_obj_data l k'.
Proof.
  intros Hne. induction l as [|[k0 a0] l IH]; simpl; [reflexivity|].
  destruct (Z.eqb_spec k0 k) as [->|Hne0]; simpl.
  - apply Z.eqb_neq in Hne. rewrite Hne. reflexivity.
  - rewrite IH. reflexivity.
Qed.

Lemma put_in l k a a' :
  get_obj_data l k = Some a -> In (k, a') (put_obj_data l k a').
Proof.
  induction l as [|[k0 a0] l IH]; simpl; [discriminate|].
  destruct (Z.eqb_spec k0 k) as [->|Hne]; simpl.
  - intros _. left. reflexivity.
  - intros H. right. apply IH. exact H.
Qed.

(** [remove_obj_data] unlinks the node [get_obj_data] finds and no
    other. *)
Lemma remove_keeps l k a0 k' a :
  get_obj_data l k = Some a0 -> In (k', a) l -> a <> a0 ->
  In (k', a) (remove_obj_data l k).
Proof.
  intros Hg Hin Hne. induction l as [|[k1 a1] l IH]; simpl in *; [contradiction|].
  destruct (k1 =? k).
  - injection Hg as <-. destruct Hin as [[= _ <-]|Hin]; [contradiction|exact Hin].
  - destruct Hin as [Heq|Hin]; [left; exact Heq|right; apply IH; assumption].
Qed.
End ObjListLemmas.

(** *** The invariant through the functions of one device *)

Lemma inv_none (c : capture_data_t) (d : vk_data) :
  cur_swap d = None -> capturing c = false -> cur_swap_inv c d.
Proof.
  intros Hn Hc. unfold cur_swap_inv. rewrite Hn, Hc. split.
  - intros a H. discriminate H.
  - intros H. discriminate H.
Qed.

Lemma inv_some (c : capture_data_t) (d : vk_data) (sc : Z) (swap : vk_swap_data) :
  cur_swap d = Some (swap_node swap) -> capturing c = true ->
  In (sc, swap) (swaps d) -> export_live swap -> cur_swap_inv c d.
Proof.
  intros Hs Hc Hin Hl. unfold cur_swap_inv. rewrite Hs. split.
  - intros a [= <-]. split; [exact Hc|]. exists swap. split; [|exact Hl].
    exists sc. split; [exact Hin|reflexivity].
  - intros _. discriminate.
Qed.

Lemma inv_ext (c c' : capture_data_t) (d d' : vk_data) :
  capturing c = capturing c' -> cur_swap d = cur_swap d' -> swaps d = swaps d' ->
  cur_swap_inv c d -> cur_swap_inv c' d'.
Proof.
  unfold cur_swap_inv, points_to. intros -> -> ->. tauto.
Qed.

Lemma free_cur_swap (s : st) : cur_swap (dev (vk_shtex_free s)) = None.
Proof.
  unfold vk_shtex_free.
  destruct (obj_walk _ (swaps (dev (vk_shtex_wait_until_idle s))) _). reflexivity.
Qed.

Lemma free_capturing (s : st) : capturing (cap (vk_shtex_free s)) = false.
Proof.
  unfold vk_shtex_free.
  destruct (obj_walk _ (swaps (dev (vk_shtex_wait_until_idle s))) _). reflexivity.
Qed.

Lemma free_inv (s : st) : cur_swap_inv (cap (vk_shtex_free s)) (dev (vk_shtex_free s)).
Proof. apply inv_none; [apply free_cur_swap|apply free_capturing]. Qed.

(** The export setup writes through the node it was given. *)
Lemma init_vulkan_tex_node (e : env) (d : vk_data) (swap : vk_swap_data) (t : trace) :
  swap_node (snd (fst (vk_shtex_init_vulkan_tex e d swap t))) = swap_node swap.
Proof.
  unfold vk_shtex_init_vulkan_tex.
  repeat match goal with
         | |- context [if ?b then _ else _] => destruct b
         end; reflexivity.
Qed.

Lemma update_socket_keeps (e : env) (s : st) :
  dev (capture_update_socket e s) = dev s
  /\ capturing (cap (capture_update_socket e s)) = capturing (cap s).
Proof.
  unfold capture_update_socket, run_body, seq_stmt, c_do, c_if, c_return,
    capture_try_connect.
  cbn [limiter set_limiter].
  destruct (limiter s + 1 <? 60); [split; reflexivity|].
  cbn [cap set_limiter].
  destruct (connfd (cap s) <? 0).
  - destruct (e_connect e =? -1); [split; reflexivity|].
    cbn.
    destruct ((fst (e_recv e) =? -1)
              && ((snd (e_recv e) =? EAGAIN) || (snd (e_recv e) =? EWOULDBLOCK)));
      [split; reflexivity|].
    destruct (fst (e_recv e) <=? 0); split; reflexivity.
  - cbn.
    destruct ((fst (e_recv e) =? -1)
              && ((snd (e_recv e) =? EAGAIN) || (snd (e_recv e) =? EWOULDBLOCK)));
      [split; reflexivity|].
    destruct (fst (e_recv e) <=? 0); split; reflexivity.
Qed.

(** A successful export setup leaves a live export image. *)
Lemma init_vulkan_tex_live (e : env) (d : vk_data) (swap swap' : vk_swap_data)
    (t t' : trace) :
  env_sane e ->
  vk_shtex_init_vulkan_tex e d swap t = (true, swap', t') -> export_live swap'.
Proof.
  intros [Himg Hfd]. unfold vk_shtex_init_vulkan_tex.
  destruct (Z.eqb_spec (fst (e_CreateImage e)) VK_SUCCESS) as [Hci|]; [|discriminate].
  cbn [negb].
  destruct (_ =? _)%nat; [discriminate|].
  destruct (negb (fst (e_AllocateMemory e) =? VK_SUCCESS)); [discriminate|].
  destruct (negb (e_BindImageMemory2 e =? VK_SUCCESS)); [discriminate|].
  destruct (Z.eqb_spec (fst (e_GetMemoryFdKHR e)) VK_SUCCESS) as [Hgf|]; [|discriminate].
  cbn [negb]. intros [= <- _].
  destruct (Hfd Hgf) as (f & Hf & Hpos).
  split; simpl; [apply Himg; exact Hci|]. rewrite Hf. simpl. exact Hpos.
Qed.

Lemma vk_shtex_init_inv (e : env) (sc : Z) (swap : vk_swap_data) (s s' : st) :
  env_sane e -> get_swap_data (dev s) sc = Some swap ->
  vk_shtex_init e sc swap s = (true, s') -> cur_swap_inv (cap s') (dev s').
Proof.
  intros He Hg. unfold vk_shtex_init.
  destruct (vk_shtex_init_vulkan_tex e (dev s) swap (tr s)) as [[ok swap1] t1] eqn:Hi.
  destruct ok; [|discriminate]. cbn [negb].
  pose proof (init_vulkan_tex_live _ _ _ _ _ _ He Hi) as Hlive.
  unfold capture_init_shtex. cbn [captured set_captured negb].
  pose proof (init_vulkan_tex_node e (dev s) swap (tr s)) as Hnode.
  rewrite Hi in Hnode. cbn [fst snd] in Hnode.
  intros [= <-]. cbn.
  apply (inv_some _ _ sc (set_captured true swap1)); cbn.
  - rewrite Hnode. reflexivity.
  - reflexivity.
  - eapply put_in. exact Hg.
  - exact Hlive.
Qed.

Lemma vk_capture_init_inv (e : env) (sc : Z) (s s' : st) :
  env_sane e -> cur_swap_inv (cap s) (dev s) ->
  vk_capture_init e sc s = Some s' -> cur_swap_inv (cap s') (dev s').
Proof.
  intros He Hinv. unfold vk_capture_init.
  destruct (capture_should_init (cap s)); [|intros [= <-]; exact Hinv].
  destruct (get_swap_data (dev s) sc) as [swap|] eqn:Hg; [|discriminate].
  destruct (valid_rect swap); [|intros [= <-]; exact Hinv].
  destruct (vk_shtex_init e sc swap s) as [ok s1] eqn:Hi.
  destruct ok; intros [= <-].
  - eapply vk_shtex_init_inv; eauto.
  - apply (free_inv s1).
Qed.

Lemma vk_shtex_capture_keeps (e : env) (sc : Z) (sw : vk_swap_data) (queue : Z)
    (i : nat) (s s' : st) :
  vk_shtex_capture e sc sw queue i s = Some s' ->
  cap s' = cap s /\ cur_swap (dev s') = cur_swap (dev s)
  /\ swaps (dev s') = swaps (dev s).
Proof.
  unfold vk_shtex_capture.
  destruct (swap_images sw !! i); [|discriminate].
  destruct (get_queue_data (dev s) queue) as [q0|]; [|discriminate].
  destruct (if (frame_count q0 <? image_count sw)%nat then _ else _) as [[q1 t1]|];
    [|discriminate].
  destruct (frames q1 !! frame_index q1) as [fd0|]; [|discriminate].
  destruct (vk_shtex_clear_fence fd0 t1) as [fd1 t2].
  intros [= <-]. repeat split; reflexivity.
Qed.

Lemma vk_capture_inv (e : env) (queue sc : Z) (i : nat) (s s' : st) :
  env_sane e -> cur_swap_inv (cap s) (dev s) ->
  vk_capture e queue sc i s = Some s' -> cur_swap_inv (cap s') (dev s').
Proof.
  intros He Hinv. unfold vk_capture.
  destruct (update_socket_keeps e s) as [Hd Hc].
  set (s1 := capture_update_socket e s) in *.
  assert (H1 : cur_swap_inv (cap s1) (dev s1)).
  { eapply inv_ext; [symmetry; exact Hc| | |exact Hinv]; rewrite Hd; reflexivity. }
  set (s2 := if capture_should_stop (cap s1) then vk_shtex_free s1 else s1).
  assert (H2 : cur_swap_inv (cap s2) (dev s2)).
  { subst s2. destruct (capture_should_stop (cap s1)); [|exact H1].
    apply free_inv. }
  destruct (vk_capture_init e sc s2) as [s3|] eqn:H3; [|discriminate].
  pose proof (vk_capture_init_inv _ _ _ _ He H2 H3) as Hinv3.
  destruct (capture_ready (cap s3)); [|intros [= <-]; exact Hinv3].
  destruct (negb (option_Z_eqb (swap_ptr (dev s) sc) (cur_swap (dev s3)))).
  { intros [= <-]. apply free_inv. }
  destruct (get_swap_data (dev s3) sc) as [sw|]; [|discriminate].
  intros Hcap. apply vk_shtex_capture_keeps in Hcap as (Hc' & Hcs & Hsw).
  eapply inv_ext; [rewrite Hc'; reflexivity|symmetry; exact Hcs|symmetry; exact Hsw|].
  exact Hinv3.
Qed.

(** *** The invariant through the entry points, one device tracked *)

Lemma world_inv_single (key : Z) (d : vk_data) (w : world) :
  devices w = [(key, d)] -> (world_inv w <-> cur_swap_inv (w_cap w) d).
Proof.
  intros Hd. unfold world_inv. rewrite Hd. split.
  - intros H. apply (H key d). left. reflexivity.
  - intros H k d' [[= <- <-]|[]]. exact H.
Qed.

Lemma single_lookup (key : Z) (d data : vk_data) (k : Z) :
  get_obj_data [(key, d)] k = Some data -> key = k /\ data = d.
Proof.
  simpl. destruct (Z.eqb_spec key k); [|discriminate].
  intros [= <-]. split; [assumption|reflexivity].
Qed.

Lemma single_put (key : Z) (d d' : vk_data) :
  put_obj_data [(key, d)] key d' = [(key, d')].
Proof. simpl. rewrite Z.eqb_refl. reflexivity. Qed.

Lemma present_inv (e : env) (queue : handle) (sc : Z) (i : nat)
    (w w' : world) (key : Z) (d : vk_data) (r : Z) :
  env_sane e -> devices w = [(key, d)] -> cur_swap_inv (w_cap w) d ->
  OBS_QueuePresentKHR e queue sc i w = Some (r, w') ->
  exists d', devices w' = [(key, d')] /\ cur_swap_inv (w_cap w') d'.
Proof.
  intros He Hd Hinv. unfold OBS_QueuePresentKHR. rewrite Hd.
  destruct (get_obj_data [(key, d)] (h_ldt queue)) as [data|] eqn:Hg; [|discriminate].
  apply single_lookup in Hg as [<- ->].
  destruct (valid d).
  2:{ intros [= _ <-]. exists d. split; [exact Hd|exact Hinv]. }
  destruct (get_queue_data d (h_val queue)) as [qd|]; [|discriminate].
  destruct (supports_transfer qd).
  2:{ intros [= _ <-]. exists d. split; [exact Hd|exact Hinv]. }
  destruct (vk_capture e (h_val queue) sc i (enter d w)) as [s|] eqn:Hc; [|discriminate].
  intros [= _ <-]. exists (dev s). cbn. rewrite Hd, single_put.
  split; [reflexivity|].
  exact (vk_capture_inv e _ _ _ (enter d w) s He Hinv Hc).
Qed.

Lemma create_swapchain_inv (e : env) (dv : handle)
    (cinfo : VkSwapchainCreateInfoKHR) (w w' : world) (key : Z) (d : vk_data)
    (r : Z) :
  devices w = [(key, d)] -> cur_swap_inv (w_cap w) d ->
  OBS_CreateSwapchainKHR e dv cinfo w = Some (r, w') ->
  exists d', devices w' = [(key, d')] /\ cur_swap_inv (w_cap w') d'.
Proof.
  intros Hd Hinv. unfold OBS_CreateSwapchainKHR.
  destruct (get_obj_data (devices w) (h_ldt dv)) as [data|] eqn:Hg; [|discriminate].
  rewrite Hd in Hg. apply single_lookup in Hg as [<- ->].
  destruct (negb (valid d)).
  { intros [= _ <-]. exists d. split; [exact Hd|exact Hinv]. }
  set (usage := Z.lor (imageUsage cinfo) VK_IMAGE_USAGE_TRANSFER_SRC_BIT) in *.
  destruct (negb (fst (e_CreateSwapchainKHR e usage) =? VK_SUCCESS)).
  { intros [= _ <-]. exists d. split; [exact Hd|exact Hinv]. }
  destruct (e_GetSwapchainImagesKHR e) as [res2 count].
  destruct ((res2 =? VK_SUCCESS) && (0 <? count)%nat).
  2:{ intros [= _ <-]. exists d. split; [exact Hd|exact Hinv]. }
  destruct (e_alloc_swap_data e).
  2:{ intros [= _ <-]. exists d. split; [exact Hd|exact Hinv]. }
  intros [= _ <-]. cbn. rewrite Hd, single_put. eexists. split; [reflexivity|].
  destruct Hinv as [Hfw Hbw]. split; [|exact Hbw].
  cbn. intros a Ha. destruct (Hfw a Ha) as (Hcap & swap & (k & Hin & Hnode) & Hlive).
  split; [exact Hcap|]. exists swap. split; [|exact Hlive].
  exists k. split; [right; exact Hin|exact Hnode].
Qed.

Lemma destroy_swapchain_inv (dv : handle) (sc : Z) (w w' : world) (key : Z)
    (d : vk_data) :
  devices w = [(key, d)] -> cur_swap_inv (w_cap w) d ->
  OBS_DestroySwapchainKHR dv sc w = Some w' ->
  exists d', devices w' = [(key, d')] /\ cur_swap_inv (w_cap w') d'.
Proof.
  intros Hd Hinv. unfold OBS_DestroySwapchainKHR. rewrite Hd.
  destruct (get_obj_data [(key, d)] (h_ldt dv)) as [data|] eqn:Hg; [|discriminate].
  apply single_lookup in Hg as [<- ->].
  destruct (negb (sc =? VK_NULL_HANDLE) && valid d).
  2:{ intros [= <-]. exists d. split; [exact Hd|exact Hinv]. }
  destruct (get_swap_data d sc) as [swap0|] eqn:Hsc.
  2:{ intros [= <-]. exists d. split; [exact Hd|exact Hinv]. }
  intros [= <-]. cbn. rewrite Hd, single_put. eexists. split; [reflexivity|].
  destruct (option_Z_eqb (cur_swap d) (Some (swap_node swap0))) eqn:Heq.
  - cbn. apply inv_none.
    + apply (free_cur_swap (enter d w)).
    + apply (free_capturing (enter d w)).
  - cbn. destruct Hinv as [Hfw Hbw]. split; [|exact Hbw].
    cbn. intros a Ha. destruct (Hfw a Ha) as (Hcap & swap & (k & Hin & Hnode) & Hlive).
    split; [exact Hcap|]. exists swap. split; [|exact Hlive].
    exists k. split; [|exact Hnode].
    apply (remove_keeps _ _ swap0); [exact Hsc|exact Hin|].
    intros ->. rewrite Ha in Heq. simpl in Heq. rewrite <- Hnode, Z.eqb_refl in Heq.
    discriminate Heq.
Qed.

Lemma run_op_inv (o : layer_op) (w w' : world) :
  single_device w -> world_inv w -> op_sane o -> run_op o w = Some w' ->
  single_device w' /\ world_inv w'.
Proof.
  intros (key & d & Hd) Hinv Hsane Hrun.
  apply (world_inv_single key d w Hd) in Hinv.
  assert (H : exists d', devices w' = [(key, d')] /\ cur_swap_inv (w_cap w') d').
  { destruct o as [e queue sc i|e dv cinfo|dv sc]; simpl in Hrun.
    - destruct (OBS_QueuePresentKHR e queue sc i w) as [[r w1]|] eqn:Hp;
        [|discriminate].
      injection Hrun as <-. eapply present_inv; eauto.
    - destruct (OBS_CreateSwapchainKHR e dv cinfo w) as [[r w1]|] eqn:Hp;
        [|discriminate].
      injection Hrun as <-. eapply create_swapchain_inv; eauto.
    - eapply destroy_swapchain_inv; eauto. }
  destruct H as (d' & Hd' & Hinv').
  split; [exists key, d'; exact Hd'|].
  apply (world_inv_single key d' w' Hd'). exact Hinv'.
Qed.

(** *** The claim and its correction *)

Example two_devices_run :
  exists t1 t2 dA dB,
    run_ops [OpPresent env_ok queue_handle_1 1000 0] world_2
      = Some {| devices := [(200, device_2); (100, device_capturing)];
                w_cap := {| connfd := 4; capturing := true |};
                w_limiter := 0; w_tr := t1 |}
    /\ run_ops [OpPresent env_ok queue_handle_1 1000 0;
                OpPresent env_ok queue_handle_2 2000 0] world_2
      = Some {| devices := [(200, dB); (100, dA)];
                w_cap := {| connfd := 4; capturing := false |};
                w_limiter := 1; w_tr := t2 |}
    /\ dA = device_capturing /\ cur_swap dB = None.
Proof. do 4 eexists. vm_compute. repeat split; reflexivity. Qed.

(** C6, as stated, fails when two devices present: both start with the
    invariant in place; the present on the first device connects to the
    broker and starts capturing; the present on the second device finds
    [capturing] set and a swapchain that is not its current one, and its
    teardown clears the process-wide flag. The first device is left with a
    non-nil [cur_swap] while [capturing] is false. *)
Lemma second_device_breaks_invariant :
  world_inv world_2
  /\ exists w', run_ops [OpPresent env_ok queue_handle_1 1000 0;
                         OpPresent env_ok queue_handle_2 2000 0] world_2 = Some w'
                /\ ~ world_inv w'.
Proof.
  split.
  - intros key d [[= <- <-]|[[= <- <-]|[]]]; apply inv_none; reflexivity.
  - destruct two_devices_run as (t1 & t2 & dA & dB & _ & Hrun & HA & _).
    eexists. split; [exact Hrun|].
    intros Hinv. specialize (Hinv 100 dA). cbn in Hinv.
    destruct Hinv as [Hfw _]; [right; left; reflexivity|].
    subst dA. destruct (Hfw 9000 eq_refl) as (Hcap & _). discriminate Hcap.
Qed.

(** C6 (amended): while the layer tracks a single device, and a successful
    CreateImage stores a non-null handle and a successful GetMemoryFdKHR a
    descriptor that is not negative at every present, the invariant holds
    at the boundary of every present, swapchain creation and swapchain
    destruction, in both directions: started in a state where a non-nil
    [cur_swap] means that the process is capturing and that the swapchain
    [cur_swap] points to is tracked with a live export image, and where
    [cur_swap] is non-nil while the process is capturing, any run of these
    operations ends in such a state, and still with that one device. *)
Theorem single_device_invariant (os : list layer_op) :
  forall w w',
    single_device w -> world_inv w -> ops_sane os -> run_ops os w = Some w' ->
    single_device w'
    /\ world_inv w'
    /\ exists key d,
         devices w' = [(key, d)]
         /\ (cur_swap d <> None <-> capturing (w_cap w') = true)
         /\ forall a, cur_swap d = Some a ->
              exists swap, points_to d a swap /\ export_live swap.
Proof.
  induction os as [|o os IH]; simpl; intros w w' Hs Hinv Hsane Hrun.
  - injection Hrun as <-. split; [exact Hs|]. split; [exact Hinv|].
    destruct Hs as (key & d & Hd). exists key, d. split; [exact Hd|].
    apply (world_inv_single key d w Hd) in Hinv. destruct Hinv as [Hfw Hbw].
    split; [split|].
    + intros Hne. destruct (cur_swap d) as [a|] eqn:Ha; [|congruence].
      apply (Hfw a eq_refl).
    + exact Hbw.
    + intros a Ha. apply (Hfw a Ha).
  - inversion Hsane as [|o' os' Ho Hrest]; subst.
    destruct (run_op o w) as [w1|] eqn:H1; [|discriminate].
    destruct (run_op_inv o w w1 Hs Hinv Ho H1) as [Hs1 Hinv1].
    exact (IH w1 w' Hs1 Hinv1 Hrest Hrun).
Qed.

(** The sample device on its own: the first present starts the capture, a
    second swapchain is created and the first, the current one, is
    destroyed; the invariant holds afterwards. *)
Lemma single_device_invariant_witness :
  exists w', run_ops [OpPresent env_ok queue_handle_1 1000 0;
                      OpCreateSwapchain env_ok dev_handle_1 cinfo_720p;
                      OpDestroySwapchain dev_handle_1 1000] world_1 = Some w'
             /\ single_device w' /\ world_inv w'.
Proof.
  destruct (run_ops [OpPresent env_ok queue_handle_1 1000 0;
                     OpCreateSwapchain env_ok dev_handle_1 cinfo_720p;
                     OpDestroySwapchain dev_handle_1 1000] world_1) as [w'|] eqn:Hrun.
  - exists w'. split; [reflexivity|].
    destruct (single_device_invariant
                [OpPresent env_ok queue_handle_1 1000 0;
                 OpCreateSwapchain env_ok dev_handle_1 cinfo_720p;
                 OpDestroySwapchain dev_handle_1 1000] world_1 w')
      as (Hs & Hinv & _).
    + exists 100, device_1. reflexivity.
    + intros key d [[= <- <-]|[]]. apply inv_none; reflexivity.
    + repeat constructor; [intros _; discriminate|].
      intros _. exists 7. split; [reflexivity|lia].
    + exact Hrun.
    + split; assumption.
  - vm_compute in Hrun. discriminate Hrun.
Defined.

End LayerProofs.

(** * Further properties of the broker and the source *)

Module BrokerExtra.
Import Broker BrokerSpec Source BrokerExtraSpec BrokerProofs.

Lemma filter_nonneg_all (l : list Z) :
  Forall (fun x => 0 <= x) l -> List.filter (fun x => 0 <=? x) l = l.
Proof.
  induction 1 as [|x l Hx _ IH]; simpl; [reflexivity|].
  destruct (Z.leb_spec 0 x); [|lia]. rewrite IH. reflexivity.
Qed.

Lemma filter_nonneg_minus1 (n : nat) :
  List.filter (fun x => 0 <=? x) (replicate n (-1)) = [].
Proof. induction n as [|n IH]; simpl; [reflexivity|exact IH]. Qed.

Lemma held_fds_pad4 (l : list Z) :
  (length l <= 4)%nat -> Forall (fun x => 0 <= x) l -> held_fds (pad4 l) = l.
Proof.
  intros Hl Hp. unfold held_fds, pad4.
  rewrite take_take, Nat.min_id, take_app, filter_app.
  rewrite take_ge by lia. rewrite take_replicate, filter_nonneg_minus1, app_nil_r.
  apply filter_nonneg_all. exact Hp.
Qed.

Lemma all_held_lookup (l : list vkcapture_client_t) (i : nat) (c : vkcapture_client_t) :
  l !! i = Some c ->
  flat_map (fun c => held_fds (buf_fds c)) l
  ≡ₚ held_fds (buf_fds c) ++ flat_map (fun c => held_fds (buf_fds c)) (delete i l).
Proof.
  revert i. induction l as [|a l IH]; intros [|i] H; simpl in *; try discriminate.
  - injection H as ->. reflexivity.
  - rewrite (IH i H). rewrite !app_assoc. apply Permutation_app_tail.
    apply Permutation_app_comm.
Qed.

Lemma all_held_insert (l : list vkcapture_client_t) (i : nat) (c c' : vkcapture_client_t) :
  l !! i = Some c ->
  flat_map (fun c => held_fds (buf_fds c)) (<[i := c']> l)
  ≡ₚ held_fds (buf_fds c') ++ flat_map (fun c => held_fds (buf_fds c)) (delete i l).
Proof.
  intros H. rewrite (all_held_lookup (<[i := c']> l) i c').
  - rewrite delete_insert_same. reflexivity.
  - apply list_lookup_insert_eq. apply (lookup_lt_Some _ _ _ H).
Qed.

(** X1: a TextureInfo message with an SCM_RIGHTS control message of at
    most four descriptors, received while [bufid] is below [INT_MAX], is
    always processed, and neither leaks nor duplicates a descriptor. After
    the receive step the descriptors closed so far together with those the
    clients hold in [buf_fds] are, as a multiset, the ones from before the
    step plus the descriptors just received, plus the client's socket when
    the step ends in a cleanup. *)
Theorem texture_fds_conserved (P : proto) (i : nat) (buf payload : list Z)
    (h : cmsghdr) (s : server_t) (c : vkcapture_client_t) :
  CAPTURE_CLIENT_DATA_TYPE P <> CAPTURE_TEXTURE_DATA_TYPE P ->
  (0 < CAPTURE_TEXTURE_DATA_SIZE P)%nat ->
  clients s !! i = Some c ->
  payload <> [] ->
  nth 0 payload 0 = CAPTURE_TEXTURE_DATA_TYPE P ->
  cmsg_level h = SOL_SOCKET -> cmsg_type h = SCM_RIGHTS ->
  Forall (fun x => 0 <= x) (cmsg_data h) ->
  (length (cmsg_data h) <= 4)%nat ->
  bufid s <> INT_MAX ->
  exists ctl s',
    recv_step P i buf (RecvData payload (Some h)) s
    = Some (ctl, recv_into P buf payload, s')
    /\ closed s' ++ all_held s'
       ≡ₚ (closed s ++ all_held s) ++ cmsg_data h
          ++ match ctl with Break => [sockfd c] | Continue => [] end.
Proof.
  intros Hty Hs Hc Hp Hb Hl Ht Hpos Hn Hmax. unfold recv_step.
  rewrite (length_eqb_nonempty _ Hp), Hc.
  rewrite (buf0_recv_into P buf payload Hp Hs), Hb.
  apply Z.eqb_neq in Hty. rewrite Z.eqb_sym in Hty. rewrite Hty, Z.eqb_refl.
  set (c1 := set_tdata (recv_into P buf payload) c) in *.
  set (s1 := set_clients (<[i := c1]> (clients s)) s) in *.
  assert (Hc1 : clients s1 !! i = Some c1).
  { simpl. apply list_lookup_insert_eq. apply (lookup_lt_Some _ _ _ Hc). }
  assert (Hh1 : all_held s1 ≡ₚ all_held s).
  { unfold all_held. simpl. rewrite (all_held_insert _ _ _ c1 Hc).
    rewrite (all_held_lookup _ _ _ Hc). reflexivity. }
  unfold handle_texture. rewrite Hl, Ht, !Z.eqb_refl.
  cbn [negb orb].
  replace (4 <? length (cmsg_data h))%nat with false
    by (symmetry; apply Nat.ltb_ge; exact Hn).
  destruct (negb (iov_len P =? CAPTURE_TEXTURE_DATA_SIZE P)%nat
            || negb (tdata_nfd P c1 =? Z.of_nat (length (cmsg_data h)))).
  - do 2 eexists. split; [reflexivity|].
    rewrite (cleanup_at i (do_close (cmsg_data h) s1) c1 Hc1). simpl.
    unfold all_held. simpl. rewrite delete_insert_same.
    rewrite (all_held_lookup (clients s) i c Hc).
    solve_Permutation.
  - replace (bufid s1 =? INT_MAX) with false
      by (symmetry; apply Z.eqb_neq; exact Hmax).
    do 2 eexists. split; [reflexivity|]. unfold all_held.
    cbn [closed clients set_bufid set_clients do_close].
    change (clients s1) with (<[i := c1]> (clients s)).
    rewrite list_insert_insert_eq, (all_held_insert _ i c _ Hc).
    cbn [buf_fds set_buf_id set_buf_fds set_tdata c1 s1 closed set_clients].
    rewrite (held_fds_pad4 _ Hn Hpos).
    rewrite (all_held_lookup (clients s) i c Hc).
    solve_Permutation.
Qed.

Lemma texture_fds_conserved_witness :
  exists ctl s',
    recv_step spec_proto 0 (replicate 59 0) (RecvData (texture_msg 1) (rights [9]))
      one_client
    = Some (ctl, recv_into spec_proto (replicate 59 0) (texture_msg 1), s')
    /\ closed s' ++ all_held s'
       ≡ₚ (closed one_client ++ all_held one_client) ++ [9]
          ++ match ctl with Break => [5] | Continue => [] end.
Proof.
  apply (texture_fds_conserved spec_proto 0 (replicate 59 0) (texture_msg 1)
           {| cmsg_level := SOL_SOCKET; cmsg_type := SCM_RIGHTS; cmsg_data := [9] |}
           one_client
           {| id := 1; sockfd := 5; buf_id := 0; buf_fds := replicate 4 (-1);
              cdata := []; tdata := [] |}).
  - vm_compute. discriminate.
  - vm_compute. lia.
  - reflexivity.
  - discriminate.
  - reflexivity.
  - reflexivity.
  - reflexivity.
  - repeat constructor. simpl. lia.
  - simpl. lia.
  - vm_compute. discriminate.
Defined.
(** X2: a ClientInfo message ends the receive loop of its client
    for this wake-up, whatever else the socket holds and whatever control
    message came with it. When the two message sizes agree the only change
    is the client's [cdata]; when they differ the client is cleaned up. *)
Theorem client_info_one_per_wake (P : proto) (i : nat) (buf payload : list Z)
    (cmsg : option cmsghdr) (rest : list recv_result) (s : server_t)
    (c : vkcapture_client_t) :
  (0 < CAPTURE_TEXTURE_DATA_SIZE P)%nat ->
  clients s !! i = Some c ->
  payload <> [] ->
  nth 0 payload 0 = CAPTURE_CLIENT_DATA_TYPE P ->
  (CAPTURE_CLIENT_DATA_SIZE P = CAPTURE_TEXTURE_DATA_SIZE P ->
   recv_loop P i buf (RecvData payload cmsg :: rest) s
   = Some (set_clients
             (<[i := set_cdata (take (CAPTURE_CLIENT_DATA_SIZE P)
                                     (recv_into P buf payload)) c]> (clients s)) s))
  /\ (CAPTURE_CLIENT_DATA_SIZE P <> CAPTURE_TEXTURE_DATA_SIZE P ->
      recv_loop P i buf (RecvData payload cmsg :: rest) s
      = Some (server_cleanup_client i s)).
Proof.
  intros Hs Hc Hp Hb.
  assert (Hstep : recv_step P i buf (RecvData payload cmsg) s
                  = if negb (iov_len P =? CAPTURE_CLIENT_DATA_SIZE P)%nat
                    then Some (Break, recv_into P buf payload, server_cleanup_client i s)
                    else Some (Break, recv_into P buf payload,
                               set_clients
                                 (<[i := set_cdata (take (CAPTURE_CLIENT_DATA_SIZE P)
                                                         (recv_into P buf payload)) c]>
                                    (clients s)) s)).
  { unfold recv_step. rewrite (length_eqb_nonempty _ Hp), Hc.
    rewrite (buf0_recv_into P buf payload Hp Hs), Hb, Z.eqb_refl. reflexivity. }
  split; intros Hsz; cbn [recv_loop]; rewrite Hstep; unfold iov_len.
  - rewrite Hsz, Nat.eqb_refl. reflexivity.
  - replace (CAPTURE_TEXTURE_DATA_SIZE P =? CAPTURE_CLIENT_DATA_SIZE P)%nat with false
      by (symmetry; apply Nat.eqb_neq; congruence).
    reflexivity.
Qed.

Lemma client_info_one_per_wake_witness :
  recv_loop spec_proto 0 (replicate 59 0)
    [RecvData client_msg None; RecvData (texture_msg 1) (rights [9])] one_client
  = Some (set_clients
            [ {| id := 1; sockfd := 5; buf_id := 0; buf_fds := replicate 4 (-1);
                 cdata := client_msg; tdata := [] |} ] one_client).
Proof.
  destruct (client_info_one_per_wake spec_proto 0 (replicate 59 0) client_msg None
              [RecvData (texture_msg 1) (rights [9])] one_client
              {| id := 1; sockfd := 5; buf_id := 0; buf_fds := replicate 4 (-1);
                 cdata := []; tdata := [] |}) as [H _].
  - vm_compute. lia.
  - reflexivity.
  - discriminate.
  - reflexivity.
  - rewrite H; reflexivity.
Defined.

(** *** Client ids *)

Lemma cleanup_ids (i : nat) (s : server_t) :
  List.map id (clients (server_cleanup_client i s)) = delete i (List.map id (clients s))
  /\ clientid (server_cleanup_client i s) = clientid s.
Proof.
  unfold server_cleanup_client. destruct (clients s !! i) as [c|] eqn:Hc; simpl.
  - split; [|reflexivity]. clear Hc. generalize (clients s). intros l. revert i.
    induction l as [|a l IH]; intros [|i]; simpl; try reflexivity. f_equal. apply IH.
  - split; [|reflexivity]. apply lookup_ge_None in Hc.
    rewrite delete_take_drop, take_ge, drop_ge, app_nil_r by (rewrite length_map; lia).
    reflexivity.
Qed.

Lemma insert_same_id (l : list vkcapture_client_t) (i : nat) (c c' : vkcapture_client_t) :
  l !! i = Some c -> id c' = id c -> List.map id (<[i := c']> l) = List.map id l.
Proof.
  revert i. induction l as [|a l IH]; intros [|i] H He; simpl in *; try discriminate.
  - injection H as ->. rewrite He. reflexivity.
  - f_equal. apply IH; assumption.
Qed.

(** A step of the receive loop keeps the ids or erases the one of client
    [i]; the counter is not touched. *)
Lemma recv_step_ids (P : proto) (i : nat) (buf : list Z) (r : recv_result)
    (s : server_t) ctl buf' s' :
  recv_step P i buf r s = Some (ctl, buf', s') ->
  clientid s' = clientid s
  /\ (List.map id (clients s') = List.map id (clients s)
      \/ List.map id (clients s') = delete i (List.map id (clients s))).
Proof.
  unfold recv_step. destruct r as [e|payload cmsg].
  - destruct ((e =? EAGAIN) || (e =? EWOULDBLOCK)); intros [= <- <- <-].
    + split; [reflexivity|left; reflexivity].
    + destruct (cleanup_ids i s) as [H1 H2]. split; [exact H2|right; exact H1].
  - destruct (length payload =? 0)%nat.
    { intros [= <- <- <-]. destruct (cleanup_ids i s) as [H1 H2].
      split; [exact H2|right; exact H1]. }
    destruct (clients s !! i) as [c|] eqn:Hc; [|discriminate].
    destruct (buf0 (recv_into P buf payload) =? CAPTURE_CLIENT_DATA_TYPE P).
    { destruct (negb (iov_len P =? CAPTURE_CLIENT_DATA_SIZE P)%nat);
        intros [= <- <- <-].
      - destruct (cleanup_ids i s) as [H1 H2]. split; [exact H2|right; exact H1].
      - split; [reflexivity|left]. simpl. eapply insert_same_id; eauto. }
    destruct (buf0 (recv_into P buf payload) =? CAPTURE_TEXTURE_DATA_TYPE P).
    2:{ intros [= <- <- <-]. split; [reflexivity|left; reflexivity]. }
    set (c1 := set_tdata (recv_into P buf payload) c).
    set (s1 := set_clients (<[i := c1]> (clients s)) s).
    assert (Hids1 : List.map id (clients s1) = List.map id (clients s))
      by (simpl; eapply insert_same_id; eauto).
    assert (Hc1 : clients s1 !! i = Some c1).
    { simpl. apply list_lookup_insert_eq. apply (lookup_lt_Some _ _ _ Hc). }
    destruct (handle_texture P i c1 cmsg s1) as [[ctl1 s2]|] eqn:Hh; [|discriminate].
    intros [= <- <- <-]. destruct ctl1.
    + apply handle_texture_continue in Hh as (h & _ & ->). simpl.
      split; [reflexivity|left].
      rewrite list_insert_insert_eq. eapply insert_same_id; eauto.
    + apply handle_texture_break in Hh as (l & ->).
      destruct (cleanup_ids i (do_close l s1)) as [H1 H2].
      split; [exact H2|right]. rewrite H1. simpl. fold s1. simpl.
      rewrite (insert_same_id _ _ _ c1 Hc eq_refl). reflexivity.
Qed.
Lemma StronglySorted_delete (l : list Z) (i : nat) :
  Sorted.StronglySorted Z.lt l -> Sorted.StronglySorted Z.lt (delete i l).
Proof.
  intros H. revert i. induction H as [|x l Hs IH Hx]; intros [|i]; simpl.
  - constructor.
  - constructor.
  - exact Hs.
  - constructor; [apply IH|]. apply Forall_delete. exact Hx.
Qed.

Lemma StronglySorted_snoc (l : list Z) (x : Z) :
  Sorted.StronglySorted Z.lt l -> Forall (fun y => y < x) l ->
  Sorted.StronglySorted Z.lt (l ++ [x]).
Proof.
  induction 1 as [|a l Hs IH Ha]; intros Hx; simpl.
  - repeat constructor.
  - inversion Hx as [|? ? Hax Hlx]; subst. constructor; [apply IH; exact Hlx|].
    apply Forall_app. split; [exact Ha|]. constructor; [exact Hax|constructor].
Qed.

Lemma ids_inv_step (s s' : server_t) (i : nat) :
  ids_inv s -> clientid s' = clientid s ->
  (List.map id (clients s') = List.map id (clients s)
   \/ List.map id (clients s') = delete i (List.map id (clients s))) ->
  ids_inv s'.
Proof.
  intros (H0 & HF & HS) Hc [He|He]; unfold ids_inv; rewrite Hc, He.
  - repeat split; assumption.
  - repeat split; [assumption|apply Forall_delete; exact HF
                   |apply StronglySorted_delete; exact HS].
Qed.

Lemma recv_loop_ids_inv (P : proto) (i : nat) (rs : list recv_result) :
  forall buf s s', ids_inv s -> recv_loop P i buf rs s = Some s' -> ids_inv s'.
Proof.
  induction rs as [|r rs IH]; simpl; intros buf s s' Hinv.
  - intros [= <-]. exact Hinv.
  - destruct (recv_step P i buf r s) as [[[ctl b] s1]|] eqn:Hs; [|discriminate].
    destruct (recv_step_ids _ _ _ _ _ _ _ _ Hs) as [Hc He].
    pose proof (ids_inv_step s s1 i Hinv Hc He) as H1.
    destruct ctl; [apply IH; exact H1 | intros [= <-]; exact H1].
Qed.

Lemma clients_loop_ids_inv (P : proto) (stack : nat -> list Z)
    (inbox : Z -> list recv_result) (fuel : nat) :
  forall i s s', ids_inv s -> clients_loop P fuel i stack inbox s = Some s' ->
                 ids_inv s'.
Proof.
  induction fuel as [|fuel IH]; simpl; intros i s s' Hinv.
  - intros [= <-]. exact Hinv.
  - destruct (clients s !! i) as [c|]; [|intros [= <-]; exact Hinv].
    destruct (server_has_event_on_fd (sockfd c) s); [|apply IH; exact Hinv].
    destruct (recv_loop P i (stack i) (inbox (sockfd c)) s) as [s1|] eqn:Hl; [|discriminate].
    apply IH. eapply recv_loop_ids_inv; eauto.
Qed.

Lemma accept_ids_inv (clientfd rev : Z) (s s' : server_t) :
  ids_inv s -> accept_client clientfd rev s = Some s' -> ids_inv s'.
Proof.
  intros (H0 & HF & HS). unfold accept_client.
  destruct (0 <=? clientfd); [|intros [= <-]; repeat split; assumption].
  destruct (clientid s =? INT_MAX); [discriminate|].
  intros [= <-]. unfold ids_inv. simpl. rewrite List.map_app. simpl.
  split; [lia|]. split.
  - apply Forall_app. split.
    + eapply Forall_impl; [|exact HF]. simpl. intros; lia.
    + constructor; [lia|constructor].
  - apply StronglySorted_snoc; [exact HS|].
    eapply Forall_impl; [|exact HF]. simpl. intros; lia.
Qed.

Lemma StronglySorted_lt_NoDup (l : list Z) :
  Sorted.StronglySorted Z.lt l -> NoDup l.
Proof.
  induction 1 as [|x l Hs IH Hx]; constructor; [|exact IH].
  intros Hin. rewrite Forall_forall in Hx.
  specialize (Hx x Hin). lia.
Qed.

Lemma recv_loop_clientid (P : proto) (i : nat) (rs : list recv_result) :
  forall buf s s', recv_loop P i buf rs s = Some s' -> clientid s' = clientid s.
Proof.
  induction rs as [|r rs IH]; simpl; intros buf s s'.
  - intros [= <-]. reflexivity.
  - destruct (recv_step P i buf r s) as [[[ctl b] s1]|] eqn:Hs; [|discriminate].
    destruct (recv_step_ids _ _ _ _ _ _ _ _ Hs) as [Hc _].
    destruct ctl; [intros Hr; rewrite (IH _ _ _ Hr); exact Hc
                  |intros [= <-]; exact Hc].
Qed.

Lemma clients_loop_clientid (P : proto) (stack : nat -> list Z)
    (inbox : Z -> list recv_result) (fuel : nat) :
  forall i s s', clients_loop P fuel i stack inbox s = Some s' ->
                 clientid s' = clientid s.
Proof.
  induction fuel as [|fuel IH]; simpl; intros i s s'.
  - intros [= <-]. reflexivity.
  - destruct (clients s !! i) as [c|]; [|intros [= <-]; reflexivity].
    destruct (server_has_event_on_fd (sockfd c) s); [|apply IH].
    destruct (recv_loop P i (stack i) (inbox (sockfd c)) s) as [s1|] eqn:Hl; [|discriminate].
    intros Hb. rewrite (IH _ _ _ Hb). eapply recv_loop_clientid; eauto.
Qed.

(** X3: one iteration of the server loop keeps the client ids
    positive, bounded by the [clientid] counter and strictly increasing
    along the client array; so no two clients share an id, none has the
    id 0 that the source reads as "no client", and the counter never
    decreases. *)
Theorem client_ids_stay_distinct (P : proto) listenfd ready clientfd rev stack inbox
    (s s' : server_t) :
  ids_inv s ->
  server_iteration P listenfd ready clientfd rev stack inbox s = Some s' ->
  ids_inv s'
  /\ NoDup (List.map id (clients s'))
  /\ (forall c, In c (clients s') -> id c <> 0)
  /\ clientid s <= clientid s'.
Proof.
  intros Hinv Hrun.
  assert (H' : ids_inv s' /\ clientid s <= clientid s').
  { unfold server_iteration in Hrun.
    set (s1 := poll_ready ready s) in *.
    assert (H1 : ids_inv s1) by exact Hinv.
    destruct (server_has_event_on_fd listenfd s1).
    - destruct (accept_client clientfd rev s1) as [s2|] eqn:Ha; [|discriminate].
      split; [eapply clients_loop_ids_inv; [|exact Hrun]; eapply accept_ids_inv; eauto|].
      rewrite (clients_loop_clientid _ _ _ _ _ _ _ Hrun). revert Ha. unfold accept_client.
      destruct (0 <=? clientfd); [|intros [= <-]; simpl; lia].
      destruct (clientid s1 =? INT_MAX); [discriminate|].
      intros [= <-]. simpl. lia.
    - split; [eapply clients_loop_ids_inv; eauto|].
      rewrite (clients_loop_clientid _ _ _ _ _ _ _ Hrun). simpl. lia. }
  destruct H' as [Hi Hm]. split; [exact Hi|]. split; [|split; [|exact Hm]].
  - apply StronglySorted_lt_NoDup. apply Hi.
  - intros c Hc. destruct Hi as (_ & HF & _). rewrite Forall_forall in HF.
    assert (Hin : In (id c) (List.map id (clients s')))
      by (apply in_map, Hc).
    specialize (HF _ Hin). lia.
Qed.

Lemma client_ids_stay_distinct_witness :
  exists s',
    server_iteration spec_proto 3 (fun f => if f =? 3 then 1 else 0) 6 0
      (fun _ => replicate 59 0) (fun _ => []) one_client = Some s'
    /\ List.map id (clients s') = [1; 2]
    /\ NoDup (List.map id (clients s')).
Proof.
  eexists. split; [vm_compute; reflexivity|]. split; [reflexivity|].
  refine (proj1 (proj2 (client_ids_stay_distinct spec_proto 3
                          (fun f => if f =? 3 then 1 else 0) 6 0
                          (fun _ => replicate 59 0) (fun _ => []) one_client _ _ _))).
  - split; [simpl; lia|]. split.
    + repeat constructor; simpl; lia.
    + repeat constructor.
  - vm_compute. reflexivity.
Defined.
Lemma ids_inv_start (listenfd rev : Z) : ids_inv (server_start listenfd rev).
Proof. unfold ids_inv. simpl. repeat split; [lia|constructor|constructor]. Qed.

Lemma remove_first_fd_snoc (f ev rev : Z) (l : list pollfd) :
  ~ In f (List.map fd l) ->
  remove_first_fd f (l ++ [ {| fd := f; events := ev; revents := rev |} ]) = l.
Proof.
  induction l as [|p l IH]; simpl; intros Hn.
  - rewrite Z.eqb_refl. reflexivity.
  - destruct (Z.eqb_spec (fd p) f) as [He|Hne]; [tauto|].
    f_equal. apply IH. tauto.
Qed.

(** X4: accepting a client on a descriptor that is not yet polled
    and cleaning that client up again gives back the poll set and the
    client array of before; the descriptor is closed once and the id that
    was handed out is not reused. *)
Theorem accept_then_cleanup (clientfd rev : Z) (s s1 : server_t) :
  ~ In clientfd (List.map fd (fds s)) ->
  0 <= clientfd ->
  accept_client clientfd rev s = Some s1 ->
  server_cleanup_client (length (clients s)) s1
  = {| fds := fds s; clients := clients s; bufid := bufid s;
       clientid := clientid s + 1; closed := closed s ++ [clientfd] |}.
Proof.
  intros Hfresh Hpos. unfold accept_client.
  destruct (Z.leb_spec 0 clientfd); [|lia].
  destruct (clientid s =? INT_MAX); [discriminate|].
  intros [= <-].
  set (c := {| id := clientid s + 1; sockfd := clientfd; buf_id := 0;
               buf_fds := replicate 4 (-1); cdata := []; tdata := [] |}).
  rewrite (cleanup_at (length (clients s)) _ c).
  - simpl. rewrite remove_first_fd_snoc by exact Hfresh.
    rewrite app_nil_r. f_equal.
    rewrite delete_take_drop, take_app_length.
    rewrite drop_ge by (rewrite length_app; simpl; lia). apply app_nil_r.
  - simpl. rewrite lookup_app_r by lia. rewrite Nat.sub_diag. reflexivity.
Qed.

Lemma accept_then_cleanup_witness :
  exists s1,
    accept_client 6 0 one_client = Some s1
    /\ server_cleanup_client 1 s1
       = {| fds := fds one_client; clients := clients one_client; bufid := 0;
            clientid := 2; closed := [6] |}.
Proof.
  eexists. split; [vm_compute; reflexivity|].
  refine (accept_then_cleanup 6 0 one_client _ _ _ _).
  - simpl. intros [H|[H|[]]]; discriminate.
  - lia.
  - vm_compute. reflexivity.
Defined.

Lemma cleanup_all_run (fuel : nat) :
  forall s, (length (clients s) <= fuel)%nat ->
    clients (cleanup_all fuel s) = []
    /\ closed (cleanup_all fuel s) = closed s ++ flat_map client_fds (clients s)
    /\ bufid (cleanup_all fuel s) = bufid s.
Proof.
  induction fuel as [|fuel IH]; intros s Hlen; simpl.
  - destruct (clients s); [|simpl in Hlen; lia].
    rewrite app_nil_r. repeat split; reflexivity.
  - destruct (clients s) as [|c l] eqn:Hc.
    + rewrite Hc. rewrite app_nil_r. repeat split; reflexivity.
    + assert (H0 : clients s !! 0%nat = Some c) by (rewrite Hc; reflexivity).
      rewrite (cleanup_at 0 s c H0), Hc. change (delete 0%nat (c :: l)) with l.
      match goal with |- context [cleanup_all fuel ?x] => specialize (IH x) end.
      simpl in IH, Hlen.
      destruct IH as (HA & HB & HC); [lia|].
      rewrite HA, HB, HC. simpl. rewrite <- !app_assoc. repeat split; reflexivity.
Qed.

(** X5: the shutdown path of the server thread closes, for every
    client in array order, its socket and then the descriptors it holds,
    then the listening socket, and leaves no client and no polled
    descriptor. *)
Theorem shutdown_closes_everything (listenfd : Z) (s : server_t) :
  clients (server_shutdown listenfd s) = []
  /\ fds (server_shutdown listenfd s) = []
  /\ closed (server_shutdown listenfd s)
     = closed s ++ flat_map client_fds (clients s) ++ [listenfd].
Proof.
  unfold server_shutdown.
  destruct (cleanup_all_run (length (clients s)) s (le_n _)) as (HA & HB & _).
  simpl. rewrite HA, HB, <- app_assoc. repeat split; reflexivity.
Qed.
(** *** The client loop after a cleanup *)

Lemma take_delete_same {A : Type} (l : list A) (i : nat) :
  take i (delete i l) = take i l.
Proof.
  revert i. induction l as [|a l IH]; intros [|i]; simpl; try reflexivity.
  f_equal. apply IH.
Qed.

Lemma take_insert_same {A : Type} (l : list A) (i : nat) (x : A) :
  take i (<[i := x]> l) = take i l.
Proof.
  revert i. induction l as [|a l IH]; intros [|i]; simpl; try reflexivity.
  f_equal. apply IH.
Qed.

Lemma cleanup_take (i : nat) (s : server_t) :
  take i (clients (server_cleanup_client i s)) = take i (clients s).
Proof.
  unfold server_cleanup_client. destruct (clients s !! i); [|reflexivity].
  simpl. apply take_delete_same.
Qed.

Lemma recv_step_take (P : proto) (i : nat) (buf : list Z) (r : recv_result)
    (s : server_t) ctl buf' s' :
  recv_step P i buf r s = Some (ctl, buf', s') ->
  take i (clients s') = take i (clients s).
Proof.
  unfold recv_step. destruct r as [e|payload cmsg].
  - destruct ((e =? EAGAIN) || (e =? EWOULDBLOCK)); intros [= <- <- <-];
      [reflexivity|apply cleanup_take].
  - destruct (length payload =? 0)%nat.
    { intros [= <- <- <-]. apply cleanup_take. }
    destruct (clients s !! i) as [c|] eqn:Hc; [|discriminate].
    destruct (buf0 (recv_into P buf payload) =? CAPTURE_CLIENT_DATA_TYPE P).
    { destruct (negb (iov_len P =? CAPTURE_CLIENT_DATA_SIZE P)%nat);
        intros [= <- <- <-]; [apply cleanup_take|apply take_insert_same]. }
    destruct (buf0 (recv_into P buf payload) =? CAPTURE_TEXTURE_DATA_TYPE P).
    2:{ intros [= <- <- <-]. reflexivity. }
    destruct (handle_texture P i _ cmsg _) as [[ctl1 s2]|] eqn:Hh; [|discriminate].
    intros [= <- <- <-]. destruct ctl1.
    + apply handle_texture_continue in Hh as (h & _ & ->). simpl.
      rewrite !take_insert_same. reflexivity.
    + apply handle_texture_break in Hh as (l & ->).
      rewrite cleanup_take. simpl. apply take_insert_same.
Qed.

Lemma recv_loop_take (P : proto) (i : nat) (rs : list recv_result) :
  forall buf s s', recv_loop P i buf rs s = Some s' ->
                   take i (clients s') = take i (clients s).
Proof.
  induction rs as [|r rs IH]; simpl; intros buf s s'.
  - intros [= <-]. reflexivity.
  - destruct (recv_step P i buf r s) as [[[ctl b] s1]|] eqn:Hs; [|discriminate].
    pose proof (recv_step_take _ _ _ _ _ _ _ _ Hs) as H1.
    destruct ctl; [intros Hr; rewrite (IH _ _ _ Hr); exact H1
                  |intros [= <-]; exact H1].
Qed.

(** The loop never goes back: once at index [i], the clients before it
    stay as they are. *)
Lemma clients_loop_take (P : proto) (stack : nat -> list Z)
    (inbox : Z -> list recv_result) (fuel : nat) :
  forall i s s', clients_loop P fuel i stack inbox s = Some s' ->
                 take i (clients s') = take i (clients s).
Proof.
  induction fuel as [|fuel IH]; simpl; intros i s s'.
  - intros [= <-]. reflexivity.
  - assert (Hnext : forall a, clients_loop P fuel (Datatypes.S i) stack inbox a = Some s' ->
                              take i (clients s') = take i (clients a)).
    { intros a Ha. apply IH in Ha.
      apply (f_equal (take i)) in Ha. rewrite !take_take in Ha.
      replace (Nat.min i (Datatypes.S i)) with i in Ha by lia. exact Ha. }
    destruct (clients s !! i) as [c|]; [|intros [= <-]; reflexivity].
    destruct (server_has_event_on_fd (sockfd c) s); [|apply Hnext].
    destruct (recv_loop P i (stack i) (inbox (sockfd c)) s) as [s1|] eqn:Hl; [|discriminate].
    intros Hb. rewrite (Hnext _ Hb). eapply recv_loop_take; eauto.
Qed.

(** X6: when the first client is cleaned up during the pass over
    the clients, the client behind it moves into its slot and is not
    served in that pass: it is found unchanged at index 0 afterwards,
    whatever its socket holds. *)
Theorem cleanup_skips_next_client (P : proto) (fuel : nat) (stack : nat -> list Z)
    (inbox : Z -> list recv_result) (s s' : server_t)
    (c0 c1 : vkcapture_client_t) (rest : list vkcapture_client_t)
    (more : list recv_result) :
  clients s = c0 :: c1 :: rest ->
  server_has_event_on_fd (sockfd c0) s = true ->
  inbox (sockfd c0) = RecvData [] None :: more ->
  clients_loop P (Datatypes.S fuel) 0 stack inbox s = Some s' ->
  clients s' !! 0%nat = Some c1.
Proof.
  intros Hc Hev Hin. cbn [clients_loop]. rewrite Hc. cbn [lookup list_lookup].
  rewrite Hev, Hin. cbn [recv_loop recv_step length Nat.eqb].
  assert (H0 : clients s !! 0%nat = Some c0) by (rewrite Hc; reflexivity).
  rewrite (cleanup_at 0 s c0 H0), Hc. change (delete 0%nat (c0 :: c1 :: rest)) with (c1 :: rest).
  intros Hrun.
  apply clients_loop_take in Hrun. simpl in Hrun.
  destruct (clients s') as [|a l]; [discriminate|]. simpl in *. congruence.
Qed.

Lemma cleanup_skips_next_client_witness :
  exists s',
    clients_loop spec_proto 1 0 (fun _ => replicate 59 0)
      (fun _ => [RecvData [] None]) two_clients = Some s'
    /\ clients s' !! 0%nat
       = Some {| id := 2; sockfd := 6; buf_id := 0; buf_fds := replicate 4 (-1);
                 cdata := []; tdata := [] |}.
Proof.
  eexists. split; [vm_compute; reflexivity|].
  refine (cleanup_skips_next_client spec_proto 0 (fun _ => replicate 59 0)
            (fun _ => [RecvData [] None]) two_clients _ _ _ [] [] _ _ _ _).
  - reflexivity.
  - reflexivity.
  - reflexivity.
  - vm_compute. reflexivity.
Defined.

(** *** The source adapter *)

Lemma find_client_lookup (l : list vkcapture_client_t) (i : nat) (c : vkcapture_client_t) :
  NoDup (List.map id l) -> l !! i = Some c -> find_client (id c) l = Some c.
Proof.
  revert i. induction l as [|a l IH]; intros [|i] Hnd H; simpl in *; try discriminate.
  - injection H as ->. rewrite Z.eqb_refl. reflexivity.
  - inversion Hnd as [|x l0 Hx Hl]; subst.
    destruct (Z.eqb_spec (id a) (id c)) as [He|Hne].
    + exfalso. apply Hx. rewrite He. apply in_map.
      apply list_elem_of_In. eapply list_elem_of_lookup_2. exact H.
    + eapply IH; eauto.
Qed.

(** X7: while the selected client is connected, a tick that stays
    within its four-slot arrays keeps the selection and sends no byte to
    any client; when the source has already imported the client's current
    [buf_id] the tick does nothing. *)
Theorem tick_keeps_selection (P : proto) (V : tdata_view) (created : Z)
    (s : server_t) (ctx ctx' : vkcapture_source_t) (c : vkcapture_client_t)
    (t t' : list gs_event) :
  client_id ctx <> 0 ->
  find_client (client_id ctx) (clients s) = Some c ->
  vkcapture_source_video_tick P V created s ctx t = Some (ctx', t') ->
  client_id ctx' = client_id ctx
  /\ (exists evs, t' = t ++ evs /\ forallb (fun ev => negb (is_kick ev)) evs = true)
  /\ (src_buf_id ctx = buf_id c -> ctx' = ctx /\ t' = t).
Proof.
  intros Hid Hf. unfold vkcapture_source_video_tick, tick_follow, tick_select.
  apply Z.eqb_neq in Hid. rewrite Hid, Hf. cbn [negb].
  destruct (Z.eqb_spec (src_buf_id ctx) (buf_id c)) as [He|Hne]; cbn [negb].
  - rewrite Hid. intros [= <- <-]. split; [reflexivity|]. split.
    + exists []. rewrite app_nil_r. split; reflexivity.
    + intros _. split; reflexivity.
  - unfold import_texture. destruct (4 <? src_nfd P (tdata c)); [discriminate|].
    cbn [client_id]. rewrite Hid. intros [= <- <-]. split; [reflexivity|]. split.
    + destruct (negb (texture ctx =? 0)); eexists; rewrite <- ?app_assoc;
        (split; [reflexivity|reflexivity]).
    + intros He. contradiction.
Qed.

Lemma tick_keeps_selection_witness :
  exists ctx' t',
    vkcapture_source_video_tick spec_proto byte_view 70 texture_installed
      (following 1 0) [] = Some (ctx', t')
    /\ client_id ctx' = 1
    /\ forallb (fun ev => negb (is_kick ev)) t' = true.
Proof.
  do 2 eexists. split; [vm_compute; reflexivity|].
  destruct (tick_keeps_selection spec_proto byte_view 70 texture_installed
              (following 1 0)
              {| texture := 70; src_buf_id := 1; client_id := 1;
                 src_tdata := texture_msg 1 |}
              {| id := 1; sockfd := 5; buf_id := 1; buf_fds := [9; -1; -1; -1];
                 cdata := []; tdata := texture_msg 1 |} []
              [GsCreateFromDmabuf 0 0 0 1 [9; -1; -1; -1] [0] [0] (Some [0])])
    as (Hid & (evs & He & Hk) & _).
  - simpl. discriminate.
  - reflexivity.
  - vm_compute. reflexivity.
  - split; [exact Hid|]. simpl in He. rewrite He. exact Hk.
Defined.
(** X8: when the selected client is gone, one tick destroys the
    texture (if there is one), resets the source and, in the same tick,
    selects the first remaining client and sends it the byte ['1']. *)
Theorem tick_after_disconnect (P : proto) (V : tdata_view) (created : Z)
    (s : server_t) (ctx : vkcapture_source_t) (t : list gs_event) :
  client_id ctx <> 0 ->
  find_client (client_id ctx) (clients s) = None ->
  exists ctx',
    vkcapture_source_video_tick P V created s ctx t
    = Some (ctx',
            t ++ (if texture ctx =? 0 then [] else [GsTextureDestroy (texture ctx)])
              ++ match clients s with [] => [] | c :: _ => [WriteKick (sockfd c) 49] end)
    /\ texture ctx' = 0 /\ src_buf_id ctx' = 0
    /\ src_tdata ctx' = replicate (CAPTURE_TEXTURE_DATA_SIZE P) 0
    /\ client_id ctx' = match clients s with [] => 0 | c :: _ => id c end.
Proof.
  intros Hid Hf. unfold vkcapture_source_video_tick, tick_follow, tick_select.
  apply Z.eqb_neq in Hid. rewrite Hid, Hf. cbn [negb client_id]. rewrite Z.eqb_refl.
  destruct (clients s) as [|c l]; destruct (texture ctx =? 0); cbn [negb];
    rewrite ?app_nil_r, <- ?app_assoc; cbn [app];
    eexists; (split; [reflexivity|]); repeat split; reflexivity.
Qed.

Lemma tick_after_disconnect_witness :
  exists ctx',
    vkcapture_source_video_tick spec_proto byte_view 70 one_client
      {| texture := 8; src_buf_id := 3; client_id := 7; src_tdata := texture_msg 1 |} []
    = Some (ctx', [GsTextureDestroy 8; WriteKick 5 49])
    /\ src_tdata ctx' = replicate 59 0
    /\ client_id ctx' = 1.
Proof.
  destruct (tick_after_disconnect spec_proto byte_view 70 one_client
              {| texture := 8; src_buf_id := 3; client_id := 7;
                 src_tdata := texture_msg 1 |} [])
    as (ctx' & Hrun & _ & _ & Htd & Hid).
  - simpl. discriminate.
  - reflexivity.
  - exists ctx'. split; [exact Hrun|]. split; [exact Htd|exact Hid].
Defined.

Lemma tick_in_sync (P : proto) (V : tdata_view) (created : Z)
    (s : server_t) (ctx : vkcapture_source_t) (c : vkcapture_client_t)
    (t : list gs_event) :
  client_id ctx <> 0 ->
  find_client (client_id ctx) (clients s) = Some c ->
  src_buf_id ctx = buf_id c ->
  vkcapture_source_video_tick P V created s ctx t = Some (ctx, t).
Proof.
  intros Hid Hf He. unfold vkcapture_source_video_tick, tick_follow, tick_select.
  apply Z.eqb_neq in Hid. rewrite Hid, Hf, He, Z.eqb_refl. cbn [negb].
  rewrite Hid. reflexivity.
Qed.

Lemma tick_import_run (P : proto) (V : tdata_view) (created : Z)
    (s : server_t) (ctx : vkcapture_source_t) (c : vkcapture_client_t)
    (t : list gs_event) :
  client_id ctx <> 0 ->
  find_client (client_id ctx) (clients s) = Some c ->
  src_buf_id ctx <> buf_id c ->
  src_nfd P (tdata c) <= 4 ->
  vkcapture_source_video_tick P V created s ctx t
  = Some ({| texture := created; src_buf_id := buf_id c;
             client_id := client_id ctx; src_tdata := tdata c |},
          (t ++ (if texture ctx =? 0 then [] else [GsTextureDestroy (texture ctx)]))
          ++ [GsCreateFromDmabuf (v_width V (tdata c)) (v_height V (tdata c))
                (v_format V (tdata c)) (src_nfd P (tdata c)) (buf_fds c)
                (List.map (v_strides V (tdata c)) (seq 0 (Z.to_nat (src_nfd P (tdata c)))))
                (List.map (v_offsets V (tdata c)) (seq 0 (Z.to_nat (src_nfd P (tdata c)))))
                (if v_modifier V (tdata c) =? DRM_FORMAT_MOD_INVALID then None
                 else Some (replicate (Z.to_nat (src_nfd P (tdata c)))
                                      (v_modifier V (tdata c))))]).
Proof.
  intros Hid Hf Hne Hn. unfold vkcapture_source_video_tick, tick_follow, tick_select.
  apply Z.eqb_neq in Hid. apply Z.eqb_neq in Hne. rewrite Hid, Hf, Hne. cbn [negb].
  unfold import_texture.
  replace (4 <? src_nfd P (tdata c)) with false by (symmetry; apply Z.ltb_ge; exact Hn).
  cbn [client_id]. rewrite Hid.
  destruct (texture ctx =? 0); destruct (v_modifier V (tdata c) =? DRM_FORMAT_MOD_INVALID);
    cbn [negb]; rewrite ?app_nil_r; reflexivity.
Qed.

(** X9: when the selected client's [buf_id] differs from the one the
    source imported, a tick destroys the old texture and makes exactly one
    import call, with the client's descriptors and with modifiers only if
    the modifier is not DRM_FORMAT_MOD_INVALID. The source records the
    [buf_id] whether or not the import gave a texture, so the next tick
    does nothing: a failed import is not tried again. *)
Theorem tick_imports_once (P : proto) (V : tdata_view) (created created2 : Z)
    (s : server_t) (ctx : vkcapture_source_t) (c : vkcapture_client_t)
    (t : list gs_event) :
  client_id ctx <> 0 ->
  find_client (client_id ctx) (clients s) = Some c ->
  src_buf_id ctx <> buf_id c ->
  src_nfd P (tdata c) <= 4 ->
  exists ctx' call,
    vkcapture_source_video_tick P V created s ctx t
    = Some (ctx', (t ++ (if texture ctx =? 0 then [] else [GsTextureDestroy (texture ctx)]))
                  ++ [call])
    /\ call = GsCreateFromDmabuf (v_width V (tdata c)) (v_height V (tdata c))
                (v_format V (tdata c)) (src_nfd P (tdata c)) (buf_fds c)
                (List.map (v_strides V (tdata c)) (seq 0 (Z.to_nat (src_nfd P (tdata c)))))
                (List.map (v_offsets V (tdata c)) (seq 0 (Z.to_nat (src_nfd P (tdata c)))))
                (if v_modifier V (tdata c) =? DRM_FORMAT_MOD_INVALID then None
                 else Some (replicate (Z.to_nat (src_nfd P (tdata c)))
                                      (v_modifier V (tdata c))))
    /\ texture ctx' = created /\ src_buf_id ctx' = buf_id c
    /\ src_tdata ctx' = tdata c /\ client_id ctx' = client_id ctx
    /\ forall t2, vkcapture_source_video_tick P V created2 s ctx' t2 = Some (ctx', t2).
Proof.
  intros Hid Hf Hne Hn.
  eexists. eexists. split; [exact (tick_import_run P V created s ctx c t Hid Hf Hne Hn)|].
  split; [reflexivity|]. repeat split.
  intros t2. apply (tick_in_sync P V created2 s _ c); [exact Hid|exact Hf|reflexivity].
Qed.

Lemma tick_imports_once_witness :
  exists ctx',
    vkcapture_source_video_tick spec_proto byte_view 70 texture_installed
      (following 1 0) []
    = Some (ctx', [GsCreateFromDmabuf 0 0 0 1 [9; -1; -1; -1] [0] [0] (Some [0])])
    /\ texture ctx' = 70 /\ src_buf_id ctx' = 1.
Proof.
  destruct (tick_imports_once spec_proto byte_view 70 0 texture_installed
              (following 1 0)
              {| id := 1; sockfd := 5; buf_id := 1; buf_fds := [9; -1; -1; -1];
                 cdata := []; tdata := texture_msg 1 |} [])
    as (ctx' & call & Hrun & Hcall & Ht & Hb & _).
  - simpl. discriminate.
  - reflexivity.
  - simpl. discriminate.
  - vm_compute. discriminate.
  - exists ctx'. rewrite Hcall in Hrun. split; [exact Hrun|]. split; [exact Ht|exact Hb].
Defined.

Lemma handle_texture_installed (P : proto) (i : nat) (c : vkcapture_client_t)
    (cmsg : option cmsghdr) (s s' : server_t) :
  handle_texture P i c cmsg s = Some (Continue, s') ->
  exists h, cmsg = Some h
    /\ (length (cmsg_data h) <= 4)%nat
    /\ tdata_nfd P c = Z.of_nat (length (cmsg_data h)).
Proof.
  unfold handle_texture. destruct cmsg as [h|]; [|discriminate].
  destruct (negb (cmsg_level h =? SOL_SOCKET) || negb (cmsg_type h =? SCM_RIGHTS));
    [discriminate|].
  destruct (4 <? length (cmsg_data h))%nat eqn:Hn; [discriminate|].
  destruct (negb (iov_len P =? CAPTURE_TEXTURE_DATA_SIZE P)%nat) ; [discriminate|].
  cbn [orb].
  destruct (Z.eqb_spec (tdata_nfd P c) (Z.of_nat (length (cmsg_data h)))) as [He|];
    [|discriminate].
  intros _. exists h. split; [reflexivity|]. split; [|exact He].
  apply Nat.ltb_ge. exact Hn.
Qed.

(** X10: server and source together. Once the receive step has
    installed a TextureInfo of the selected client, the next tick imports
    exactly that buffer: the descriptors of the control message (padded
    with -1), the texture data just stored, and the new [buf_id], which
    is above every [buf_id] seen before. *)
Theorem installed_texture_is_imported (P : proto) (V : tdata_view) (created : Z)
    (i : nat) (buf payload : list Z) (cmsg : option cmsghdr)
    (s s' : server_t) (c : vkcapture_client_t) (buf' : list Z)
    (ctx : vkcapture_source_t) (t : list gs_event) :
  ids_inv s -> bufid_inv s ->
  clients s !! i = Some c ->
  client_id ctx = id c ->
  src_buf_id ctx <= bufid s ->
  recv_step P i buf (RecvData payload cmsg) s = Some (Continue, buf', s') ->
  buf0 buf' = CAPTURE_TEXTURE_DATA_TYPE P ->
  exists h ctx' pre w hh f m,
    cmsg = Some h
    /\ vkcapture_source_video_tick P V created s' ctx t
       = Some (ctx', (t ++ pre)
                     ++ [GsCreateFromDmabuf w hh f (Z.of_nat (length (cmsg_data h)))
                           (pad4 (cmsg_data h))
                           (List.map (v_strides V buf') (seq 0 (length (cmsg_data h))))
                           (List.map (v_offsets V buf') (seq 0 (length (cmsg_data h))))
                           m])
    /\ src_buf_id ctx' = bufid s + 1
    /\ src_tdata ctx' = buf'.
Proof.
  intros Hids Hbinv Hc Hsel Hle Hstep Hb.
  pose proof Hstep as Hstep0.
  unfold recv_step in Hstep.
  destruct (length payload =? 0)%nat; [discriminate|]. rewrite Hc in Hstep.
  destruct (buf0 (recv_into P buf payload) =? CAPTURE_CLIENT_DATA_TYPE P).
  { destruct (negb (iov_len P =? CAPTURE_CLIENT_DATA_SIZE P)%nat); discriminate. }
  destruct (buf0 (recv_into P buf payload) =? CAPTURE_TEXTURE_DATA_TYPE P) eqn:Htx.
  2:{ injection Hstep as <- <-. apply Z.eqb_neq in Htx. contradiction. }
  set (c1 := set_tdata (recv_into P buf payload) c) in *.
  destruct (handle_texture P i c1 cmsg _) as [[ctl s2]|] eqn:Hh; [|discriminate].
  injection Hstep as -> <- <-.
  destruct (handle_texture_installed _ _ _ _ _ _ Hh) as (h & -> & Hn & Hnfd).
  apply handle_texture_continue in Hh as (h' & [= <-] & ->).
  set (c2 := set_buf_id (bufid s + 1) (set_buf_fds (pad4 (cmsg_data h)) c1)).
  assert (Hc2 : clients (set_clients (<[i:=c1]> (clients s)) s) !! i = Some c1).
  { simpl. apply list_lookup_insert_eq. apply (lookup_lt_Some _ _ _ Hc). }
  set (s' := set_bufid _ _).
  assert (Hl : clients s' !! i = Some c2).
  { subst s'. cbn. rewrite list_insert_insert_eq.
    apply list_lookup_insert_eq. apply (lookup_lt_Some _ _ _ Hc). }
  assert (Hnd : NoDup (List.map id (clients s'))).
  { destruct (recv_step_ids _ _ _ _ _ _ _ _ Hstep0) as [Hcid He].
    apply StronglySorted_lt_NoDup. apply (ids_inv_step s s' i Hids Hcid He). }
  assert (Hf : find_client (client_id ctx) (clients s') = Some c2).
  { rewrite Hsel. change (id c) with (id c2). apply (find_client_lookup _ i); assumption. }
  assert (Hpos : client_id ctx <> 0).
  { rewrite Hsel. destruct Hids as (_ & HF & _). rewrite Forall_forall in HF.
    assert (Hin : In (id c) (List.map id (clients s))).
    { apply in_map. apply list_elem_of_In. eapply list_elem_of_lookup_2. exact Hc. }
    specialize (HF _ Hin). lia. }
  assert (Hnfd2 : src_nfd P (tdata c2) = Z.of_nat (length (cmsg_data h))) by exact Hnfd.
  pose proof (tick_import_run P V created s' ctx c2 t Hpos Hf) as Hrun.
  rewrite Hnfd2, Nat2Z.id in Hrun.
  exists h. do 6 eexists. split; [reflexivity|]. split; [|split].
  - apply Hrun; [|lia]. change (buf_id c2) with (bufid s + 1). lia.
  - reflexivity.
  - reflexivity.
Qed.

Lemma installed_texture_is_imported_witness :
  exists ctx' evs,
    vkcapture_source_video_tick spec_proto byte_view 70 texture_installed
      (following 1 0) [] = Some (ctx', evs)
    /\ src_buf_id ctx' = 1.
Proof.
  destruct (installed_texture_is_imported spec_proto byte_view 70 0
              (replicate 59 0) (texture_msg 1) (rights [9]) one_client
              texture_installed
              {| id := 1; sockfd := 5; buf_id := 0; buf_fds := replicate 4 (-1);
                 cdata := []; tdata := [] |}
              (recv_into spec_proto (replicate 59 0) (texture_msg 1))
              (following 1 0) [])
    as (h & ctx' & pre & w & hh & f & m & _ & Hrun & Hb & _).
  - split; [simpl; lia|]. split.
    + repeat constructor; simpl; lia.
    + repeat constructor.
  - split; [simpl; lia|]. repeat constructor. simpl. lia.
  - reflexivity.
  - reflexivity.
  - simpl. lia.
  - vm_compute. reflexivity.
  - reflexivity.
  - exists ctx'. eexists. split; [exact Hrun|exact Hb].
Defined.
End BrokerExtra.

(** * Further properties of the layer *)

Module LayerExtra.
Import Layer LayerSpec LayerExtraSpec LayerProofs.

(** X11: the object lists behave as a keyed registry: a lookup after
    [add_obj_data] finds the new node, removing it gives the list back,
    other keys are not affected by adding or removing, removing an absent
    key changes nothing, and a removed key is gone when keys are
    distinct. *)
Theorem obj_list_laws {A : Type} (l : list (Z * A)) (k k' : Z) (a : A) :
  get_obj_data (add_obj_data l k a) k = Some a
  /\ remove_obj_data (add_obj_data l k a) k = l
  /\ (k <> k' -> get_obj_data (add_obj_data l k a) k' = get_obj_data l k')
  /\ (k <> k' -> get_obj_data (remove_obj_data l k) k' = get_obj_data l k')
  /\ (get_obj_data l k = None -> remove_obj_data l k = l)
  /\ (NoDup (List.map fst l) -> get_obj_data (remove_obj_data l k) k = None).
Proof.
  split; [|split; [|split; [|split; [|split]]]].
  - simpl. rewrite Z.eqb_refl. reflexivity.
  - simpl. rewrite Z.eqb_refl. reflexivity.
  - intros Hne. simpl. apply Z.eqb_neq in Hne. rewrite Hne. reflexivity.
  - intros Hne. apply get_remove_other. exact Hne.
  - induction l as [|[k0 a0] l IH]; simpl; [reflexivity|].
    destruct (k0 =? k); [discriminate|]. intros H. rewrite IH by exact H. reflexivity.
  - induction l as [|[k0 a0] l IH]; simpl; intros Hnd; [reflexivity|].
    inversion Hnd as [|x l0 Hx Hl]; subst.
    destruct (Z.eqb_spec k0 k) as [->|Hne].
    + clear IH Hnd Hl. induction l as [|[k1 a1] l IH]; simpl; [reflexivity|].
      destruct (Z.eqb_spec k1 k) as [->|Hne1].
      * exfalso. apply Hx. left. reflexivity.
      * apply IH. intros Hin. apply Hx. right. exact Hin.
    + simpl. apply Z.eqb_neq in Hne. rewrite Hne. apply IH. exact Hl.
Qed.

Lemma obj_list_laws_witness :
  get_obj_data (remove_obj_data (swaps device_2) 2000) 2000 = None
  /\ get_obj_data (add_obj_data (swaps device_1) 2000 swap_1080p) 1000
     = Some swap_1080p.
Proof.
  destruct (obj_list_laws (swaps device_1) 2000 1000 swap_1080p)
    as (_ & _ & Hadd & _).
  destruct (obj_list_laws (swaps device_2) 2000 1000 swap_1080p)
    as (_ & _ & _ & _ & _ & Hrem).
  split.
  - apply Hrem. simpl. repeat constructor. intros [].
  - rewrite Hadd by discriminate. reflexivity.
Defined.

(** *** The producer socket *)

Lemma update_socket_skip (e : env) (s : st) :
  limiter s + 1 < 60 ->
  capture_update_socket e s = set_limiter (limiter s + 1) s.
Proof.
  intros H. unfold capture_update_socket, run_body, seq_stmt, c_do, c_if, c_return.
  cbn [limiter set_limiter].
  replace (limiter s + 1 <? 60) with true by (symmetry; apply Z.ltb_lt; exact H).
  reflexivity.
Qed.

(** X12: [capture_update_socket] only counts as long as fewer than
    60 calls have gone by: that many calls in a row change nothing but the
    counter, and touch no socket. *)
Theorem update_socket_throttle (es : list env) :
  forall s, limiter s + Z.of_nat (length es) < 60 ->
    update_socket_calls es s = set_limiter (limiter s + Z.of_nat (length es)) s.
Proof.
  unfold update_socket_calls.
  induction es as [|e es IH]; intros s H; simpl fold_left.
  - simpl. rewrite Z.add_0_r. destruct s; reflexivity.
  - cbn [length] in H. rewrite Nat2Z.inj_succ in H.
    rewrite update_socket_skip by lia. rewrite IH by (simpl; lia).
    cbn [length]. rewrite Nat2Z.inj_succ. simpl. unfold set_limiter. simpl.
    f_equal. lia.
Qed.

Lemma update_socket_throttle_witness :
  update_socket_calls [env_eof; env_eof; env_eof] st_1 = set_limiter 3 st_1.
Proof.
  refine (update_socket_throttle [env_eof; env_eof; env_eof] st_1 _).
  simpl. lia.
Defined.

(** X13: the 60th call of [capture_update_socket] resets the counter
    and probes the socket once, leaving the device data and the capturing
    flag alone. With a connection, EAGAIN or received bytes keep it and
    everything else (end of file, another error) closes it and sets
    [connfd] to -1; without one, a failed connect closes the new socket
    and does not call [recv]. *)
Theorem update_socket_probe (e : env) (s : st) :
  limiter s = 59 ->
  let s' := capture_update_socket e s in
  limiter s' = 0
  /\ capturing (cap s') = capturing (cap s)
  /\ dev s' = dev s
  /\ (0 <= connfd (cap s) ->
      (fst (e_recv e) = -1 /\ snd (e_recv e) = EAGAIN \/ 0 < fst (e_recv e) ->
       connfd (cap s') = connfd (cap s)
       /\ tr s' = tr s ++ [EvRecv (connfd (cap s))])
      /\ (fst (e_recv e) <= 0 /\ ~ (fst (e_recv e) = -1 /\ snd (e_recv e) = EAGAIN) ->
          connfd (cap s') = -1
          /\ tr s' = tr s ++ [EvRecv (connfd (cap s)); EvClose (connfd (cap s))]))
  /\ (connfd (cap s) < 0 -> e_connect e = -1 ->
      connfd (cap s') = connfd (cap s)
      /\ tr s' = tr s ++ [EvConnect (e_socket e); EvClose (e_socket e)]).
Proof.
  intros Hl s'. destruct (update_socket_keeps e s) as [Hd Hc]. fold s' in Hd, Hc.
  assert (Hrun : s' = capture_update_socket e s) by reflexivity.
  unfold capture_update_socket, run_body, seq_stmt, c_do, c_if, c_return,
    capture_try_connect in Hrun.
  cbn [limiter set_limiter] in Hrun. rewrite Hl in Hrun.
  change (59 + 1 <? 60) with false in Hrun. cbn [cap set_limiter] in Hrun.
  split.
  { rewrite Hrun. destruct (connfd (cap s) <? 0).
    - destruct (e_connect e =? -1); [reflexivity|]. cbn.
      destruct ((fst (e_recv e) =? -1) && _); [reflexivity|].
      destruct (fst (e_recv e) <=? 0); reflexivity.
    - cbn. destruct ((fst (e_recv e) =? -1) && _); [reflexivity|].
      destruct (fst (e_recv e) <=? 0); reflexivity. }
  split; [exact Hc|]. split; [exact Hd|]. split.
  - intros Hpos.
    replace (connfd (cap s) <? 0) with false in Hrun by (symmetry; apply Z.ltb_ge; lia).
    cbn in Hrun. split.
    + intros [[Hn He]|Hn].
      * rewrite Hn, He in Hrun. cbn in Hrun. rewrite Hrun. split; reflexivity.
      * replace (fst (e_recv e) =? -1) with false in Hrun by (symmetry; apply Z.eqb_neq; lia).
        replace (fst (e_recv e) <=? 0) with false in Hrun by (symmetry; apply Z.leb_gt; lia).
        cbn in Hrun. rewrite Hrun. split; reflexivity.
    + intros [Hn Hnb].
      replace (fst (e_recv e) <=? 0) with true in Hrun by (symmetry; apply Z.leb_le; lia).
      destruct ((fst (e_recv e) =? -1)
                && ((snd (e_recv e) =? EAGAIN) || (snd (e_recv e) =? EWOULDBLOCK))) eqn:Hb.
      * exfalso. apply Hnb. apply andb_prop in Hb as [H1 H2].
        apply Z.eqb_eq in H1. split; [exact H1|].
        apply orb_prop in H2 as [H2|H2]; apply Z.eqb_eq in H2; exact H2.
      * rewrite Hrun. cbn. rewrite <- app_assoc. split; reflexivity.
  - intros Hneg Hcf.
    replace (connfd (cap s) <? 0) with true in Hrun by (symmetry; apply Z.ltb_lt; lia).
    rewrite Hcf in Hrun. cbn in Hrun. rewrite Hrun. cbn. rewrite <- app_assoc.
    split; reflexivity.
Qed.

Lemma update_socket_probe_witness :
  connfd (cap (capture_update_socket env_eof st_probe)) = -1
  /\ tr (capture_update_socket env_eof st_probe) = [EvRecv 4; EvClose 4]
  /\ limiter (capture_update_socket env_eof st_probe) = 0.
Proof.
  destruct (update_socket_probe env_eof st_probe) as (Hl & _ & _ & Hconn & _).
  - reflexivity.
  - destruct Hconn as [_ Hlost]; [simpl; lia|].
    destruct Hlost as [Hfd Htr].
    + split; [simpl; lia|]. intros [H _]. simpl in H. discriminate.
    + split; [exact Hfd|]. split; [exact Htr|exact Hl].
Defined.

(** *** Teardown *)

Lemma free_swap_run (swap : vk_swap_data) (t : trace) :
  free_swap swap t = (clear_export swap, t ++ release_events swap).
Proof.
  unfold free_swap, clear_export, release_events.
  destruct (export_image swap =? VK_NULL_HANDLE); destruct (0 <=? dmabuf_fd swap);
    cbn [negb set_dmabuf_fd export_mem];
    destruct (export_mem swap =? VK_NULL_HANDLE); cbn [negb];
    rewrite ?app_nil_r, <- ?app_assoc; reflexivity.
Qed.

Lemma free_walk_run (l : list (Z * vk_swap_data)) :
  forall t, obj_walk (fun _ swap t0 => free_swap swap t0) l t
            = (List.map (fun ks => (fst ks, clear_export (snd ks))) l,
               t ++ flat_map (fun ks => release_events (snd ks)) l).
Proof.
  induction l as [|[k a] l IH]; intros t; simpl.
  - rewrite app_nil_r. reflexivity.
  - rewrite free_swap_run, IH. rewrite <- app_assoc. reflexivity.
Qed.

Lemma vk_shtex_free_run (s : st) :
  vk_shtex_free s
  = {| dev := set_cur_swap None
                (set_swaps (List.map (fun ks => (fst ks, clear_export (snd ks)))
                                     (swaps (dev s))) (dev s));
       cap := set_capturing false (cap s);
       limiter := limiter s;
       tr := tr s ++ flat_map (fun ks => release_events (snd ks)) (swaps (dev s)) |}.
Proof.
  unfold vk_shtex_free. rewrite wait_until_idle_id, free_walk_run. reflexivity.
Qed.

Lemma clear_export_cleared (swap : vk_swap_data) : export_cleared (clear_export swap).
Proof.
  unfold export_cleared, clear_export.
  destruct (Z.leb_spec 0 (dmabuf_fd swap)); cbn; repeat split; try reflexivity; lia.
Qed.

Lemma cleared_fixed (swap : vk_swap_data) :
  export_cleared swap -> clear_export swap = swap /\ release_events swap = [].
Proof.
  intros (Hi & Hm & Hf & Hc). unfold clear_export, release_events.
  replace (0 <=? dmabuf_fd swap) with false by (symmetry; apply Z.leb_gt; exact Hf).
  rewrite Hi, Hm. change (VK_NULL_HANDLE =? VK_NULL_HANDLE) with true.
  split; [|reflexivity]. destruct swap; cbn in *. subst. reflexivity.
Qed.

Lemma release_quiet (l : list (Z * vk_swap_data)) :
  existsb is_sendmsg (flat_map (fun ks => release_events (snd ks)) l) = false
  /\ existsb is_queue_submit (flat_map (fun ks => release_events (snd ks)) l) = false.
Proof.
  induction l as [|[k a] l [IH1 IH2]]; [split; reflexivity|].
  cbn [flat_map snd]. rewrite !existsb_app, IH1, IH2, !orb_false_r.
  unfold release_events.
  destruct (export_image a =? VK_NULL_HANDLE), (0 <=? dmabuf_fd a),
    (export_mem a =? VK_NULL_HANDLE); split; reflexivity.
Qed.

(** X14: [vk_shtex_free] releases, per swapchain and in list order,
    the export image, the exported descriptor and the export memory, each
    only if it is set; afterwards no swapchain has export state, no
    swapchain is current, capture is off, and queues, validity and the
    socket are as before. Running it again changes nothing, so nothing is
    released twice. *)
Theorem vk_shtex_free_releases_once (s : st) :
  let s' := vk_shtex_free s in
  tr s' = tr s ++ flat_map (fun ks => release_events (snd ks)) (swaps (dev s))
  /\ capturing (cap s') = false
  /\ connfd (cap s') = connfd (cap s)
  /\ cur_swap (dev s') = None
  /\ List.map fst (swaps (dev s')) = List.map fst (swaps (dev s))
  /\ Forall (fun ks => export_cleared (snd ks)) (swaps (dev s'))
  /\ queues (dev s') = queues (dev s)
  /\ valid (dev s') = valid (dev s)
  /\ vk_shtex_free s' = s'.
Proof.
  intros s'. unfold s'. rewrite !vk_shtex_free_run. cbn.
  split; [reflexivity|]. split; [reflexivity|]. split; [reflexivity|].
  split; [reflexivity|].
  split; [rewrite List.map_map; apply List.map_ext; intros [k a]; reflexivity|].
  assert (Hcl : Forall (fun ks : Z * vk_swap_data => export_cleared (snd ks))
                  (List.map (fun ks => (fst ks, clear_export (snd ks))) (swaps (dev s)))).
  { apply Forall_forall. intros ks Hin. apply in_map_iff in Hin as (x & <- & _).
    apply clear_export_cleared. }
  split; [exact Hcl|]. split; [reflexivity|]. split; [reflexivity|].
  set (l := List.map (fun ks => (fst ks, clear_export (snd ks))) (swaps (dev s))) in *.
  assert (Hfix : List.map (fun ks => (fst ks, clear_export (snd ks))) l = l
                 /\ flat_map (fun ks => release_events (snd ks)) l = []).
  { clearbody l. induction l as [|[k a] l IH]; [split; reflexivity|].
    inversion Hcl as [|x l0 Hx Hl]; subst. destruct (IH Hl) as [H1 H2].
    destruct (cleared_fixed a Hx) as [H3 H4]. cbn. rewrite H1, H2, H3, H4.
    split; reflexivity. }
  destruct Hfix as [H1 H2]. rewrite H1, H2, app_nil_r. reflexivity.
Qed.

(** *** Presenting *)

(** X15: presenting a tracked swapchain of zero width or height
    while no export runs never starts one: the call does what
    [capture_update_socket] does and nothing else. *)
Theorem zero_extent_never_exports (e : env) (queue sc : Z) (i : nat) (s : st)
    (swap : vk_swap_data) :
  get_swap_data (dev s) sc = Some swap ->
  valid_rect swap = false ->
  capturing (cap s) = false ->
  vk_capture e queue sc i s = Some (capture_update_socket e s).
Proof.
  intros Hg Hv Hc. unfold vk_capture.
  destruct (update_socket_keeps e s) as [Hd Hk].
  set (s1 := capture_update_socket e s) in *.
  unfold capture_should_stop. rewrite Hk, Hc. cbn [andb].
  unfold vk_capture_init, capture_should_init, capture_ready.
  rewrite Hk, Hc, Hd, Hg, Hv. cbn [negb andb].
  destruct (0 <=? connfd (cap s1)); rewrite Hk, Hc; reflexivity.
Qed.

Lemma zero_extent_never_exports_witness :
  vk_capture env_ok 11 1000 0 st_minimised
  = Some (capture_update_socket env_ok st_minimised).
Proof.
  refine (zero_extent_never_exports env_ok 11 1000 0 st_minimised _ _ _ _).
  - reflexivity.
  - reflexivity.
  - reflexivity.
Defined.

Lemma vk_capture_stop_run (e : env) (queue sc : Z) (i : nat) (s : st) :
  capturing (cap s) = true ->
  connfd (cap (capture_update_socket e s)) < 0
  \/ swap_ptr (dev s) sc <> cur_swap (dev s) ->
  vk_capture e queue sc i s = Some (vk_shtex_free (capture_update_socket e s)).
Proof.
  intros Hc Hor.
  destruct (update_socket_keeps e s) as [Hd Hk].
  set (s1 := capture_update_socket e s) in *.
  unfold vk_capture. fold s1. unfold capture_should_stop. rewrite Hk, Hc. cbn [andb].
    destruct (Z.ltb_spec (connfd (cap s1)) 0) as [Hneg|Hpos].
    + unfold vk_capture_init, capture_should_init, capture_ready.
      rewrite vk_shtex_free_run. cbn.
      replace (0 <=? connfd (cap s1)) with false by (symmetry; apply Z.leb_gt; exact Hneg).
      reflexivity.
    + destruct Hor as [Hneg|Hne]; [lia|].
      unfold vk_capture_init, capture_should_init, capture_ready.
      rewrite Hk, Hc. cbn [negb andb]. rewrite Hd.
      replace (option_Z_eqb (swap_ptr (dev s) sc) (cur_swap (dev s))) with false;
        [rewrite Hk, Hc; reflexivity|].
      symmetry. destruct (swap_ptr (dev s) sc) as [a|], (cur_swap (dev s)) as [b|];
        cbn; try reflexivity; try congruence.
      apply Z.eqb_neq. congruence.
Qed.

(** X16: while an export runs, a present that finds the socket lost
    or names another swapchain than the current one tears the export down
    and returns: the result is [vk_shtex_free] after the socket update,
    capture is off and no copy is submitted. *)
Theorem capture_stops_without_copy (e : env) (queue sc : Z) (i : nat) (s : st) :
  capturing (cap s) = true ->
  connfd (cap (capture_update_socket e s)) < 0
  \/ swap_ptr (dev s) sc <> cur_swap (dev s) ->
  vk_capture e queue sc i s = Some (vk_shtex_free (capture_update_socket e s))
  /\ capturing (cap (vk_shtex_free (capture_update_socket e s))) = false
  /\ existsb is_queue_submit
       (drop (length (tr (capture_update_socket e s)))
             (tr (vk_shtex_free (capture_update_socket e s)))) = false.
Proof.
  intros Hc Hor.
  split; [exact (vk_capture_stop_run e queue sc i s Hc Hor)|].
  rewrite vk_shtex_free_run. split; [reflexivity|].
  cbn [tr]. rewrite drop_app_length. apply release_quiet.
Qed.

Lemma capture_stops_without_copy_witness :
  exists s',
    vk_capture env_eof 11 1000 0 st_capturing = Some s'
    /\ capturing (cap s') = false
    /\ tr s' = [EvRecv 4; EvClose 4; EvDestroyImage 50; EvClose 7; EvFreeMemory 60].
Proof.
  destruct (capture_stops_without_copy env_eof 11 1000 0 st_capturing)
    as (Hrun & Hcap & _).
  - reflexivity.
  - left. vm_compute. reflexivity.
  - eexists. split; [exact Hrun|]. split; [exact Hcap|]. vm_compute. reflexivity.
Defined.

(** *** Failed export setup *)

Lemma init_vulkan_tex_trace (e : env) (d : vk_data) (swap : vk_swap_data) (t : trace) :
  exists evs, snd (vk_shtex_init_vulkan_tex e d swap t) = t ++ evs
              /\ existsb is_sendmsg evs = false.
Proof.
  unfold vk_shtex_init_vulkan_tex.
  repeat match goal with
         | |- context [if ?b then _ else _] => destruct b
         end; cbn [snd]; rewrite <- ?app_assoc; eexists; (split; [reflexivity|reflexivity]).
Qed.

(** X17: when the export image cannot be set up (at any of its
    steps), the init statement of [vk_capture] leaves the device invalid,
    with no current swapchain and no export state on any swapchain; the
    swapchains stay tracked, [capture_data] is untouched and nothing is
    sent to the consumer. *)
Theorem failed_export_setup_disables_device (e : env) (sc : Z) (s : st)
    (swap : vk_swap_data) :
  capture_should_init (cap s) = true ->
  get_swap_data (dev s) sc = Some swap ->
  valid_rect swap = true ->
  fst (fst (vk_shtex_init_vulkan_tex e (dev s) swap (tr s))) = false ->
  exists s' evs,
    vk_capture_init e sc s = Some s'
    /\ valid (dev s') = false
    /\ cap s' = cap s
    /\ cur_swap (dev s') = None
    /\ Forall (fun ks => export_cleared (snd ks)) (swaps (dev s'))
    /\ List.map fst (swaps (dev s')) = List.map fst (swaps (dev s))
    /\ tr s' = tr s ++ evs
    /\ existsb is_sendmsg evs = false.
Proof.
  intros Hi Hg Hv Hf.
  unfold vk_capture_init. rewrite Hi, Hg, Hv. unfold vk_shtex_init.
  destruct (init_vulkan_tex_trace e (dev s) swap (tr s)) as (evs & Ht & Hq).
  destruct (vk_shtex_init_vulkan_tex e (dev s) swap (tr s)) as [[ok swap1] t1].
  cbn in Hf, Ht. subst ok t1. cbn [negb].
  set (s1 := set_tr (tr s ++ evs) (set_dev (put_swap sc swap1 (dev s)) s)).
  assert (H1 : tr (vk_shtex_free s1)
               = tr s1 ++ flat_map (fun ks => release_events (snd ks)) (swaps (dev s1)))
    by (rewrite vk_shtex_free_run; reflexivity).
  assert (H4 : cur_swap (dev (vk_shtex_free s1)) = None)
    by (rewrite vk_shtex_free_run; reflexivity).
  assert (H5 : List.map fst (swaps (dev (vk_shtex_free s1)))
               = List.map fst (swaps (dev s1))).
  { rewrite vk_shtex_free_run. cbn. rewrite List.map_map.
    apply List.map_ext. intros [k a]. reflexivity. }
  assert (H6 : Forall (fun ks => export_cleared (snd ks))
                 (swaps (dev (vk_shtex_free s1)))).
  { rewrite vk_shtex_free_run. cbn. apply Forall_forall. intros ks Hin.
    apply in_map_iff in Hin as (x & <- & _). apply clear_export_cleared. }
  exists (set_dev (set_valid false (dev (vk_shtex_free s1))) (vk_shtex_free s1)).
  exists (evs ++ flat_map (fun ks => release_events (snd ks)) (swaps (dev s1))).
  split; [reflexivity|]. cbn.
  split; [reflexivity|].
  split.
  { unfold capture_should_init in Hi. apply andb_prop in Hi as [Hi _].
    rewrite vk_shtex_free_run. unfold s1. cbn.
    destruct (cap s) as [f0 [|]]; [discriminate Hi|reflexivity]. }
  split; [exact H4|]. split; [exact H6|].
  split.
  { rewrite H5. unfold s1. cbn. clear. induction (swaps (dev s)) as [|[k a] l IH];
      [reflexivity|]. cbn. destruct (k =? sc); cbn; [reflexivity|]. rewrite IH. reflexivity. }
  split; [rewrite H1; unfold s1; cbn; rewrite <- app_assoc; reflexivity|].
  rewrite existsb_app, Hq. cbn [orb]. apply release_quiet.
Qed.

Lemma failed_export_setup_disables_device_witness :
  exists s',
    vk_capture_init (with_memtypes 6 [0; 0; 0] env_ok) 1000 st_1 = Some s'
    /\ valid (dev s') = false
    /\ cur_swap (dev s') = None.
Proof.
  destruct (failed_export_setup_disables_device (with_memtypes 6 [0; 0; 0] env_ok)
              1000 st_1 swap_1080p) as (s' & evs & Hrun & Hv & _ & Hc & _).
  - reflexivity.
  - reflexivity.
  - reflexivity.
  - vm_compute. reflexivity.
  - exists s'. split; [exact Hrun|]. split; [exact Hv|exact Hc].
Defined.


Lemma put_obj_data_in {A : Type} (l : list (Z * A)) (k : Z) (a a' : A) :
  get_obj_data l k = Some a -> In (k, a') (put_obj_data l k a').
Proof.
  induction l as [|[k0 a0] l IH]; simpl; [discriminate|].
  destruct (Z.eqb_spec k0 k) as [->|Hne]; intros H.
  - left. reflexivity.
  - right. apply IH. exact H.
Qed.

(** X18: when [vkAllocateMemory] fails during the init statement of
    [vk_capture], the export image that was created is passed to
    [vkDestroyImage] twice: once by [vk_shtex_init_vulkan_tex], which
    leaves the handle in the swapchain data, and once by the
    [vk_shtex_free] that follows; the device ends up invalid. *)
Theorem alloc_failure_destroys_image_twice (e : env) (sc : Z) (s : st)
    (swap : vk_swap_data) (img : Z) :
  capture_should_init (cap s) = true ->
  get_swap_data (dev s) sc = Some swap ->
  valid_rect swap = true ->
  e_CreateImage e = (VK_SUCCESS, img) ->
  img <> VK_NULL_HANDLE ->
  (mem_type_scan (snd (e_memreq e)) (e_memtypes e) (length (e_memtypes e)) 0
   < length (e_memtypes e))%nat ->
  fst (e_AllocateMemory e) <> VK_SUCCESS ->
  exists s' a b c,
    vk_capture_init e sc s = Some s'
    /\ tr s' = tr s ++ a ++ [EvDestroyImage img] ++ b ++ [EvDestroyImage img] ++ c
    /\ valid (dev s') = false.
Proof.
  intros Hi Hg Hv Hci Himg Hscan Hal.
  unfold vk_capture_init. rewrite Hi, Hg, Hv. unfold vk_shtex_init.
  unfold vk_shtex_init_vulkan_tex. rewrite Hci. cbn [fst snd].
  change (VK_SUCCESS =? VK_SUCCESS) with true. cbn [negb].
  replace (_ =? length (e_memtypes e))%nat with false
    by (symmetry; apply Nat.eqb_neq; lia).
  replace (fst (e_AllocateMemory e) =? VK_SUCCESS) with false
    by (symmetry; apply Z.eqb_neq; exact Hal).
  cbn [negb export_image set_export_image set_export_layout set_export_mem].
  match goal with
  | |- context [put_swap sc ?sw _] => set (swap1 := sw)
  end.
  match goal with
  | |- context [set_tr ?t _] => set (t1 := t)
  end.
  set (s1 := set_tr t1 (set_dev (put_swap sc swap1 (dev s)) s)).
  assert (Hin : In (sc, swap1) (swaps (dev s1))).
  { unfold s1. cbn. apply put_obj_data_in with (a := swap). exact Hg. }
  apply in_split in Hin as (l1 & l2 & Hl).
  eexists. exists
    ([EvCreateImage (format swap) (fst (image_extent swap)) (snd (image_extent swap));
      EvGetImageSubresourceLayout img; EvGetImageMemoryRequirements2 img;
      EvGetPhysicalDeviceMemoryProperties (phy_device (dev s));
      EvAllocateMemory (fst (e_memreq e))
        (Z.of_nat (mem_type_scan (snd (e_memreq e)) (e_memtypes e)
                     (length (e_memtypes e)) 0))]).
  exists (flat_map (fun ks => release_events (snd ks)) l1).
  eexists.
  split; [reflexivity|]. split; [|reflexivity].
  cbn [tr set_dev set_tr]. rewrite vk_shtex_free_run. cbn [tr]. rewrite Hl.
  rewrite flat_map_app. cbn [flat_map snd]. unfold release_events at 2.
  change (export_image swap1) with img.
  replace (img =? VK_NULL_HANDLE) with false by (symmetry; apply Z.eqb_neq; exact Himg).
  unfold s1, t1. cbn [tr set_tr set_dev]. rewrite <- !app_assoc. cbn [app].
  reflexivity.
Qed.

Lemma alloc_failure_destroys_image_twice_witness :
  exists s' a b c,
    vk_capture_init env_no_memory 1000 st_1 = Some s'
    /\ tr s' = [] ++ a ++ [EvDestroyImage 50] ++ b ++ [EvDestroyImage 50] ++ c.
Proof.
  destruct (alloc_failure_destroys_image_twice env_no_memory 1000 st_1 swap_1080p 50)
    as (s' & a & b & c & Hrun & Htr & _).
  - reflexivity.
  - reflexivity.
  - reflexivity.
  - reflexivity.
  - discriminate.
  - vm_compute. lia.
  - simpl. discriminate.
  - exists s', a, b, c. split; [exact Hrun|exact Htr].
Defined.

(** *** Frame ring *)

Lemma get_put_queue (d : vk_data) (k : Z) (q q' : vk_queue_data) :
  get_queue_data d k = Some q -> get_queue_data (put_queue k q' d) k = Some q'.
Proof. unfold get_queue_data, put_queue. cbn. apply get_put_same. Qed.

Lemma frames_created_spec (e : env) (n : nat) :
  frames_created e n
  = e_alloc_frames e
    && negb (existsb (fun i => cmd_buffer (set_busy false (e_frame e i)) =? VK_NULL_HANDLE)
                     (seq 0 n)).
Proof.
  unfold frames_created. f_equal.
  induction (seq 0 n) as [|i l IH]; [reflexivity|].
  cbn [forallb existsb cmd_buffer set_busy]. rewrite negb_orb, IH. reflexivity.
Qed.

Lemma create_events_no_submit (fam : Z) (pool : nat -> Z) (l : list nat) :
  forallb (fun ev => negb (is_queue_submit ev))
    (List.concat (List.map (fun i => [EvCreateCommandPool fam;
                                      EvAllocateCommandBuffers (pool i);
                                      EvCreateFence]) l)) = true.
Proof. induction l as [|i l IH]; [reflexivity|]. cbn. exact IH. Qed.

Lemma destroy_events_no_submit (l : list vk_frame_data) :
  forallb (fun ev => negb (is_queue_submit ev)) (flat_map destroy_frame_events l) = true.
Proof.
  apply forallb_flat_map. intros f. unfold destroy_frame_events.
  destruct (cmd_buffer_busy f); reflexivity.
Qed.

(** X19: one [vk_shtex_capture], for a backbuffer index in range and a
    tracked queue whose ring is empty or whose index is in range. The ring
    is rebuilt when it has fewer slots than the swapchain has images; if
    then [vk_alloc] returns no frame array or a slot is left without a
    command buffer, the call writes through a null pointer and has no
    result. In every other case it succeeds and keeps the index in range:
    the ring has as many slots as the larger of its old size and the
    swapchain's image count; the call uses one slot (slot 0 of a rebuilt
    ring), submits exactly once, as its last call, with that slot's command
    buffer and fence, marks the slot busy exactly if the submit succeeded
    and moves the index on by one, cyclically. A busy slot of a reused ring
    is waited for and reset first; a ring that is rebuilt is destroyed
    first. *)
Theorem frame_ring_step (e : env) (sc : Z) (swap : vk_swap_data) (queue : Z)
    (idx : nat) (s : st) (q0 : vk_queue_data) (bb : Z) :
  swap_images swap !! idx = Some bb ->
  get_queue_data (dev s) queue = Some q0 ->
  (0 < image_count swap)%nat ->
  (frames q0 = [] \/ frame_index q0 < frame_count q0)%nat ->
  let regrow := (frame_count q0 <? image_count swap)%nat in
  let fi := if regrow then 0%nat else frame_index q0 in
  if regrow && negb (frames_created e (image_count swap))
  then vk_shtex_capture e sc swap queue idx s = None
  else
    exists s' q' f rest,
      vk_shtex_capture e sc swap queue idx s = Some s'
      /\ get_queue_data (dev s') queue = Some q'
      /\ frame_count q' = Nat.max (frame_count q0) (image_count swap)
      /\ frame_index q' = Nat.modulo (fi + 1) (frame_count q')
      /\ (frame_index q' < frame_count q')%nat
      /\ frames q' !! fi = Some f
      /\ cmd_buffer_busy f = (e_QueueSubmit e =? VK_SUCCESS)
      /\ (regrow = false -> forall j, j <> fi -> frames q' !! j = frames q0 !! j)
      /\ tr s' = tr s ++ rest ++ [EvQueueSubmit queue (cmd_buffer f) (fence f)]
      /\ forallb (fun ev => negb (is_queue_submit ev)) rest = true
      /\ (regrow = false ->
          forall f0, frames q0 !! fi = Some f0 -> cmd_buffer_busy f0 = true ->
          exists rest', rest = [EvWaitForFences (fence f0); EvResetFences (fence f0)] ++ rest')
      /\ (regrow = true ->
          exists rest', rest = flat_map destroy_frame_events (frames q0)
                               ++ (if (0 <? frame_count q0)%nat
                                   then [EvVkFree (FrFrames queue)] else [])
                               ++ rest').
Proof.
  intros Hbb Hq Hn Hring regrow fi.
  unfold vk_shtex_capture. rewrite Hbb, Hq.
  destruct (frame_count q0 <? image_count swap)%nat eqn:Hre; subst regrow fi.
  - (* the ring is rebuilt *)
    apply Nat.ltb_lt in Hre.
    assert (Hd : (if (0 <? frame_count q0)%nat
                  then vk_shtex_destroy_frame_objects queue q0 (tr s)
                  else (q0, tr s))
                 = (set_frames [] q0,
                    tr s ++ flat_map destroy_frame_events (frames q0)
                         ++ (if (0 <? frame_count q0)%nat
                             then [EvVkFree (FrFrames queue)] else []))).
    { destruct (0 <? frame_count q0)%nat eqn:H0.
      - rewrite destroy_frame_objects_trace. unfold destroy_queue_events. reflexivity.
      - apply Nat.ltb_ge in H0. unfold frame_count in H0.
        destruct (frames q0) as [|x l] eqn:Hf; [|simpl in H0; lia].
        cbn. rewrite app_nil_r. destruct q0; cbn in *. subst. reflexivity. }
    rewrite Hd. clear Hd. unfold vk_shtex_create_frame_objects.
    rewrite frames_created_spec.
    destruct (e_alloc_frames e); [|reflexivity].
    destruct (existsb _ (seq 0 (image_count swap))); [reflexivity|].
    cbn [negb andb].
    cbn [frames frame_index set_frames set_frame_index fam_idx].
    destruct (image_count swap) as [|n] eqn:Hic; [lia|].
    cbn [seq List.map lookup list_lookup]. unfold vk_shtex_clear_fence.
    cbn [cmd_buffer_busy set_busy].
    do 3 eexists.
    match goal with
    | |- context [set_tr (((tr s ++ ?d ++ ?v) ++ ?c) ++ ?l) _] =>
        exists (d ++ v ++ c ++ removelast l)
    end.
    split; [reflexivity|].
    split; [apply get_put_queue with (q := q0); exact Hq|].
    split.
    { unfold frame_count. cbn [frames frame_index set_frames set_frame_index].
      rewrite length_insert. cbn [length]. rewrite length_map, length_seq.
      unfold frame_count in Hre. lia. }
    split.
    { unfold frame_count. cbn [frames frame_index set_frames set_frame_index].
      rewrite length_insert. cbn [length]. rewrite length_map, length_seq. reflexivity. }
    split.
    { unfold frame_count. cbn [frames frame_index set_frames set_frame_index].
      rewrite length_insert. cbn [length]. rewrite length_map, length_seq.
      apply Nat.mod_upper_bound. lia. }
    split; [reflexivity|].
    split; [destruct (e_QueueSubmit e =? VK_SUCCESS); reflexivity|].
    split; [discriminate|].
    split.
    { cbn [tr set_tr set_dev removelast]. rewrite <- !app_assoc.
      destruct (e_QueueSubmit e =? VK_SUCCESS); reflexivity. }
    split.
    { rewrite !forallb_app. rewrite destroy_events_no_submit.
      cbn [List.concat]. rewrite !forallb_app.
      rewrite (create_events_no_submit (fam_idx q0)
                 (fun i => cmd_pool (set_busy false (e_frame e i)))).
      destruct (0 <? frame_count q0)%nat; reflexivity. }
    split; [discriminate|].
    intros _. eexists. reflexivity.
  - (* the ring is reused *)
    cbn [andb].
    apply Nat.ltb_ge in Hre.
    assert (Hlt : (frame_index q0 < frame_count q0)%nat).
    { destruct Hring as [He|H]; [|exact H]. unfold frame_count in Hre.
      rewrite He in Hre. simpl in Hre. lia. }
    destruct (frames q0 !! frame_index q0) as [fd0|] eqn:Hfd.
    2:{ apply lookup_ge_None in Hfd. unfold frame_count in Hlt. lia. }
    unfold vk_shtex_clear_fence.
    destruct (cmd_buffer_busy fd0) eqn:Hb.
    + do 3 eexists.
      match goal with
      | |- context [set_tr ((tr s ++ ?c) ++ ?l) _] => exists (c ++ removelast l)
      end.
      split; [reflexivity|].
      split; [apply get_put_queue with (q := q0); exact Hq|].
      split.
      { unfold frame_count in *. cbn [frames frame_index set_frames set_frame_index].
        rewrite length_insert. lia. }
      split.
      { unfold frame_count. cbn [frames frame_index set_frames set_frame_index].
        rewrite length_insert. reflexivity. }
      split.
      { unfold frame_count in *. cbn [frames frame_index set_frames set_frame_index].
        rewrite length_insert. apply Nat.mod_upper_bound. lia. }
      split; [cbn; apply list_lookup_insert_eq; exact Hlt|].
      split; [destruct (e_QueueSubmit e =? VK_SUCCESS); reflexivity|].
      split; [intros _ j Hj; cbn; apply list_lookup_insert_ne; congruence|].
      split.
      { cbn [tr set_tr set_dev removelast]. rewrite <- !app_assoc.
        destruct (e_QueueSubmit e =? VK_SUCCESS); reflexivity. }
      split; [reflexivity|].
      split; [|discriminate].
      intros _ f0 Hf0 Hb0. injection Hf0 as <-. eexists. reflexivity.
    + do 3 eexists.
      match goal with
      | |- context [set_tr (tr s ++ ?l) _] => exists (removelast l)
      end.
      split; [reflexivity|].
      split; [apply get_put_queue with (q := q0); exact Hq|].
      split.
      { unfold frame_count in *. cbn [frames frame_index set_frames set_frame_index].
        rewrite length_insert. lia. }
      split.
      { unfold frame_count. cbn [frames frame_index set_frames set_frame_index].
        rewrite length_insert. reflexivity. }
      split.
      { unfold frame_count in *. cbn [frames frame_index set_frames set_frame_index].
        rewrite length_insert. apply Nat.mod_upper_bound. lia. }
      split; [cbn; apply list_lookup_insert_eq; exact Hlt|].
      split; [destruct (e_QueueSubmit e =? VK_SUCCESS); [reflexivity|exact Hb]|].
      split; [intros _ j Hj; cbn; apply list_lookup_insert_ne; congruence|].
      split.
      { cbn [tr set_tr set_dev removelast].
        destruct (e_QueueSubmit e =? VK_SUCCESS); reflexivity. }
      split; [reflexivity|].
      split; [|discriminate].
      intros _ f0 Hf0 Hb0. congruence.
Qed.

(** The first capture on the sample device builds a ring of three slots,
    uses slot 0 and leaves the index at 1. *)
Lemma frame_ring_step_witness :
  exists s' q' f,
    vk_shtex_capture env_ok 1000 swap_exported 11 0 st_1 = Some s'
    /\ get_queue_data (dev s') 11 = Some q'
    /\ frame_count q' = 3%nat
    /\ frame_index q' = 1%nat
    /\ frames q' !! 0%nat = Some f
    /\ cmd_buffer_busy f = true.
Proof.
  assert (H := frame_ring_step env_ok 1000 swap_exported 11 0 st_1 fresh_queue 101
                 eq_refl eq_refl).
  cbv zeta in H.
  change ((frame_count fresh_queue <? image_count swap_exported)%nat
          && negb (frames_created env_ok (image_count swap_exported)))
    with false in H.
  cbv iota in H.
  destruct H as (s' & q' & f & rest & Hrun & Hq & Hcount & Hidx & _ & Hf & Hbusy & _).
  - simpl. lia.
  - left. reflexivity.
  - exists s', q', f. split; [exact Hrun|]. split; [exact Hq|].
    split; [rewrite Hcount; reflexivity|].
    split; [rewrite Hidx, Hcount; reflexivity|].
    split; [exact Hf|]. rewrite Hbusy. reflexivity.
Defined.


(** *** Entry points *)

(** X20: on a device marked invalid the four device entry points
    only forward: present, swapchain creation (with the caller's usage
    flags) and swapchain destruction call the next layer and change none
    of the layer's data, and [OBS_DestroyDevice] frees the device data
    without walking queues. *)
Theorem invalid_device_is_passed_through (queue dv : handle) (w : world)
    (data : vk_data) :
  get_obj_data (devices w) (h_ldt dv) = Some data ->
  h_ldt queue = h_ldt dv ->
  valid data = false ->
  (forall e sc i,
     OBS_QueuePresentKHR e queue sc i w
     = Some (e_QueuePresentKHR e, w_emit [EvNextQueuePresentKHR (h_val queue)] w))
  /\ (forall e cinfo,
        OBS_CreateSwapchainKHR e dv cinfo w
        = Some (fst (e_CreateSwapchainKHR e (imageUsage cinfo)),
                w_emit [EvNextCreateSwapchainKHR (imageUsage cinfo)] w))
  /\ (forall sc,
        OBS_DestroySwapchainKHR dv sc w
        = Some (w_emit [EvNextDestroySwapchainKHR sc] w))
  /\ OBS_DestroyDevice dv w
     = Some (w_emit [EvVkFree (FrDevice (h_ldt dv)); EvNextDestroyDevice (h_val dv)]
               (set_devices (remove_obj_data (devices w) (h_ldt dv)) w)).
Proof.
  intros Hg Hq Hv. split; [|split; [|split]].
  - intros e sc i. unfold OBS_QueuePresentKHR. rewrite Hq, Hg, Hv. reflexivity.
  - intros e cinfo. unfold OBS_CreateSwapchainKHR. rewrite Hg, Hv. reflexivity.
  - intros sc. unfold OBS_DestroySwapchainKHR. rewrite Hg, Hv, andb_false_r. reflexivity.
  - unfold OBS_DestroyDevice. rewrite Hg, Hv. reflexivity.
Qed.

Lemma invalid_device_is_passed_through_witness :
  OBS_QueuePresentKHR env_ok queue_handle_1 1000 0 world_invalid
  = Some (VK_SUCCESS, w_emit [EvNextQueuePresentKHR 11] world_invalid).
Proof.
  destruct (invalid_device_is_passed_through queue_handle_1 dev_handle_1
              world_invalid (set_valid false device_1)) as (Hp & _).
  - reflexivity.
  - reflexivity.
  - reflexivity.
  - exact (Hp env_ok 1000 0%nat).
Defined.

Lemma testbit_lor_1 (a n : Z) :
  0 <= n -> Z.testbit (Z.lor a 1) n = Z.testbit a n || (n =? 0).
Proof.
  intros Hn. rewrite Z.lor_spec. destruct n; reflexivity.
Qed.

(** X21: when the next layer creates the swapchain and the
    bookkeeping succeeds, the swapchain is tracked under the returned
    handle, in the block [vk_alloc] returned, with the caller's extent and
    format and no export state; other
    swapchains, the current swapchain, the queues and [capture_data] are
    unchanged, and the usage the next layer saw is the caller's with the
    TRANSFER_SRC bit added. *)
Theorem create_swapchain_records (e : env) (dv : handle)
    (cinfo : VkSwapchainCreateInfoKHR) (w : world) (data : vk_data) (sc : Z)
    (count : nat) :
  get_obj_data (devices w) (h_ldt dv) = Some data ->
  valid data = true ->
  e_CreateSwapchainKHR e (Z.lor (imageUsage cinfo) VK_IMAGE_USAGE_TRANSFER_SRC_BIT)
    = (VK_SUCCESS, sc) ->
  e_GetSwapchainImagesKHR e = (VK_SUCCESS, count) ->
  (0 < count)%nat ->
  e_alloc_swap_data e = true ->
  exists w' data' usage,
    OBS_CreateSwapchainKHR e dv cinfo w = Some (VK_SUCCESS, w')
    /\ get_obj_data (devices w') (h_ldt dv) = Some data'
    /\ get_swap_data data' sc
       = Some {| swap_node := e_swap_node e;
                 image_extent := imageExtent cinfo; format := imageFormat cinfo;
                 export_image := VK_NULL_HANDLE; export_mem := VK_NULL_HANDLE;
                 export_layout := e_garbage_layout e;
                 swap_images := snd (e_swap_images e);
                 image_count := fst (e_swap_images e);
                 dmabuf_fd := -1; captured := false |}
    /\ (forall k, k <> sc -> get_swap_data data' k = get_swap_data data k)
    /\ cur_swap data' = cur_swap data
    /\ queues data' = queues data
    /\ valid data' = true
    /\ w_cap w' = w_cap w
    /\ w_tr w' = w_tr w ++ [EvNextCreateSwapchainKHR usage;
                            EvGetSwapchainImagesKHR sc; EvGetSwapchainImagesKHR sc]
    /\ (forall n, 0 <= n ->
        Z.testbit usage n = Z.testbit (imageUsage cinfo) n || (n =? 0)).
Proof.
  intros Hg Hv Hc Hq Hn Ha.
  unfold OBS_CreateSwapchainKHR. rewrite Hg, Hv, Hc, Hq, Ha. cbn [negb fst snd].
  change (VK_SUCCESS =? VK_SUCCESS) with true. cbn [negb andb].
  replace (0 <? count)%nat with true by (symmetry; apply Nat.ltb_lt; exact Hn).
  do 3 eexists. split; [reflexivity|].
  split; [cbn; apply get_put_same with (a := data); exact Hg|].
  split; [unfold get_swap_data; cbn; rewrite Z.eqb_refl; reflexivity|].
  split.
  { intros k Hk. unfold get_swap_data. cbn.
    replace (sc =? k) with false by (symmetry; apply Z.eqb_neq; congruence).
    reflexivity. }
  split; [reflexivity|]. split; [reflexivity|]. split; [exact Hv|].
  split; [reflexivity|].
  split; [cbn; rewrite <- !app_assoc; reflexivity|].
  intros n H0. apply testbit_lor_1. exact H0.
Qed.

Lemma create_swapchain_records_witness :
  exists w' data',
    OBS_CreateSwapchainKHR env_ok dev_handle_1 cinfo_720p world_1
    = Some (VK_SUCCESS, w')
    /\ get_obj_data (devices w') 100 = Some data'
    /\ option_map image_extent (get_swap_data data' 1000) = Some (1280, 720).
Proof.
  destruct (create_swapchain_records env_ok dev_handle_1 cinfo_720p world_1
              device_1 1000 3)
    as (w' & data' & usage & Hrun & Hd & Hs & _).
  - reflexivity.
  - reflexivity.
  - reflexivity.
  - reflexivity.
  - lia.
  - reflexivity.
  - exists w', data'. split; [exact Hrun|]. split; [exact Hd|].
    rewrite Hs. reflexivity.
Defined.

Lemma put_put_id {A : Type} (l : list (Z * A)) (k : Z) (a a' : A) :
  get_obj_data l k = Some a -> put_obj_data (put_obj_data l k a') k a = l.
Proof.
  induction l as [|[k0 a0] l IH]; simpl; [reflexivity|].
  destruct (Z.eqb_spec k0 k) as [->|Hne]; intros H; simpl.
  - rewrite Z.eqb_refl. congruence.
  - apply Z.eqb_neq in Hne. rewrite Hne. rewrite IH by exact H. reflexivity.
Qed.

(** X22: creating a swapchain and destroying it again, while
    another (or no) swapchain is current ([cur_swap] does not point to the
    block [vk_alloc] returns for the new one), gives back the device list,
    [capture_data] and the limiter of before, and frees exactly the image
    array and the swapchain data that were allocated. *)
Theorem create_destroy_swapchain_round_trip (e : env) (dv : handle)
    (cinfo : VkSwapchainCreateInfoKHR) (w : world) (data : vk_data) (sc : Z)
    (count : nat) :
  get_obj_data (devices w) (h_ldt dv) = Some data ->
  valid data = true ->
  e_CreateSwapchainKHR e (Z.lor (imageUsage cinfo) VK_IMAGE_USAGE_TRANSFER_SRC_BIT)
    = (VK_SUCCESS, sc) ->
  e_GetSwapchainImagesKHR e = (VK_SUCCESS, count) ->
  (0 < count)%nat ->
  e_alloc_swap_data e = true ->
  sc <> VK_NULL_HANDLE ->
  cur_swap data <> Some (e_swap_node e) ->
  exists w1 w2 evs,
    OBS_CreateSwapchainKHR e dv cinfo w = Some (VK_SUCCESS, w1)
    /\ OBS_DestroySwapchainKHR dv sc w1 = Some w2
    /\ devices w2 = devices w
    /\ w_cap w2 = w_cap w
    /\ w_limiter w2 = w_limiter w
    /\ w_tr w2 = w_tr w ++ evs
    /\ List.map (fun ev => match ev with EvVkFree x => Some x | _ => None end)
         (List.filter (fun ev => match ev with EvVkFree _ => true | _ => false end) evs)
       = [Some (FrSwapImages sc); Some (FrSwap sc)].
Proof.
  intros Hg Hv Hc Hq Hn Ha Hsc Hcur.
  unfold OBS_CreateSwapchainKHR. rewrite Hg, Hv, Hc, Hq, Ha. cbn [negb fst snd].
  change (VK_SUCCESS =? VK_SUCCESS) with true. cbn [negb andb].
  replace (0 <? count)%nat with true by (symmetry; apply Nat.ltb_lt; exact Hn).
  do 3 eexists. split; [reflexivity|].
  unfold OBS_DestroySwapchainKHR. cbn [devices w_emit set_devices].
  rewrite (get_put_same _ _ data _ Hg).
  replace (sc =? VK_NULL_HANDLE) with false by (symmetry; apply Z.eqb_neq; exact Hsc).
  cbn [negb andb valid set_swaps]. rewrite Hv.
  unfold get_swap_data. cbn [swaps set_swaps add_obj_data get_obj_data].
  rewrite Z.eqb_refl. cbn [cur_swap set_swaps swap_node].
  replace (option_Z_eqb (cur_swap data) (Some (e_swap_node e))) with false.
  2:{ symmetry. destruct (cur_swap data) as [c|]; [|reflexivity]. cbn.
      apply Z.eqb_neq. congruence. }
  split; [reflexivity|].
  cbn. rewrite Z.eqb_refl.
  split.
  { match goal with
    | |- put_obj_data (put_obj_data _ _ _) _ ?d = _ =>
        replace d with data by (destruct data; reflexivity)
    end.
    apply put_put_id. exact Hg. }
  split; [reflexivity|]. split; [reflexivity|].
  split; [rewrite <- !app_assoc; reflexivity|]. reflexivity.
Qed.

Lemma create_destroy_swapchain_round_trip_witness :
  exists w1 w2,
    OBS_CreateSwapchainKHR env_ok dev_handle_1 cinfo_720p world_1
    = Some (VK_SUCCESS, w1)
    /\ OBS_DestroySwapchainKHR dev_handle_1 1000 w1 = Some w2
    /\ devices w2 = devices world_1.
Proof.
  destruct (create_destroy_swapchain_round_trip env_ok dev_handle_1 cinfo_720p
              world_1 device_1 1000 3)
    as (w1 & w2 & evs & H1 & H2 & H3 & _).
  - reflexivity.
  - reflexivity.
  - reflexivity.
  - reflexivity.
  - lia.
  - reflexivity.
  - discriminate.
  - discriminate.
  - exists w1, w2. split; [exact H1|]. split; [exact H2|exact H3].
Defined.

(** X23: destroying a tracked swapchain on a valid device removes
    it from the device. If it is the current one ([cur_swap] points to its
    data), the export is torn down first (capture off, every swapchain
    without export state); otherwise [capture_data], the current swapchain
    and the other swapchains are left as they are. *)
Theorem destroy_swapchain_stops_its_export (dv : handle) (sc : Z) (w : world)
    (data : vk_data) (swap : vk_swap_data) :
  get_obj_data (devices w) (h_ldt dv) = Some data ->
  valid data = true ->
  sc <> VK_NULL_HANDLE ->
  get_swap_data data sc = Some swap ->
  exists w' data',
    OBS_DestroySwapchainKHR dv sc w = Some w'
    /\ get_obj_data (devices w') (h_ldt dv) = Some data'
    /\ List.map fst (swaps data') = List.map fst (remove_obj_data (swaps data) sc)
    /\ (forall k, k <> sc -> cur_swap data <> Some (swap_node swap) ->
        get_swap_data data' k = get_swap_data data k)
    /\ (cur_swap data = Some (swap_node swap) ->
        capturing (w_cap w') = false /\ cur_swap data' = None
        /\ Forall (fun ks => export_cleared (snd ks)) (swaps data')
        /\ w_tr w' = w_tr w
                     ++ flat_map (fun ks => release_events (snd ks)) (swaps data)
                     ++ [EvVkFree (FrSwapImages sc); EvVkFree (FrSwap sc);
                         EvNextDestroySwapchainKHR sc])
    /\ (cur_swap data <> Some (swap_node swap) ->
        w_cap w' = w_cap w /\ cur_swap data' = cur_swap data
        /\ swaps data' = remove_obj_data (swaps data) sc
        /\ w_tr w' = w_tr w ++ [EvVkFree (FrSwapImages sc); EvVkFree (FrSwap sc);
                                EvNextDestroySwapchainKHR sc]).
Proof.
  intros Hg Hv Hsc Hs.
  unfold OBS_DestroySwapchainKHR. rewrite Hg, Hv, Hs.
  replace (sc =? VK_NULL_HANDLE) with false by (symmetry; apply Z.eqb_neq; exact Hsc).
  cbn [negb andb].
  destruct (option_Z_eqb (cur_swap data) (Some (swap_node swap))) eqn:Hcur.
  - assert (Hc : cur_swap data = Some (swap_node swap)).
    { destruct (cur_swap data) as [c|]; [|discriminate]. cbn in Hcur.
      apply Z.eqb_eq in Hcur. congruence. }
    rewrite vk_shtex_free_run.
    do 2 eexists. split; [reflexivity|].
    split; [cbn; apply get_put_same with (a := data); exact Hg|].
    split.
    { cbn. clear. induction (swaps data) as [|[k a] l IH]; simpl; [reflexivity|].
      destruct (k =? sc).
      - rewrite List.map_map. apply List.map_ext. intros [k0 a0]. reflexivity.
      - simpl. rewrite IH. reflexivity. }
    split; [intros k _ Hn; congruence|].
    split; [|intros Hn; congruence].
    intros _. split; [reflexivity|]. split; [reflexivity|].
    split.
    { cbn. clear. induction (swaps data) as [|[k a] l IH]; simpl; [constructor|].
      destruct (k =? sc).
      - apply Forall_forall. intros ks Hin. apply in_map_iff in Hin as (x & <- & _).
        apply clear_export_cleared.
      - constructor; [apply clear_export_cleared|exact IH]. }
    cbn. rewrite <- !app_assoc. reflexivity.
  - assert (Hc : cur_swap data <> Some (swap_node swap)).
    { intros E. rewrite E in Hcur. cbn in Hcur. rewrite Z.eqb_refl in Hcur. discriminate. }
    do 2 eexists. split; [reflexivity|].
    split; [cbn; apply get_put_same with (a := data); exact Hg|].
    split; [reflexivity|].
    split.
    { intros k Hk _. unfold get_swap_data. cbn. apply get_remove_other. congruence. }
    split; [intros E; congruence|].
    intros _. split; [reflexivity|]. split; [reflexivity|]. split; [reflexivity|].
    cbn. rewrite <- !app_assoc. reflexivity.
Qed.

Lemma destroy_swapchain_stops_its_export_witness :
  exists w',
    OBS_DestroySwapchainKHR dev_handle_1 1000 world_capturing = Some w'
    /\ capturing (w_cap w') = false
    /\ w_tr w' = [EvDestroyImage 50; EvClose 7; EvFreeMemory 60;
                  EvVkFree (FrSwapImages 1000); EvVkFree (FrSwap 1000);
                  EvNextDestroySwapchainKHR 1000].
Proof.
  destruct (destroy_swapchain_stops_its_export dev_handle_1 1000 world_capturing
              device_capturing swap_captured)
    as (w' & data' & Hrun & _ & _ & _ & Hcur & _).
  - reflexivity.
  - reflexivity.
  - discriminate.
  - reflexivity.
  - destruct Hcur as (Hc & _ & _ & Htr); [reflexivity|].
    exists w'. split; [exact Hrun|]. split; [exact Hc|exact Htr].
Defined.


(** X24: [OBS_CreateSwapchainKHR] returns for every known device,
    and it tracks a swapchain only if the device is valid and the next
    layer created that swapchain with the TRANSFER_SRC bit added. When
    that creation fails, the result is the one of the retry with the
    caller's flags and nothing is tracked, even if the retry
    succeeds. *)
Theorem swapchain_tracked_only_with_transfer_src (e : env) (dv : handle)
    (cinfo : VkSwapchainCreateInfoKHR) (w : world) (data : vk_data) :
  get_obj_data (devices w) (h_ldt dv) = Some data ->
  exists r w' data',
    OBS_CreateSwapchainKHR e dv cinfo w = Some (r, w')
    /\ get_obj_data (devices w') (h_ldt dv) = Some data'
    /\ (fst (e_CreateSwapchainKHR e
               (Z.lor (imageUsage cinfo) VK_IMAGE_USAGE_TRANSFER_SRC_BIT)) <> VK_SUCCESS
        -> valid data = true
        -> r = fst (e_CreateSwapchainKHR e (imageUsage cinfo))
           /\ w' = w_emit [EvNextCreateSwapchainKHR
                             (Z.lor (imageUsage cinfo) VK_IMAGE_USAGE_TRANSFER_SRC_BIT);
                           EvNextCreateSwapchainKHR (imageUsage cinfo)] w)
    /\ forall sc, get_swap_data data' sc <> get_swap_data data sc ->
                  valid data = true /\ r = VK_SUCCESS
                  /\ e_CreateSwapchainKHR e
                       (Z.lor (imageUsage cinfo) VK_IMAGE_USAGE_TRANSFER_SRC_BIT)
                     = (VK_SUCCESS, sc).
Proof.
  intros Hg. unfold OBS_CreateSwapchainKHR. rewrite Hg.
  destruct (valid data) eqn:Hv; cbn [negb].
  2:{ do 3 eexists. split; [reflexivity|]. split; [exact Hg|].
      split; [discriminate|]. intros sc H. congruence. }
  set (usage := Z.lor (imageUsage cinfo) VK_IMAGE_USAGE_TRANSFER_SRC_BIT).
  destruct (e_CreateSwapchainKHR e usage) as [res sc0] eqn:Hc. cbn [fst snd].
  destruct (Z.eqb_spec res VK_SUCCESS) as [->|Hres]; cbn [negb].
  2:{ do 3 eexists. split; [reflexivity|]. split; [exact Hg|].
      split.
      - intros _ _. split; [reflexivity|]. unfold w_emit. cbn.
        rewrite <- app_assoc. reflexivity.
      - intros sc H. congruence. }
  destruct (e_GetSwapchainImagesKHR e) as [res2 count].
  destruct ((res2 =? VK_SUCCESS) && (0 <? count)%nat).
  2:{ do 3 eexists. split; [reflexivity|]. split; [exact Hg|].
      split; [congruence|]. intros sc H. congruence. }
  destruct (e_alloc_swap_data e).
  2:{ do 3 eexists. split; [reflexivity|]. split; [exact Hg|].
      split; [congruence|]. intros sc H. congruence. }
  do 3 eexists. split; [reflexivity|].
  split; [cbn; apply get_put_same with (a := data); exact Hg|].
  split; [congruence|].
  intros sc H. split; [reflexivity|]. split; [reflexivity|].
  destruct (Z.eq_dec sc0 sc) as [->|Hne]; [reflexivity|].
  exfalso. apply H. unfold get_swap_data. cbn.
  apply Z.eqb_neq in Hne. rewrite Hne. reflexivity.
Qed.

Lemma swapchain_tracked_only_with_transfer_src_witness :
  exists r w' data',
    OBS_CreateSwapchainKHR
      (with_swapchain_answers (-1, 0%nat) true env_ok) dev_handle_1 cinfo_720p world_1
    = Some (r, w')
    /\ get_obj_data (devices w') 100 = Some data'
    /\ get_swap_data data' 2000 = None.
Proof.
  destruct (swapchain_tracked_only_with_transfer_src
              (with_swapchain_answers (-1, 0%nat) true env_ok)
              dev_handle_1 cinfo_720p world_1 device_1)
    as (r & w' & data' & Hrun & Hd & _ & Honly).
  - reflexivity.
  - exists r, w', data'. split; [exact Hrun|]. split; [exact Hd|].
    destruct (get_swap_data data' 2000) as [x|] eqn:E; [|reflexivity].
    destruct (Honly 2000) as (_ & _ & Hc).
    + rewrite E. discriminate.
    + discriminate Hc.
Defined.

(** X25: presenting a swapchain the device does not track. Without
    a connection nothing happens beyond the socket update; with an export
    running it is torn down; but idle with a connection the code reads
    the extent through the NULL pointer [get_swap_data] returned, so the
    call has no defined result. *)
Theorem present_untracked_swapchain (e : env) (queue sc : Z) (i : nat) (s : st) :
  get_swap_data (dev s) sc = None ->
  let s1 := capture_update_socket e s in
  (capturing (cap s) = false -> connfd (cap s1) < 0 ->
   vk_capture e queue sc i s = Some s1)
  /\ (capturing (cap s) = false -> 0 <= connfd (cap s1) ->
      vk_capture e queue sc i s = None)
  /\ (capturing (cap s) = true -> cur_swap (dev s) <> None ->
      vk_capture e queue sc i s = Some (vk_shtex_free s1)).
Proof.
  intros Hg s1.
  destruct (update_socket_keeps e s) as [Hd Hk]. fold s1 in Hd, Hk.
  split; [|split].
  - intros Hc Hn. unfold vk_capture. fold s1.
    unfold capture_should_stop, vk_capture_init, capture_should_init, capture_ready.
    rewrite Hk, Hc. cbn [andb negb].
    replace (0 <=? connfd (cap s1)) with false by (symmetry; apply Z.leb_gt; exact Hn).
    rewrite Hk, Hc. change (negb false && false) with false. cbv beta iota.
    rewrite Hk, Hc. reflexivity.
  - intros Hc Hn. unfold vk_capture. fold s1.
    unfold capture_should_stop, vk_capture_init, capture_should_init.
    rewrite Hk, Hc. cbn [andb negb].
    replace (0 <=? connfd (cap s1)) with true by (symmetry; apply Z.leb_le; exact Hn).
    rewrite Hk, Hc. change (negb false && true) with true. cbv beta iota.
    rewrite Hd, Hg. reflexivity.
  - intros Hc Hcur.
    apply (vk_capture_stop_run e queue sc i s Hc).
    right. unfold swap_ptr. rewrite Hg. congruence.
Qed.

Lemma present_untracked_swapchain_witness :
  vk_capture env_ok 11 2000 0 st_1 = None
  /\ vk_capture env_ok 11 2000 0 st_capturing
     = Some (vk_shtex_free (capture_update_socket env_ok st_capturing)).
Proof.
  destruct (present_untracked_swapchain env_ok 11 2000 0 st_1) as (_ & Hnone & _).
  - reflexivity.
  - destruct (present_untracked_swapchain env_ok 11 2000 0 st_capturing)
      as (_ & _ & Hstop).
    + reflexivity.
    + split.
      * apply Hnone; [reflexivity|]. vm_compute. discriminate.
      * apply Hstop; [reflexivity|]. discriminate.
Defined.

End LayerExtra.

(** * Properties of the loader interface *)

Module LoaderProofs.
Import Layer LayerSpec Loader LoaderSpec LayerProofs.
Import String.StringSyntax.
Local Open Scope string_scope.

(** X26: [OBS_Negotiate] always succeeds. The interface version
    becomes the smaller of the loader's and 2; the hooks are written only
    for a loader of version 2 or more, and below that the structure is
    left as it was. The static data is initialised on the first call only:
    a later call leaves instances, devices and [capture_data] alone. *)
Theorem negotiate_clamps_and_inits_once (nli : VkNegotiateLayerInterface)
    (p : process) :
  let r := OBS_Negotiate nli p in
  let nli' := snd (fst r) in
  let p' := snd r in
  fst (fst r) = VK_SUCCESS
  /\ loaderLayerInterfaceVersion nli'
     = Z.min (loaderLayerInterfaceVersion nli) CURRENT_LOADER_LAYER_INTERFACE_VERSION
  /\ (loaderLayerInterfaceVersion nli < 2 -> nli' = nli)
  /\ (2 <= loaderLayerInterfaceVersion nli ->
      pfnGetInstanceProcAddr nli' = OBS GetInstanceProcAddr
      /\ pfnGetDeviceProcAddr nli' = OBS GetDeviceProcAddr
      /\ pfnGetPhysicalDeviceProcAddr nli' = Ptr 0)
  /\ vulkan_seen p' = true
  /\ (vulkan_seen p = false ->
      instances p' = [] /\ p_devices p' = [] /\ capture_data p' = capture_init)
  /\ (vulkan_seen p = true -> p' = p)
  /\ forall nli2, snd (OBS_Negotiate nli2 p') = p'.
Proof.
  unfold OBS_Negotiate, CURRENT_LOADER_LAYER_INTERFACE_VERSION. cbn zeta.
  split; [reflexivity|].
  split.
  { destruct (Z.leb_spec 2 (loaderLayerInterfaceVersion nli)) as [H|H]; cbn.
    - destruct (Z.ltb_spec 2 (loaderLayerInterfaceVersion nli)); cbn; lia.
    - destruct (Z.ltb_spec 2 (loaderLayerInterfaceVersion nli)); cbn; lia. }
  split.
  { intros H.
    replace (2 <=? loaderLayerInterfaceVersion nli) with false
      by (symmetry; apply Z.leb_gt; exact H).
    replace (2 <? loaderLayerInterfaceVersion nli) with false
      by (symmetry; apply Z.ltb_ge; lia).
    reflexivity. }
  split.
  { intros H.
    replace (2 <=? loaderLayerInterfaceVersion nli) with true
      by (symmetry; apply Z.leb_le; exact H).
    cbn. destruct (2 <? loaderLayerInterfaceVersion nli); cbn; repeat split. }
  split; [destruct (vulkan_seen p) eqn:E; cbn; [exact E|reflexivity]|].
  split; [intros ->; cbn; repeat split|].
  split; [intros ->; reflexivity|].
  intros nli2. destruct (vulkan_seen p) eqn:E; cbn; [rewrite E|]; reflexivity.
Qed.

Lemma negotiate_clamps_and_inits_once_witness :
  loaderLayerInterfaceVersion (snd (fst (OBS_Negotiate negotiate_v5 process_start))) = 2
  /\ pfnGetInstanceProcAddr (snd (fst (OBS_Negotiate negotiate_v5 process_start)))
     = OBS GetInstanceProcAddr
  /\ capture_data (snd (OBS_Negotiate negotiate_v5 process_start)) = capture_init
  /\ snd (OBS_Negotiate negotiate_v5 process_instance) = process_instance.
Proof.
  destruct (negotiate_clamps_and_inits_once negotiate_v5 process_start)
    as (_ & Hv & _ & Hhooks & _ & Hinit & _).
  destruct (negotiate_clamps_and_inits_once negotiate_v5 process_instance)
    as (_ & _ & _ & _ & _ & _ & Hkeep & _).
  split; [rewrite Hv; reflexivity|].
  split; [apply Hhooks; simpl; lia|].
  split; [apply Hinit; reflexivity|].
  apply Hkeep. reflexivity.
Defined.

(** X27: the two lookup functions hand out the layer's own functions
    only under their own names. [OBS_GetInstanceProcAddr] does so for its
    six names and any instance, also NULL; another name with a NULL
    instance gives NULL. [OBS_GetDeviceProcAddr] hooks the swapchain and
    present functions only if the next layer has them, and leaves every
    other name to the next layer. *)
Theorem proc_addr_hooks (next : String.string -> Z) (pName : String.string)
    (p : process) :
  (forall instance h,
     OBS_GetInstanceProcAddr next instance pName p = Some (OBS h) ->
     pName = hook_name h /\ In pName intercepted_instance_names)
  /\ (In pName intercepted_instance_names ->
      forall instance, exists h,
        OBS_GetInstanceProcAddr next instance pName p = Some (OBS h))
  /\ (~ In pName intercepted_instance_names ->
      OBS_GetInstanceProcAddr next None pName p = Some (Ptr 0))
  /\ (forall device d,
        get_obj_data (p_devices p) (h_ldt device) = Some d ->
        exists r,
          OBS_GetDeviceProcAddr next device pName p = Some r
          /\ (forall h, r = OBS h ->
                pName = hook_name h /\ In pName intercepted_device_names
                /\ (h = GetDeviceProcAddr \/ h = DestroyDevice \/ d_funcs d pName <> 0))
          /\ (~ In pName intercepted_device_names ->
              r = Ptr (if d_funcs d "vkGetDeviceProcAddr" =? 0 then 0 else next pName))).
Proof.
  split; [|split; [|split]].
  - intros instance h. unfold OBS_GetInstanceProcAddr.
    repeat match goal with
           | |- context [String.eqb pName ?s] =>
               destruct (String.eqb_spec pName s) as [->|?]
           end;
      try (intros H; injection H as <-; split; [reflexivity|cbn; tauto]).
    destruct instance as [inst|]; [|discriminate].
    destruct (get_obj_data (instances p) (h_ldt inst)) as [idata|]; [|discriminate].
    destruct (f_GetInstanceProcAddr (inst_funcs idata) =? 0); discriminate.
  - intros Hin instance. unfold OBS_GetInstanceProcAddr.
    cbn in Hin. destruct Hin as [<-|[<-|[<-|[<-|[<-|[<-|[]]]]]]]; cbn; eexists; reflexivity.
  - intros Hn. unfold OBS_GetInstanceProcAddr.
    repeat match goal with
           | |- context [String.eqb pName ?s] =>
               destruct (String.eqb_spec pName s) as [->|?]
           end; try reflexivity; exfalso; apply Hn; cbn; tauto.
  - intros device d Hg. unfold OBS_GetDeviceProcAddr. rewrite Hg.
    repeat match goal with
           | |- context [String.eqb pName ?s] =>
               destruct (String.eqb_spec pName s) as [->|?]
           end.
    + eexists. split; [reflexivity|]. split.
      * intros h H. injection H as <-. cbn. tauto.
      * intros Hn. exfalso. apply Hn. cbn. tauto.
    + eexists. split; [reflexivity|]. split.
      * intros h H. injection H as <-. cbn. tauto.
      * intros Hn. exfalso. apply Hn. cbn. tauto.
    + eexists. split; [reflexivity|]. split.
      * intros h H. destruct (Z.eqb_spec (d_funcs d "vkCreateSwapchainKHR") 0);
          [discriminate|]. injection H as <-. cbn. tauto.
      * intros Hn. exfalso. apply Hn. cbn. tauto.
    + eexists. split; [reflexivity|]. split.
      * intros h H. destruct (Z.eqb_spec (d_funcs d "vkDestroySwapchainKHR") 0);
          [discriminate|]. injection H as <-. cbn. tauto.
      * intros Hn. exfalso. apply Hn. cbn. tauto.
    + eexists. split; [reflexivity|]. split.
      * intros h H. destruct (Z.eqb_spec (d_funcs d "vkQueuePresentKHR") 0);
          [discriminate|]. injection H as <-. cbn. tauto.
      * intros Hn. exfalso. apply Hn. cbn. tauto.
    + destruct (d_funcs d "vkGetDeviceProcAddr" =? 0);
        (eexists; split; [reflexivity|]; split; [discriminate|reflexivity]).
Qed.

Lemma proc_addr_hooks_witness :
  (exists h, OBS_GetInstanceProcAddr (fun _ => 7300) None "vkCreateDevice"
               process_start = Some (OBS h))
  /\ OBS_GetInstanceProcAddr (fun _ => 7300) None "vkCreateImage" process_start
     = Some (Ptr 0).
Proof.
  destruct (proc_addr_hooks (fun _ => 7300) "vkCreateDevice" process_start)
    as (_ & Hown & _).
  destruct (proc_addr_hooks (fun _ => 7300) "vkCreateImage" process_start)
    as (_ & _ & Hnull & _).
  split.
  - apply Hown. simpl. tauto.
  - apply Hnull. simpl. intros [H|[H|[H|[H|[H|[H|[]]]]]]]; discriminate.
Defined.


(** *** Link info *)

Lemma find_link_info_spec (f : chain_entry -> bool) (chain : list chain_entry) :
  forall k i, find_link_info f chain k = Some i ->
    (k <= i)%nat
    /\ (exists lici, chain !! (i - k)%nat = Some lici /\ f lici = true)
    /\ (forall j c, (j < i - k)%nat -> chain !! j = Some c -> f c = false).
Proof.
  induction chain as [|c chain IH]; intros k i H; simpl in H; [discriminate|].
  destruct (f c) eqn:Hf.
  - injection H as <-. split; [lia|]. rewrite Nat.sub_diag. split.
    + exists c. split; [reflexivity|exact Hf].
    + intros j c0 Hj. lia.
  - apply IH in H as (Hle & (lici & Hl & Hfl) & Hbefore).
    split; [lia|]. replace (i - k)%nat with (Datatypes.S (i - Datatypes.S k)) by lia.
    split.
    + exists lici. split; [exact Hl|exact Hfl].
    + intros [|j] c0 Hj Hc0.
      * cbn in Hc0. injection Hc0 as <-. exact Hf.
      * cbn in Hc0. apply (Hbefore j c0); [lia|exact Hc0].
Qed.

Lemma take_link_spec (chain chain' : list chain_entry) (i : nat) (link : VkLayerLink) :
  take_link chain i = Some (link, chain') ->
  length chain' = length chain
  /\ (exists lici lici',
        chain !! i = Some lici /\ chain' !! i = Some lici'
        /\ pLayerInfo lici = link :: pLayerInfo lici'
        /\ sType lici' = sType lici /\ function lici' = function lici)
  /\ (forall j, j <> i -> chain' !! j = chain !! j).
Proof.
  unfold take_link. destruct (chain !! i) as [lici|] eqn:Hl; [|discriminate].
  destruct (pLayerInfo lici) as [|l rest] eqn:Hp; [discriminate|].
  intros H. injection H as <- <-.
  split; [apply length_insert|]. split.
  - exists lici, (set_pLayerInfo rest lici). split; [reflexivity|].
    split; [apply list_lookup_insert_eq; apply lookup_lt_Some in Hl; exact Hl|].
    split; [exact Hp|]. split; reflexivity.
  - intros j Hj. apply list_lookup_insert_ne. congruence.
Qed.

(** X28: [OBS_CreateInstance] with a link info in the chain. The
    chain is moved on by one link at the first link-info structure; the
    next layer is first asked with an API version of at least 1.2 and the
    application info otherwise unchanged. If that succeeds the instance is
    tracked, valid exactly if the four instance functions were found, and
    [OBS_DestroyInstance] removes it again; if only the retry with the
    caller's arguments succeeds the instance is tracked but invalid; if
    both fail nothing is tracked and the second result is returned. *)
Theorem create_instance_outcomes (e : inst_env) (cinfo : VkInstanceCreateInfo)
    (p : process) (i : nat) (link : VkLayerLink) (chain : list chain_entry) :
  find_link_info is_inst_link_info (i_pNext cinfo) 0 = Some i ->
  take_link (i_pNext cinfo) i = Some (link, chain) ->
  ie_alloc_inst_data e = true ->
  let cinfo' := {| i_pNext := chain; pApplicationInfo := pApplicationInfo cinfo |} in
  let ai := hacked_application_info (pApplicationInfo cinfo) in
  let info := {| i_pNext := chain; pApplicationInfo := Some ai |} in
  let first := ie_CreateInstance e info in
  let second := ie_CreateInstance e cinfo' in
  let found := negb (ie_gpa e "vkGetInstanceProcAddr" =? 0)
               && negb (ie_gpa e "vkDestroyInstance" =? 0)
               && negb (ie_gpa e "vkGetPhysicalDeviceQueueFamilyProperties" =? 0)
               && negb (ie_gpa e "vkGetPhysicalDeviceMemoryProperties" =? 0) in
  exists r p' evs,
    OBS_CreateInstance e cinfo p = Some (r, cinfo', p')
    /\ p_tr p' = p_tr p ++ LvNextCreateInstance info :: evs
    /\ p_devices p' = p_devices p
    /\ (exists lici lici',
          i_pNext cinfo !! i = Some lici /\ is_inst_link_info lici = true
          /\ chain !! i = Some lici'
          /\ pLayerInfo lici = link :: pLayerInfo lici'
          /\ (forall j c, (j < i)%nat -> i_pNext cinfo !! j = Some c ->
                          is_inst_link_info c = false)
          /\ (forall j, j <> i -> chain !! j = i_pNext cinfo !! j))
    /\ VK_API_VERSION_1_2 <= apiVersion ai
    /\ (forall a, pApplicationInfo cinfo = Some a ->
          apiVersion ai = Z.max (apiVersion a) VK_API_VERSION_1_2
          /\ set_apiVersion (apiVersion a) ai = a)
    /\ (fst first = VK_SUCCESS ->
        r = VK_SUCCESS /\ evs = []
        /\ exists idata,
             instances p' = (h_ldt (snd first), idata) :: instances p
             /\ instance idata = h_val (snd first)
             /\ inst_valid idata = found
             /\ (ie_gpa e "vkDestroyInstance" <> 0 ->
                 exists p'', OBS_DestroyInstance (snd first) p' = Some p''
                             /\ instances p'' = instances p))
    /\ (fst first <> VK_SUCCESS -> fst second = VK_SUCCESS ->
        r = VK_SUCCESS /\ evs = [LvNextCreateInstance cinfo']
        /\ exists idata,
             instances p' = (h_ldt (snd second), idata) :: instances p
             /\ instance idata = h_val (snd second)
             /\ inst_valid idata = false)
    /\ (fst first <> VK_SUCCESS -> fst second <> VK_SUCCESS ->
        r = fst second /\ instances p' = instances p
        /\ evs = [LvNextCreateInstance cinfo'; LvVkFree FrInstData]).
Proof.
  intros Hf Ht Ha cinfo' ai info first second found.
  assert (Hver : VK_API_VERSION_1_2 <= apiVersion ai
                 /\ (forall a, pApplicationInfo cinfo = Some a ->
                       apiVersion ai = Z.max (apiVersion a) VK_API_VERSION_1_2
                       /\ set_apiVersion (apiVersion a) ai = a)).
  { unfold ai, hacked_application_info.
    destruct (pApplicationInfo cinfo) as [a|].
    - destruct (Z.ltb_spec (apiVersion a) VK_API_VERSION_1_2) as [H|H].
      + split; [cbn; lia|]. intros a0 E. injection E as <-. split; [cbn; lia|].
        destruct a; reflexivity.
      + split; [exact H|]. intros a0 E. injection E as <-. split; [lia|].
        destruct a; reflexivity.
    - split; [cbn; lia|]. intros a E. discriminate. }
  destruct Hver as [Hv1 Hv2].
  assert (Hchain : exists lici lici',
             i_pNext cinfo !! i = Some lici /\ is_inst_link_info lici = true
             /\ chain !! i = Some lici'
             /\ pLayerInfo lici = link :: pLayerInfo lici'
             /\ (forall j c, (j < i)%nat -> i_pNext cinfo !! j = Some c ->
                             is_inst_link_info c = false)
             /\ (forall j, j <> i -> chain !! j = i_pNext cinfo !! j)).
  { destruct (find_link_info_spec _ _ _ _ Hf) as (_ & (l0 & Hl0 & Hfl) & Hbefore).
    destruct (take_link_spec _ _ _ _ Ht) as (_ & (lici & lici' & H1 & H2 & H3 & _) & Hoth).
    rewrite Nat.sub_0_r in Hl0, Hbefore.
    exists lici, lici'. split; [exact H1|]. split; [congruence|].
    split; [exact H2|]. split; [exact H3|]. split; [exact Hbefore|exact Hoth]. }
  unfold OBS_CreateInstance. rewrite Hf, Ht, Ha. cbn [negb].
  fold cinfo'. fold ai. fold info. fold first.
  destruct first as [res inst] eqn:E1. cbn [fst snd].
  destruct (Z.eqb_spec res VK_SUCCESS) as [->|Hres]; cbn [negb].
  - do 3 eexists. split; [reflexivity|].
    split; [reflexivity|]. split; [reflexivity|]. split; [exact Hchain|]. split; [exact Hv1|].
    split; [exact Hv2|].
    split.
    { intros _. split; [reflexivity|]. split; [reflexivity|].
      eexists. split; [reflexivity|]. split; [reflexivity|].
      split; [reflexivity|].
      intros Hd. unfold OBS_DestroyInstance, track_instance.
      cbn [instances set_instances add_obj_data get_obj_data inst_funcs
           f_DestroyInstance remove_obj_data].
      rewrite Z.eqb_refl. cbn [inst_funcs f_DestroyInstance].
      replace (ie_gpa e "vkDestroyInstance" =? 0) with false
        by (symmetry; apply Z.eqb_neq; exact Hd).
      eexists. split; [reflexivity|]. reflexivity. }
    split; [intros H; congruence|]. intros H; congruence.
  - fold second. destruct second as [res2 inst2] eqn:E2. cbn [fst snd].
    destruct (Z.eqb_spec res2 VK_SUCCESS) as [->|Hres2]; cbn [negb].
    + do 3 eexists. split; [reflexivity|].
      split; [cbn; rewrite <- app_assoc; reflexivity|]. split; [reflexivity|].
      split; [exact Hchain|]. split; [exact Hv1|]. split; [exact Hv2|].
      split; [intros H; congruence|].
      split; [|intros _ H; congruence].
      intros _ _. split; [reflexivity|]. split; [reflexivity|].
      eexists. split; [reflexivity|]. split; reflexivity.
    + do 3 eexists. split; [reflexivity|].
      split; [cbn; rewrite <- !app_assoc; reflexivity|]. split; [reflexivity|].
      split; [exact Hchain|]. split; [exact Hv1|]. split; [exact Hv2|].
      split; [intros H; congruence|].
      split; [intros _ H; congruence|].
      intros _ _. split; [reflexivity|]. split; reflexivity.
Qed.

Lemma create_instance_outcomes_witness :
  exists p' idata,
    OBS_CreateInstance inst_env_ok instance_cinfo
      (snd (OBS_Negotiate negotiate_v5 process_start))
    = Some (VK_SUCCESS,
            {| i_pNext := [ {| sType := 1000128004; function := 0; pLayerInfo := [] |};
                            {| sType := VK_STRUCTURE_TYPE_LOADER_INSTANCE_CREATE_INFO;
                               function := VK_LAYER_LINK_INFO;
                               pLayerInfo := [link_b] |} ];
               pApplicationInfo := pApplicationInfo instance_cinfo |}, p')
    /\ instances p' = [(90, idata)]
    /\ inst_valid idata = true.
Proof.
  destruct (create_instance_outcomes inst_env_ok instance_cinfo
              (snd (OBS_Negotiate negotiate_v5 process_start)) 1 link_a
              [ {| sType := 1000128004; function := 0; pLayerInfo := [] |};
                {| sType := VK_STRUCTURE_TYPE_LOADER_INSTANCE_CREATE_INFO;
                   function := VK_LAYER_LINK_INFO; pLayerInfo := [link_b] |} ])
    as (r & p' & evs & Hrun & _ & _ & _ & _ & _ & Hok & _).
  - reflexivity.
  - reflexivity.
  - reflexivity.
  - destruct Hok as (-> & _ & idata & Hi & _ & Hv & _); [reflexivity|].
    exists p', idata. split; [exact Hrun|]. split; [exact Hi|]. rewrite Hv. reflexivity.
Defined.


(** *** Device creation *)

Lemma inject_extension_spec (info : VkDeviceCreateInfo) :
  d_pNext (inject_extension info) = d_pNext info
  /\ queueCreateInfos (inject_extension info) = queueCreateInfos info
  /\ In VK_KHR_EXTERNAL_MEMORY_FD_EXTENSION_NAME
        (enabledExtensionNames (inject_extension info))
  /\ (In VK_KHR_EXTERNAL_MEMORY_FD_EXTENSION_NAME (enabledExtensionNames info) ->
      inject_extension info = info)
  /\ (~ In VK_KHR_EXTERNAL_MEMORY_FD_EXTENSION_NAME (enabledExtensionNames info) ->
      enabledExtensionNames (inject_extension info)
      = enabledExtensionNames info ++ [VK_KHR_EXTERNAL_MEMORY_FD_EXTENSION_NAME])
  /\ inject_extension (inject_extension info) = inject_extension info.
Proof.
  assert (Hex : forall l,
             existsb (fun name => String.eqb name VK_KHR_EXTERNAL_MEMORY_FD_EXTENSION_NAME) l
             = true <-> In VK_KHR_EXTERNAL_MEMORY_FD_EXTENSION_NAME l).
  { intros l. rewrite existsb_exists. split.
    - intros (x & Hin & Hx). apply String.eqb_eq in Hx. subst. exact Hin.
    - intros Hin. eexists. split; [exact Hin|]. apply String.eqb_refl. }
  unfold inject_extension.
  destruct (existsb _ (enabledExtensionNames info)) eqn:E; cbn [negb].
  - apply Hex in E. rewrite (proj2 (Hex _) E). cbn [negb].
    repeat split; try assumption; try reflexivity. intros Hn. contradiction.
  - cbn [d_pNext queueCreateInfos enabledExtensionNames].
    assert (Hin : In VK_KHR_EXTERNAL_MEMORY_FD_EXTENSION_NAME
                    (enabledExtensionNames info
                     ++ [VK_KHR_EXTERNAL_MEMORY_FD_EXTENSION_NAME]))
      by (apply in_or_app; right; left; reflexivity).
    rewrite (proj2 (Hex _) Hin). cbn [negb].
    split; [reflexivity|]. split; [reflexivity|]. split; [exact Hin|].
    split.
    + intros H. apply Hex in H. congruence.
    + split; reflexivity.
Qed.





(** X30: the other ways out of [OBS_CreateDevice]. Without a link
    info it fails with VK_ERROR_INITIALIZATION_FAILED, yet the caller's
    extension list has already been extended; a failed allocation or a
    failure of the next layer tracks nothing; and a device for which a
    function is missing, or whose instance is invalid, is returned as a
    success but tracked as invalid with no queues, so that a present on it
    is only forwarded. *)
Theorem create_device_failures (e : dev_env) (phy_device : handle)
    (info : VkDeviceCreateInfo) (p : process) :
  (find_link_info is_device_link_info (d_pNext info) 0 = None ->
   OBS_CreateDevice e phy_device info p
   = Some (VK_ERROR_INITIALIZATION_FAILED, inject_extension info, p)
   /\ In VK_KHR_EXTERNAL_MEMORY_FD_EXTENSION_NAME
         (enabledExtensionNames (inject_extension info)))
  /\ forall i link chain,
       find_link_info is_device_link_info (d_pNext info) 0 = Some i ->
       take_link (d_pNext info) i = Some (link, chain) ->
       let info' := {| d_pNext := chain;
                       enabledExtensionNames :=
                         enabledExtensionNames (inject_extension info);
                       queueCreateInfos := queueCreateInfos info |} in
       (de_alloc_device_data e = None ->
        OBS_CreateDevice e phy_device info p
        = Some (VK_ERROR_OUT_OF_HOST_MEMORY, info', p))
       /\ forall block idata,
            de_alloc_device_data e = Some block ->
            get_obj_data (instances p) (h_ldt phy_device) = Some idata ->
            (fst (de_CreateDevice e info') <> VK_SUCCESS ->
             OBS_CreateDevice e phy_device info p
             = Some (fst (de_CreateDevice e info'), info',
                     p_emit [LvNextCreateDevice (h_val phy_device) info';
                             LvVkFree FrDeviceData] p))
            /\ (fst (de_CreateDevice e info') = VK_SUCCESS ->
                forallb (fun name => negb (de_gdpa e name =? 0)) device_funcs = false
                \/ inst_valid idata = false ->
                let device := snd (de_CreateDevice e info') in
                let data := {| device := h_val device; valid := false;
                               phy_device := h_val phy_device;
                               swaps := swaps block; cur_swap := cur_swap block;
                               queues := [] |} in
                exists p',
                  OBS_CreateDevice e phy_device info p = Some (VK_SUCCESS, info', p')
                  /\ p_devices p'
                     = (h_ldt device, {| d_data := data; d_funcs := de_gdpa e |})
                       :: p_devices p
                  /\ p_tr p' = p_tr p ++ [LvNextCreateDevice (h_val phy_device) info']
                  /\ forall e' queue sc idx lim t,
                       h_ldt queue = h_ldt device ->
                       OBS_QueuePresentKHR e' queue sc idx (world_of p' lim t)
                       = Some (e_QueuePresentKHR e',
                               w_emit [EvNextQueuePresentKHR (h_val queue)]
                                      (world_of p' lim t))).
Proof.
  destruct (inject_extension_spec info) as (Hp & Hqs & Hin & _).
  split.
  - intros Hf. unfold OBS_CreateDevice. rewrite Hp, Hf. split; [reflexivity|exact Hin].
  - intros i link chain Hf Ht info'. split.
    + intros Ha. unfold OBS_CreateDevice. rewrite Hp, Hf, Ht, Ha, Hqs. reflexivity.
    + intros block idata Ha Hi. split.
      * intros Hr. unfold OBS_CreateDevice. rewrite Hi, Hp, Hf, Ht, Ha, Hqs.
        fold info'. destruct (de_CreateDevice e info') as [ret device]. cbn [fst] in *.
        replace (ret =? VK_SUCCESS) with false by (symmetry; apply Z.eqb_neq; exact Hr).
        cbn [negb]. unfold p_emit. cbn. rewrite <- app_assoc. reflexivity.
      * intros Hr Hor device data.
        assert (Hrun : OBS_CreateDevice e phy_device info p
                       = Some (VK_SUCCESS, info',
                               set_p_devices
                                 (add_obj_data
                                    (p_devices (p_emit [LvNextCreateDevice
                                                          (h_val phy_device) info'] p))
                                    (h_ldt device)
                                    {| d_data := data; d_funcs := de_gdpa e |})
                                 (p_emit [LvNextCreateDevice (h_val phy_device) info'] p))).
        { unfold OBS_CreateDevice. rewrite Hi, Hp, Hf, Ht, Ha, Hqs.
          fold info'. subst device data.
          destruct (de_CreateDevice e info') as [ret device]. cbn [fst snd] in *.
          subst ret. change (VK_SUCCESS =? VK_SUCCESS) with true. cbn [negb].
          destruct Hor as [H|H].
          - rewrite H. reflexivity.
          - rewrite H. cbn [negb].
            destruct (forallb _ device_funcs); reflexivity. }
        eexists. split; [exact Hrun|].
        split; [reflexivity|]. split; [reflexivity|].
        intros e' queue sc idx lim t Hq.
        unfold OBS_QueuePresentKHR, world_of. cbn [devices p_devices set_p_devices
          add_obj_data List.map fst snd d_data get_obj_data].
        rewrite Hq, Z.eqb_refl. reflexivity.
Qed.

Lemma create_device_failures_witness :
  OBS_CreateDevice dev_env_ok phy_device_2
    {| d_pNext := []; enabledExtensionNames := []; queueCreateInfos := [] |}
    process_instance
  = Some (VK_ERROR_INITIALIZATION_FAILED,
          {| d_pNext := []; enabledExtensionNames := ["VK_KHR_external_memory_fd"];
             queueCreateInfos := [] |}, process_instance)
  /\ exists p',
       OBS_CreateDevice dev_env_no_fd phy_device_2 device_cinfo process_instance
       = Some (VK_SUCCESS,
               {| d_pNext := [ {| sType := VK_STRUCTURE_TYPE_LOADER_DEVICE_CREATE_INFO;
                                  function := VK_LAYER_LINK_INFO; pLayerInfo := [] |} ];
                  enabledExtensionNames :=
                    ["VK_KHR_swapchain"; "VK_KHR_external_memory_fd"];
                  queueCreateInfos := queueCreateInfos device_cinfo |}, p')
       /\ List.map (fun kd => (fst kd, valid (d_data (snd kd)))) (p_devices p')
          = [(100, false)].
Proof.
  destruct (create_device_failures dev_env_ok phy_device_2
              {| d_pNext := []; enabledExtensionNames := []; queueCreateInfos := [] |}
              process_instance) as (Hnolink & _).
  destruct (create_device_failures dev_env_no_fd phy_device_2 device_cinfo
              process_instance) as (_ & Hlink).
  split.
  - destruct Hnolink as [H _]; [reflexivity|]. exact H.
  - destruct (Hlink 0%nat link_a
                [ {| sType := VK_STRUCTURE_TYPE_LOADER_DEVICE_CREATE_INFO;
                     function := VK_LAYER_LINK_INFO; pLayerInfo := [] |} ])
      as (_ & Hblock); [reflexivity|reflexivity|].
    destruct (Hblock device_2
                {| instance := 9; inst_valid := true;
                   inst_funcs :=
                     {| f_GetInstanceProcAddr := 7100; f_DestroyInstance := 7100;
                        f_GetPhysicalDeviceQueueFamilyProperties := 7100;
                        f_GetPhysicalDeviceMemoryProperties := 7100 |} |})
      as (_ & Hdeg); [reflexivity|reflexivity|].
    destruct Hdeg as (p' & Hrun & Hd & _); [reflexivity|left; reflexivity|].
    exists p'. split; [exact Hrun|]. rewrite Hd. reflexivity.
Defined.

End LoaderProofs.
